(** * The TLSv1.3 legacy (blocking style) adapter of libssl

    A shallow embedding of [lib/libssl/tls13_legacy.c]: the return-code
    translator, the error surface mapper, the pending-data query, the
    read, write and shutdown entry points and the two wire callbacks,
    followed by the properties the specification states about them and by
    further properties read off the code.

    The file is compiled for an LP64 platform: [int] has 32 bits, [size_t]
    and [ssize_t] have 64.  C integers are integers of [Z]; every place where
    the C code converts between widths is written out with [to_size_t] or
    [to_int].

    Whatever the C file takes from its two headers and from the libraries it
    links against is a parameter of the development:
    - the numeric constants of [ssl_locl.h] and [tls13_internal.h];
    - the error queue, the BIO flags and the BIO transfers of libcrypto,
      and which BIO is the NULL pointer;
    - the record layer, the handshake driver: the collaborators the adapter
      calls into.
    A concrete choice of all of them ([Reference]) is used to run the model
    on explicit inputs. *)

From Stdlib Require Import ZArith List String Bool Lia.
From Stdlib.Strings Require Import Byte.
Import ListNotations.
Open Scope Z_scope.

Set Implicit Arguments.

(** ** C integer types *)

Definition INT_MAX : Z := 2147483647.

(** Conversion to [size_t]: reduction modulo [2^64]. *)
Definition to_size_t (x : Z) : Z := x mod 2 ^ 64.

(** Conversion to [int]: the value modulo [2^32] read as two's complement. *)
Definition to_int (x : Z) : Z := (x + 2 ^ 31) mod 2 ^ 32 - 2 ^ 31.

(** ** What the headers and libcrypto provide *)

(** Constants of [ssl_locl.h] (with [ssl.h], [ssl3.h] and [err.h], which it
    includes). *)
Class ssl_locl_h : Type := {
  SSL_NOTHING : Z;
  SSL_WRITING : Z;
  SSL_READING : Z;
  SSL_SENT_SHUTDOWN : Z;
  SSL_RECEIVED_SHUTDOWN : Z;
  SSL_MODE_ENABLE_PARTIAL_WRITE : Z;
  SSL3_RT_APPLICATION_DATA : Z;
  SSL_AD_CLOSE_NOTIFY : Z;
  ERR_LIB_SSL : Z;
  ERR_R_INTERNAL_ERROR : Z;
  ERR_R_SHOULD_NOT_HAVE_BEEN_CALLED : Z;
  SSL_R_BAD_LENGTH : Z;
  SSL_R_UNKNOWN : Z;
  SSL_R_CERTIFICATE_VERIFY_FAILED : Z;
  SSL_R_NO_CIPHERS_AVAILABLE : Z;
  SSL_R_EXTRA_DATA_IN_MESSAGE : Z;
  SSL_R_NO_SHARED_CIPHER : Z
}.

(** Constants of [tls13_internal.h]: the outcome codes of the record layer
    and the error codes of the handshake context. *)
Class tls13_internal_h : Type := {
  TLS13_IO_SUCCESS : Z;
  TLS13_IO_EOF : Z;
  TLS13_IO_FAILURE : Z;
  TLS13_IO_ALERT : Z;
  TLS13_IO_WANT_POLLIN : Z;
  TLS13_IO_WANT_POLLOUT : Z;
  TLS13_IO_WANT_RETRY : Z;
  TLS13_ERR_VERIFY_FAILED : Z;
  TLS13_ERR_HRR_FAILED : Z;
  TLS13_ERR_TRAILING_DATA : Z;
  TLS13_ERR_NO_SHARED_CIPHER : Z
}.

(** libcrypto: the BIO pointers, of which [BIO_is_NULL] tells the NULL
    pointer, the BIO retry flags and the error queue of the thread.
    [BIO_set_retry_read] and [BIO_set_retry_write] give the BIO with the
    flags set; the adapter applies them to a BIO that is not NULL only.
    [RL] is the record layer held by a handshake context and [OTHER] the
    rest of the connection, both opaque to the adapter. *)
Class libcrypto : Type := {
  BIO : Type;
  BIO_is_NULL : BIO -> bool;
  BIO_set_retry_read : BIO -> BIO;
  BIO_set_retry_write : BIO -> BIO;
  ERR_STATE : Type;
  ERR_put_error : Z -> Z -> Z -> string -> Z -> ERR_STATE -> ERR_STATE;
  ERR_peek_error : ERR_STATE -> Z;
  RL : Type;
  OTHER : Type
}.

(** ** Data model *)

Section DataModel.
Context {LC : libcrypto}.

(** [struct tls13_error]: the fields the adapter reads. *)
Record tls13_error : Type := {
  code : Z;
  file : string;
  line : Z
}.

(** [struct tls13_ctx]. *)
Record tls13_ctx : Type := {
  error : tls13_error;
  rl : RL;
  handshake_completed : Z;
  close_notify_sent : Z;
  close_notify_recv : Z
}.

(** The connection: the fields of [SSL], [ssl->internal] and [S3I(ssl)]
    the adapter touches, the error queue of the thread driving it, and
    everything else.  [tls13 = None] is the NULL context. *)
Record SSL : Type := {
  rbio : BIO;
  wbio : BIO;
  rwstate : Z;
  tls13 : option tls13_ctx;
  mode : Z;
  quiet_shutdown : Z;
  shutdown : Z;
  fatal_alert : Z;
  wnum : Z;
  err : ERR_STATE;
  other : OTHER
}.

Definition set_rbio (b : BIO) (s : SSL) : SSL :=
  {| rbio := b; wbio := wbio s; rwstate := rwstate s; tls13 := tls13 s;
     mode := mode s; quiet_shutdown := quiet_shutdown s;
     shutdown := shutdown s; fatal_alert := fatal_alert s;
     wnum := wnum s; err := err s; other := other s |}.

Definition set_wbio (b : BIO) (s : SSL) : SSL :=
  {| rbio := rbio s; wbio := b; rwstate := rwstate s; tls13 := tls13 s;
     mode := mode s; quiet_shutdown := quiet_shutdown s;
     shutdown := shutdown s; fatal_alert := fatal_alert s;
     wnum := wnum s; err := err s; other := other s |}.

Definition set_rwstate (v : Z) (s : SSL) : SSL :=
  {| rbio := rbio s; wbio := wbio s; rwstate := v; tls13 := tls13 s;
     mode := mode s; quiet_shutdown := quiet_shutdown s;
     shutdown := shutdown s; fatal_alert := fatal_alert s;
     wnum := wnum s; err := err s; other := other s |}.

Definition set_tls13 (c : option tls13_ctx) (s : SSL) : SSL :=
  {| rbio := rbio s; wbio := wbio s; rwstate := rwstate s; tls13 := c;
     mode := mode s; quiet_shutdown := quiet_shutdown s;
     shutdown := shutdown s; fatal_alert := fatal_alert s;
     wnum := wnum s; err := err s; other := other s |}.

Definition set_shutdown (v : Z) (s : SSL) : SSL :=
  {| rbio := rbio s; wbio := wbio s; rwstate := rwstate s; tls13 := tls13 s;
     mode := mode s; quiet_shutdown := quiet_shutdown s;
     shutdown := v; fatal_alert := fatal_alert s;
     wnum := wnum s; err := err s; other := other s |}.

Definition set_wnum (v : Z) (s : SSL) : SSL :=
  {| rbio := rbio s; wbio := wbio s; rwstate := rwstate s; tls13 := tls13 s;
     mode := mode s; quiet_shutdown := quiet_shutdown s;
     shutdown := shutdown s; fatal_alert := fatal_alert s;
     wnum := v; err := err s; other := other s |}.

Definition set_err (e : ERR_STATE) (s : SSL) : SSL :=
  {| rbio := rbio s; wbio := wbio s; rwstate := rwstate s; tls13 := tls13 s;
     mode := mode s; quiet_shutdown := quiet_shutdown s;
     shutdown := shutdown s; fatal_alert := fatal_alert s;
     wnum := wnum s; err := e; other := other s |}.

Definition set_close_notify_sent (v : Z) (c : tls13_ctx) : tls13_ctx :=
  {| error := error c; rl := rl c;
     handshake_completed := handshake_completed c;
     close_notify_sent := v; close_notify_recv := close_notify_recv c |}.

(** The collaborators.  Each receives the connection it is called on and
    returns its outcome with the connection it leaves behind; the data a
    read delivers into the caller's buffer is not part of the model, since
    no function of the adapter looks at it.  [SSL_state_func_code] gives
    the function code [SSLerror] files a diagnostic under. *)
Class collaborators : Type := {
  handshake_func : SSL -> Z * SSL;
  tls13_pending_application_data : SSL -> Z;
  tls13_peek_application_data : SSL -> Z -> Z * SSL;
  tls13_read_application_data : SSL -> Z -> Z * SSL;
  tls13_write_application_data : SSL -> list byte -> Z -> Z * SSL;
  tls13_send_alert : SSL -> Z -> Z * SSL;
  tls13_record_layer_send_pending : SSL -> Z * SSL;
  SSL_state_func_code : SSL -> Z
}.

(** One entry per call into a collaborator, with its arguments and its
    outcome, in the order the calls were made. *)
Inductive call : Type :=
| Call_handshake_func (ret : Z)
| Call_peek_application_data (n ret : Z)
| Call_read_application_data (n ret : Z)
| Call_write_application_data (data : list byte) (n ret : Z)
| Call_send_alert (desc ret : Z)
| Call_send_pending (ret : Z).

(** The machine the adapter runs on: the connection and the calls made so
    far.  The collaborators see the connection only. *)
Record machine : Type := {
  conn : SSL;
  calls : list call
}.

(** What stops a run: dereferencing the NULL context, dereferencing a NULL
    BIO, or a loop that has used up its fuel. *)
Inductive fault : Type := NullContext | NullBIO | OutOfFuel.

Inductive result (A : Type) : Type :=
| Ok (a : A) (m : machine)
| Stuck (f : fault).

Definition M (A : Type) : Type := machine -> result A.

Definition ret_ {A : Type} (a : A) : M A := fun m => Ok a m.

Definition bind {A B : Type} (c : M A) (k : A -> M B) : M B :=
  fun m => match c m with
           | Ok a m' => k a m'
           | Stuck _ f => Stuck B f
           end.

Definition stuck {A : Type} (f : fault) : M A := fun _ => Stuck A f.

Definition gets {A : Type} (f : SSL -> A) : M A :=
  fun m => Ok (f (conn m)) m.

(** A change of the connection that calls no collaborator. *)
Definition on_conn (f : SSL -> SSL) (m : machine) : machine :=
  {| conn := f (conn m); calls := calls m |}.

Definition modify (f : SSL -> SSL) : M unit :=
  fun m => Ok tt (on_conn f m).

(** [ctx->field] for the context of the connection. *)
Definition ctx_field {A : Type} (f : tls13_ctx -> A) : M A :=
  fun m => match tls13 (conn m) with
           | Some c => Ok (f c) m
           | None => Stuck A NullContext
           end.

(** A call into a collaborator: run it on the connection and log it. *)
Definition extern (f : SSL -> Z * SSL) (ev : Z -> call) : M Z :=
  fun m => let (r, s') := f (conn m) in
           Ok r {| conn := s'; calls := calls m ++ [ev r] |}.

End DataModel.

Arguments Stuck {LC A} f.

Declare Scope adapter_scope.
Delimit Scope adapter_scope with adapter.
Notation "x <- c ;; k" := (bind c (fun x => k))
  (at level 61, c at next level, right associativity) : adapter_scope.
Notation "c ;; k" := (bind c (fun _ => k))
  (at level 61, right associativity) : adapter_scope.

(** ** The adapter *)

Section Adapter.
Context {SH : ssl_locl_h} {TH : tls13_internal_h} {LC : libcrypto}
        {CO : collaborators}.
Local Open Scope adapter_scope.

(** [__FILE__] at the diagnostics the adapter files itself. *)
Definition FILE_ : string := "tls13_legacy.c"%string.

(** Modelled from the spec: the [SSLerror(ssl, r)] macro of [ssl_locl.h],
    which is not among the sources.  It records a diagnostic: reason [r] is
    put on the error queue for the SSL library, under the function code the
    collaborators derive from the connection, with the source position of
    the macro call. *)
Definition SSLerror_at (r : Z) (at_line : Z) (s : SSL) : SSL :=
  set_err (ERR_put_error ERR_LIB_SSL (SSL_state_func_code s) r
                         FILE_ at_line (err s)) s.

Definition SSLerror (r : Z) (at_line : Z) : M unit :=
  modify (SSLerror_at r at_line).

(** [ERR_put_error(ERR_LIB_SSL, (0xfff), reason, ctx->error.file,
    ctx->error.line)] *)
Definition put_error_of (reason : Z) (e : tls13_error) (s : SSL) : SSL :=
  set_err (ERR_put_error ERR_LIB_SSL 4095 reason (file e) (line e) (err s)) s.

(** The [switch] of [tls13_legacy_error] over [ctx->error.code]; [reason]
    starts as [SSL_R_UNKNOWN] and stays so when no label matches. *)
Definition reason_of_error_code (c : Z) : Z :=
  if c =? TLS13_ERR_VERIFY_FAILED then SSL_R_CERTIFICATE_VERIFY_FAILED
  else if c =? TLS13_ERR_HRR_FAILED then SSL_R_NO_CIPHERS_AVAILABLE
  else if c =? TLS13_ERR_TRAILING_DATA then SSL_R_EXTRA_DATA_IN_MESSAGE
  else if c =? TLS13_ERR_NO_SHARED_CIPHER then SSL_R_NO_SHARED_CIPHER
  else SSL_R_UNKNOWN.

(** [static void tls13_legacy_error(SSL *ssl)] *)
Definition tls13_legacy_error : M unit :=
  fatal <- gets fatal_alert ;;
  (* If we received a fatal alert we already put an error on the stack. *)
  if negb (fatal =? 0) then ret_ tt
  else
    e <- ctx_field error ;;
    let reason := reason_of_error_code (code e) in
    pending <- gets (fun s => ERR_peek_error (err s)) ;;
    (* Something (probably libcrypto) already pushed an error on the stack. *)
    if (reason =? SSL_R_UNKNOWN) && negb (pending =? 0) then ret_ tt
    else
      modify (put_error_of reason e).

(** The connection with the retry flags set in its read BIO, and in its
    write BIO. *)
Definition flag_retry_read (s : SSL) : SSL :=
  set_rbio (BIO_set_retry_read (rbio s)) s.

Definition flag_retry_write (s : SSL) : SSL :=
  set_wbio (BIO_set_retry_write (wbio s)) s.

(** [BIO_set_retry_read(ssl->rbio)] and [BIO_set_retry_write(ssl->wbio)]:
    the macros write the flags of the BIO they are handed and do not test it
    for the NULL pointer, which stops the run. *)
Definition retry_read : M unit :=
  b <- gets rbio ;;
  if BIO_is_NULL b then stuck NullBIO
  else modify flag_retry_read.

Definition retry_write : M unit :=
  b <- gets wbio ;;
  if BIO_is_NULL b then stuck NullBIO
  else modify flag_retry_write.

(** [int tls13_legacy_return_code(SSL *ssl, ssize_t ret)].  A positive [ret]
    that is returned is at most [INT_MAX], so the conversion to [int] of the
    [return] leaves it as it is. *)
Definition tls13_legacy_return_code (ret : Z) : M Z :=
  if ret >? INT_MAX then
    SSLerror ERR_R_INTERNAL_ERROR 137 ;;
    ret_ (-1)
  (* A successful read, write or other operation. *)
  else if ret >? 0 then ret_ ret
  else
    modify (set_rwstate SSL_NOTHING) ;;
    if ret =? TLS13_IO_EOF then ret_ 0
    else if ret =? TLS13_IO_FAILURE then
      tls13_legacy_error ;;
      ret_ (-1)
    else if ret =? TLS13_IO_ALERT then
      tls13_legacy_error ;;
      ret_ (-1)
    else if ret =? TLS13_IO_WANT_POLLIN then
      retry_read ;;
      modify (set_rwstate SSL_READING) ;;
      ret_ (-1)
    else if ret =? TLS13_IO_WANT_POLLOUT then
      retry_write ;;
      modify (set_rwstate SSL_WRITING) ;;
      ret_ (-1)
    else if ret =? TLS13_IO_WANT_RETRY then
      SSLerror ERR_R_INTERNAL_ERROR 170 ;;
      ret_ (-1)
    else
      SSLerror ERR_R_INTERNAL_ERROR 174 ;;
      ret_ (-1).

(** [int tls13_legacy_pending(const SSL *ssl)]: the connection is not
    modified. *)
Definition tls13_legacy_pending (s : SSL) : Z :=
  match tls13 s with
  | None => 0
  | Some _ =>
      let ret := tls13_pending_application_data s in
      if (ret <? 0) || (ret >? INT_MAX) then 0 else ret
  end.

(** [ctx == NULL || !ctx->handshake_completed] *)
Definition handshaking (s : SSL) : bool :=
  match tls13 s with
  | None => true
  | Some c => handshake_completed c =? 0
  end.

(** [int tls13_legacy_read_bytes(SSL *ssl, int type, unsigned char *buf,
    int len, int peek)] *)
Definition tls13_legacy_read_bytes (type len peek : Z) : M Z :=
  hs <- gets handshaking ;;
  if hs then
    ret <- extern handshake_func Call_handshake_func ;;
    if ret <=? 0 then ret_ ret
    else tls13_legacy_return_code TLS13_IO_WANT_POLLIN
  else if negb (type =? SSL3_RT_APPLICATION_DATA) then
    SSLerror ERR_R_SHOULD_NOT_HAVE_BEEN_CALLED 207 ;;
    ret_ (-1)
  else if len <? 0 then
    SSLerror SSL_R_BAD_LENGTH 211 ;;
    ret_ (-1)
  else
    ret <- (if negb (peek =? 0)
            then extern (fun s => tls13_peek_application_data s (to_size_t len))
                        (Call_peek_application_data (to_size_t len))
            else extern (fun s => tls13_read_application_data s (to_size_t len))
                        (Call_read_application_data (to_size_t len))) ;;
    tls13_legacy_return_code ret.

(** The [for (;;)] loop of [tls13_legacy_write_bytes]; [sent] and [n] are of
    type [size_t], [&buf[sent]] is the buffer without its first [sent]
    bytes.  One unit of [fuel] pays for one turn of the loop. *)
Fixpoint write_loop (fuel : nat) (buf : list byte) (sent n : Z) : M Z :=
  match fuel with
  | O => stuck OutOfFuel
  | S fuel' =>
      if n =? 0 then
        modify (set_wnum 0) ;;
        ret_ (to_int sent)
      else
        ret <- extern (fun s => tls13_write_application_data s
                                  (skipn (Z.to_nat sent) buf) n)
                      (Call_write_application_data
                         (skipn (Z.to_nat sent) buf) n) ;;
        if ret <=? 0 then
          modify (set_wnum (to_int sent)) ;;
          tls13_legacy_return_code ret
        else
          write_loop fuel' buf (to_size_t (sent + ret)) (to_size_t (n - ret))
  end.

(** [int tls13_legacy_write_bytes(SSL *ssl, int type, const void *vbuf,
    int len)] *)
Definition tls13_legacy_write_bytes (fuel : nat) (type : Z)
    (buf : list byte) (len : Z) : M Z :=
  hs <- gets handshaking ;;
  if hs then
    ret <- extern handshake_func Call_handshake_func ;;
    if ret <=? 0 then ret_ ret
    else tls13_legacy_return_code TLS13_IO_WANT_POLLOUT
  else if negb (type =? SSL3_RT_APPLICATION_DATA) then
    SSLerror ERR_R_SHOULD_NOT_HAVE_BEEN_CALLED 238 ;;
    ret_ (-1)
  else if len <? 0 then
    SSLerror SSL_R_BAD_LENGTH 242 ;;
    ret_ (-1)
  else
    (* The TLSv1.3 record layer write behaviour is the same as
       SSL_MODE_ENABLE_PARTIAL_WRITE. *)
    md <- gets mode ;;
    if negb (Z.land md SSL_MODE_ENABLE_PARTIAL_WRITE =? 0) then
      ret <- extern (fun s => tls13_write_application_data s buf
                                (to_size_t len))
                    (Call_write_application_data buf (to_size_t len)) ;;
      tls13_legacy_return_code ret
    else
      (* In the non-SSL_MODE_ENABLE_PARTIAL_WRITE case we have to loop until
         we have written out all of the requested data. *)
      w <- gets wnum ;;
      let sent := to_size_t w in
      if to_size_t len <? sent then
        SSLerror SSL_R_BAD_LENGTH 261 ;;
        ret_ (-1)
      else
        write_loop fuel buf sent (to_size_t (to_size_t len - sent)).

(** [ssl->internal->shutdown = SSL_SENT_SHUTDOWN | SSL_RECEIVED_SHUTDOWN;
    return 1;] *)
Definition shutdown_trivial : M Z :=
  modify (set_shutdown (Z.lor SSL_SENT_SHUTDOWN SSL_RECEIVED_SHUTDOWN)) ;;
  ret_ 1.

(** The end of [tls13_legacy_shutdown]. *)
Definition shutdown_result : M Z :=
  recv <- ctx_field close_notify_recv ;;
  if negb (recv =? 0) then ret_ 1 else ret_ 0.

(** Receive close notify.  The scratch buffer has 512 bytes. *)
Definition shutdown_receive : M Z :=
  recv <- ctx_field close_notify_recv ;;
  if recv =? 0 then
    r <- extern (fun s => tls13_read_application_data s 512)
                (Call_read_application_data 512) ;;
    let ret := if r >? 0 then TLS13_IO_WANT_POLLIN else r in
    if negb (ret =? TLS13_IO_EOF) then tls13_legacy_return_code ret
    else shutdown_result
  else shutdown_result.

(** Ensure close notify has been sent. *)
Definition shutdown_flush : M Z :=
  ret <- extern tls13_record_layer_send_pending Call_send_pending ;;
  if negb (ret =? TLS13_IO_SUCCESS) then tls13_legacy_return_code ret
  else shutdown_receive.

(** [ctx->close_notify_sent = 1] *)
Definition mark_close_notify_sent (s : SSL) : SSL :=
  set_tls13 (option_map (set_close_notify_sent 1) (tls13 s)) s.

(** Send close notify. *)
Definition shutdown_send : M Z :=
  sent <- ctx_field close_notify_sent ;;
  if sent =? 0 then
    modify mark_close_notify_sent ;;
    ret <- extern (fun s => tls13_send_alert s SSL_AD_CLOSE_NOTIFY)
                  (Call_send_alert SSL_AD_CLOSE_NOTIFY) ;;
    if ret <? 0 then tls13_legacy_return_code ret
    else shutdown_flush
  else shutdown_flush.

(** [int tls13_legacy_shutdown(SSL *ssl)] *)
Definition tls13_legacy_shutdown : M Z :=
  s <- gets (fun s => s) ;;
  match tls13 s with
  | None => shutdown_trivial
  | Some _ =>
      if negb (quiet_shutdown s =? 0) then shutdown_trivial
      else shutdown_send
  end.

End Adapter.

(** ** Observations and contracts *)

Section Contracts.
Context {SH : ssl_locl_h} {TH : tls13_internal_h} {LC : libcrypto}
        {CO : collaborators}.
Local Open Scope adapter_scope.

(** The six [case] labels of the translator's [switch].  A C compiler
    accepts the [switch] only if they are pairwise different; none of them
    is a byte count. *)
Definition io_sentinels : list Z :=
  [TLS13_IO_EOF; TLS13_IO_FAILURE; TLS13_IO_ALERT; TLS13_IO_WANT_POLLIN;
   TLS13_IO_WANT_POLLOUT; TLS13_IO_WANT_RETRY].

Definition io_sentinels_wf : Prop :=
  NoDup io_sentinels /\ Forall (fun c => c <= 0) io_sentinels.

(** The four [case] labels of the error mapper's [switch], and the reasons
    they select, none of which is the reason kept for an unknown error. *)
Definition error_codes : list Z :=
  [TLS13_ERR_VERIFY_FAILED; TLS13_ERR_HRR_FAILED; TLS13_ERR_TRAILING_DATA;
   TLS13_ERR_NO_SHARED_CIPHER].

Definition mapped_reasons : list Z :=
  [SSL_R_CERTIFICATE_VERIFY_FAILED; SSL_R_NO_CIPHERS_AVAILABLE;
   SSL_R_EXTRA_DATA_IN_MESSAGE; SSL_R_NO_SHARED_CIPHER].

Definition error_codes_wf : Prop :=
  NoDup error_codes /\ Forall (fun r => r <> SSL_R_UNKNOWN) mapped_reasons.

(** A flag of the handshake context, 0 when there is no context. *)
Definition ctx_flag (f : tls13_ctx -> Z) (s : SSL) : Z :=
  match tls13 s with
  | Some c => f c
  | None => 0
  end.

(** The calls a run has added to the log. *)
Definition new_calls (m m' : machine) (l : list call) : Prop :=
  calls m' = calls m ++ l.

(** The translator and the error mapper change the retry intent, the BIO
    retry flags and the error queue, and nothing else. *)
Definition same_session (s s' : SSL) : Prop :=
  tls13 s' = tls13 s /\ mode s' = mode s /\ wnum s' = wnum s /\
  quiet_shutdown s' = quiet_shutdown s /\ shutdown s' = shutdown s /\
  fatal_alert s' = fatal_alert s /\ other s' = other s.

(** *** The endpoints

    The translator sets retry flags in the read BIO for [WANT_POLLIN] and in
    the write BIO for [WANT_POLLOUT], and stops at a NULL pointer. *)

(** Both BIOs of the connection are set. *)
Definition endpoints_bound (s : SSL) : Prop :=
  BIO_is_NULL (rbio s) = false /\ BIO_is_NULL (wbio s) = false.

(** A collaborator that leaves a connection with both BIOs set that way. *)
Definition keeps_endpoints (f : SSL -> Z * SSL) : Prop :=
  forall s, endpoints_bound s -> endpoints_bound (snd (f s)).

(** Setting retry flags in a BIO does not turn it into the NULL pointer, and
    no collaborator takes a BIO away from the connection. *)
Definition endpoints_contract : Prop :=
  (forall b, BIO_is_NULL (BIO_set_retry_read b) = BIO_is_NULL b) /\
  (forall b, BIO_is_NULL (BIO_set_retry_write b) = BIO_is_NULL b) /\
  keeps_endpoints handshake_func /\
  (forall n, keeps_endpoints (fun s => tls13_peek_application_data s n)) /\
  (forall n, keeps_endpoints (fun s => tls13_read_application_data s n)) /\
  (forall data n,
     keeps_endpoints (fun s => tls13_write_application_data s data n)) /\
  (forall desc, keeps_endpoints (fun s => tls13_send_alert s desc)) /\
  keeps_endpoints tls13_record_layer_send_pending.

(** The BIO the translator needs for the outcome [ret] is set. *)
Definition endpoint_for (ret : Z) (s : SSL) : Prop :=
  (ret = TLS13_IO_WANT_POLLIN -> BIO_is_NULL (rbio s) = false) /\
  (ret = TLS13_IO_WANT_POLLOUT -> BIO_is_NULL (wbio s) = false).

(** *** Strict writes *)

(** Established, with partial writes disallowed. *)
Definition strict_established (s : SSL) : Prop :=
  handshaking s = false /\
  Z.land (mode s) SSL_MODE_ENABLE_PARTIAL_WRITE = 0.

(** The record layer never accepts more than it is offered, and a write
    neither drops the handshake context nor changes the write mode. *)
Definition write_contract : Prop :=
  forall s data n,
    (0 < n -> fst (tls13_write_application_data s data n) <= n) /\
    (strict_established s ->
     strict_established (snd (tls13_write_application_data s data n))).

(** Bytes accepted by the record layer in the logged calls. *)
Definition accepted_by (c : call) : Z :=
  match c with
  | Call_write_application_data _ _ r => Z.max 0 r
  | _ => 0
  end.

Definition accepted (l : list call) : Z :=
  fold_right (fun c a => accepted_by c + a) 0 l.

(** The writes a strict call makes when it resumes at [sent]: each offers
    the unsent suffix of the buffer; a write that is accepted in part or in
    full is followed by the next one, until either nothing remains
    ([stop = None]) or a write comes back with a non-positive outcome [ret]
    ([stop = Some ret]). *)
Fixpoint suffix_writes (buf : list byte) (len sent : Z) (l : list call)
    (stop : option Z) : Prop :=
  match l with
  | [] => stop = None /\ sent = len
  | c :: l' =>
      exists r,
        c = Call_write_application_data (skipn (Z.to_nat sent) buf)
                                        (len - sent) r /\
        sent < len /\
        (if r <=? 0 then l' = [] /\ stop = Some r
         else suffix_writes buf len (sent + r) l' stop)
  end.

(** How a strict call that resumed at [sent] and made the calls [l] ends:
    with the full length and nothing carried, or with the translation of the
    non-positive outcome and the count sent so far carried over. *)
Definition strict_outcome (len sent : Z) (l : list call) (stop : option Z)
    (r : Z) (m' : machine) : Prop :=
  match stop with
  | None =>
      r = len /\ wnum (conn m') = 0 /\ sent + accepted l = len
  | Some ret =>
      ret <= 0 /\ (r = 0 \/ r = -1) /\
      wnum (conn m') = sent + accepted l /\ sent + accepted l < len /\
      exists m1, wnum (conn m1) = sent + accepted l /\
                 calls m1 = calls m' /\
                 tls13_legacy_return_code ret m1 = Ok r m'
  end.

(** The caller's side of a strict write, as the specification describes it:
    call again with the same buffer and length until the full length is
    returned, at most [k] times.  Each call is observed as its return value
    and the carried sent count it leaves. *)
Fixpoint write_retry (k fuel : nat) (type : Z) (buf : list byte) (len : Z)
    : M (list (Z * Z)) :=
  match k with
  | O => ret_ []
  | S k' =>
      r <- tls13_legacy_write_bytes fuel type buf len ;;
      w <- gets wnum ;;
      if r =? len then ret_ [(r, w)]
      else
        rest <- write_retry k' fuel type buf len ;;
        ret_ ((r, w) :: rest)
  end.

(** A retry indication: the translated non-positive outcome, with a carried
    count short of [len]. *)
Definition retry_observation (len : Z) (o : Z * Z) : Prop :=
  (fst o = 0 \/ fst o = -1) /\ 0 <= snd o < len.

Fixpoint non_decreasing (l : list Z) : Prop :=
  match l with
  | [] => True
  | x :: l' =>
      match l' with
      | [] => True
      | y :: _ => x <= y /\ non_decreasing l'
      end
  end.

(** *** Shutdown *)

Definition close_notify_sent_flag : SSL -> Z := ctx_flag close_notify_sent.
Definition close_notify_recv_flag : SSL -> Z := ctx_flag close_notify_recv.

(** The trivial shutdown applies. *)
Definition trivial_shutdown (s : SSL) : bool :=
  match tls13 s with
  | None => true
  | Some _ => negb (quiet_shutdown s =? 0)
  end.

(** A collaborator that never clears a flag which is set. *)
Definition never_clears (flag : SSL -> Z) (f : SSL -> Z * SSL) : Prop :=
  forall s, flag s <> 0 -> flag (snd (f s)) <> 0.

Definition send_close_notify (s : SSL) : Z * SSL :=
  tls13_send_alert s SSL_AD_CLOSE_NOTIFY.

Definition read_scratch (s : SSL) : Z * SSL :=
  tls13_read_application_data s 512.

(** The flush has nothing left to send. *)
Definition flushed (s : SSL) : Prop :=
  fst (tls13_record_layer_send_pending s) = TLS13_IO_SUCCESS.

(** What the shutdown path relies on: the record layer leaves the
    close-notify-sent flag set once it is, and the flush reports either
    success or one of the non-positive outcomes. *)
Definition shutdown_contract : Prop :=
  never_clears close_notify_sent_flag send_close_notify /\
  never_clears close_notify_sent_flag tls13_record_layer_send_pending /\
  never_clears close_notify_sent_flag read_scratch /\
  (forall s, fst (tls13_record_layer_send_pending s) = TLS13_IO_SUCCESS \/
             fst (tls13_record_layer_send_pending s) <= 0).

(** A flush that found nothing left to send finds nothing the next time
    either, also after a read that saw the clean end, and does not forget
    that the close-notify of the peer was received. *)
Definition flush_stable : Prop :=
  (forall s, flushed s -> flushed (snd (tls13_record_layer_send_pending s))) /\
  (forall s, flushed s -> fst (read_scratch s) = TLS13_IO_EOF ->
             flushed (snd (read_scratch s))) /\
  never_clears close_notify_recv_flag tls13_record_layer_send_pending.

(** A connection on which the shutdown has succeeded: either the trivial
    shutdown applies, or both close-notify flags are set and the flush has
    nothing left to send. *)
Definition shutdown_settled (s : SSL) : Prop :=
  trivial_shutdown s = true \/
  (close_notify_sent_flag s <> 0 /\ close_notify_recv_flag s <> 0 /\
   flushed s).



(** The value of the final check of the shutdown operation. *)
Definition checked_result (s : SSL) : Z :=
  if close_notify_recv_flag s =? 0 then 0 else 1.

(** How the shutdown operation ends once the close-notify alert is out of
    its hands, with the value [r] it returns, the machine [m'] it leaves
    and the calls it makes: the flush is still in progress or failed; the
    read did not see the clean end; or the final check was reached, after
    no read or after a read that saw the clean end. *)
Inductive flush_end (r : Z) (m' : machine) : list call -> Prop :=
| Flush_failed (rf : Z) :
    rf <> TLS13_IO_SUCCESS -> r = 0 \/ r = -1 ->
    (r = 0 -> rf = TLS13_IO_EOF) ->
    flush_end r m' [Call_send_pending rf]
| Read_retry (rr : Z) :
    rr <> TLS13_IO_EOF -> r = -1 ->
    (0 < rr ->
     rwstate (conn m') = SSL_READING /\
     exists m1, calls m1 = calls m' /\
                tls13_legacy_return_code TLS13_IO_WANT_POLLIN m1 = Ok r m') ->
    flush_end r m' [Call_send_pending TLS13_IO_SUCCESS;
                    Call_read_application_data 512 rr]
| Checked (lr : list call) :
    lr = [] \/ lr = [Call_read_application_data 512 TLS13_IO_EOF] ->
    r = checked_result (conn m') ->
    (flush_stable -> flushed (conn m')) ->
    (lr = [] -> r = 1) ->
    flush_end r m' (Call_send_pending TLS13_IO_SUCCESS :: lr).

(** How a call of the shutdown operation that is not trivial ends: the
    alert is sent only with the flag not yet set. *)
Inductive shutdown_end (m : machine) (r : Z) (m' : machine)
    : list call -> Prop :=
| Alert_failed (ra : Z) :
    close_notify_sent_flag (conn m) = 0 -> ra < 0 -> r = 0 \/ r = -1 ->
    (r = 0 -> ra = TLS13_IO_EOF) ->
    shutdown_end m r m' [Call_send_alert SSL_AD_CLOSE_NOTIFY ra]
| Alert_sent (ra : Z) (lf : list call) :
    close_notify_sent_flag (conn m) = 0 -> 0 <= ra -> flush_end r m' lf ->
    shutdown_end m r m' (Call_send_alert SSL_AD_CLOSE_NOTIFY ra :: lf)
| Alert_skipped (lf : list call) :
    close_notify_sent_flag (conn m) <> 0 -> flush_end r m' lf ->
    shutdown_end m r m' lf.

Definition is_send_alert (c : call) : bool :=
  match c with
  | Call_send_alert _ _ => true
  | _ => false
  end.

(** Number of alerts sent in the logged calls. *)
Definition alerts_sent (l : list call) : nat :=
  List.length (filter is_send_alert l).





(** [k] successive calls of the shutdown operation. *)
Fixpoint shutdown_calls (k : nat) : M (list Z) :=
  match k with
  | O => ret_ []
  | S k' =>
      r <- tls13_legacy_shutdown ;;
      rest <- shutdown_calls k' ;;
      ret_ (r :: rest)
  end.

End Contracts.

(** ** A reference platform

    One choice of values for the header constants (outcome codes 1, 0, -1,
    ..., -5), an error queue kept as a list, and a small record layer driven
    by scripts: what the transport accepts, what the peer delivers, whether
    the transport is writable.  It is used to run the adapter on explicit
    inputs. *)

Module Reference.

Definition ssl_h : ssl_locl_h := {|
  SSL_NOTHING := 1;
  SSL_WRITING := 2;
  SSL_READING := 3;
  SSL_SENT_SHUTDOWN := 1;
  SSL_RECEIVED_SHUTDOWN := 2;
  SSL_MODE_ENABLE_PARTIAL_WRITE := 1;
  SSL3_RT_APPLICATION_DATA := 23;
  SSL_AD_CLOSE_NOTIFY := 0;
  ERR_LIB_SSL := 20;
  ERR_R_INTERNAL_ERROR := 68;
  ERR_R_SHOULD_NOT_HAVE_BEEN_CALLED := 66;
  SSL_R_BAD_LENGTH := 271;
  SSL_R_UNKNOWN := 999;
  SSL_R_CERTIFICATE_VERIFY_FAILED := 134;
  SSL_R_NO_CIPHERS_AVAILABLE := 181;
  SSL_R_EXTRA_DATA_IN_MESSAGE := 153;
  SSL_R_NO_SHARED_CIPHER := 193
|}.

Definition tls13_h : tls13_internal_h := {|
  TLS13_IO_SUCCESS := 1;
  TLS13_IO_EOF := 0;
  TLS13_IO_FAILURE := -1;
  TLS13_IO_ALERT := -2;
  TLS13_IO_WANT_POLLIN := -3;
  TLS13_IO_WANT_POLLOUT := -4;
  TLS13_IO_WANT_RETRY := -5;
  TLS13_ERR_VERIFY_FAILED := 16;
  TLS13_ERR_HRR_FAILED := 17;
  TLS13_ERR_TRAILING_DATA := 18;
  TLS13_ERR_NO_SHARED_CIPHER := 19
|}.

(** [ERR_PACK(l, f, r)] of [err.h]. *)
Definition ERR_PACK (l f r : Z) : Z :=
  Z.lor (Z.lor (Z.shiftl (Z.land l 255) 24) (Z.shiftl (Z.land f 4095) 12))
        (Z.land r 4095).

(** The scripted record layer: a close-notify alert waiting to be flushed,
    whether the transport is writable at the next attempts (writable once
    the script is used up), what the peer delivers to the next reads, what
    the transport accepts at the next writes, and the count of buffered
    application bytes. *)
Record record_layer : Type := {
  alert_queued : bool;
  writable : list bool;
  inbound : list Z;
  outbound : list Z;
  buffered : Z
}.

(** A BIO is its flag word, and a negative word stands for the NULL
    pointer; the error queue is the list of the packed error codes with
    their source positions, oldest first. *)
Definition crypto : libcrypto := {|
  BIO := Z;
  BIO_is_NULL := fun b => b <? 0;
  BIO_set_retry_read := fun b => Z.lor b 9;
  BIO_set_retry_write := fun b => Z.lor b 10;
  ERR_STATE := list (Z * string * Z);
  ERR_put_error := fun l f r fl ln q => q ++ [(ERR_PACK l f r, fl, ln)];
  ERR_peek_error := fun q => match q with
                             | [] => 0
                             | (c, _, _) :: _ => c
                             end;
  RL := record_layer;
  OTHER := list Z
|}.

#[local] Existing Instance ssl_h.
#[local] Existing Instance tls13_h.
#[local] Existing Instance crypto.

Definition conn_t : Type := @SSL crypto.
Definition ctx_t : Type := @tls13_ctx crypto.

(** Run a record-layer operation on the context of the connection; without
    a context the operation fails. *)
Definition on_record_layer (s : conn_t)
    (k : ctx_t -> record_layer -> Z * record_layer * Z) : Z * conn_t :=
  match tls13 s with
  | None => (TLS13_IO_FAILURE, s)
  | Some c =>
      match k c (rl c) with
      | (r, rl', recv') =>
          (r, set_tls13 (Some {| error := error c; rl := rl';
                                 handshake_completed := handshake_completed c;
                                 close_notify_sent := close_notify_sent c;
                                 close_notify_recv := recv' |}) s)
      end
  end.

Definition with_writable (v : list bool) (a : bool) (r : record_layer)
    : record_layer :=
  {| alert_queued := a; writable := v; inbound := inbound r;
     outbound := outbound r; buffered := buffered r |}.

(** Flush: the queued alert leaves when the transport is writable. *)
Definition flush (r : record_layer) : Z * record_layer :=
  if alert_queued r then
    match writable r with
    | false :: v => (TLS13_IO_WANT_POLLOUT, with_writable v true r)
    | true :: v => (TLS13_IO_SUCCESS, with_writable v false r)
    | [] => (TLS13_IO_SUCCESS, with_writable [] false r)
    end
  else (TLS13_IO_SUCCESS, r).

(** Read or peek: the next delivery of the peer, cut to the room offered;
    nothing delivered means waiting for the transport; the clean end marks
    the close-notify of the peer as received. *)
Definition deliver (consume : bool) (n : Z) (c : ctx_t) (r : record_layer)
    : Z * record_layer * Z :=
  match inbound r with
  | [] => (TLS13_IO_WANT_POLLIN, r, close_notify_recv c)
  | x :: rest =>
      let r' := if consume
                then {| alert_queued := alert_queued r;
                        writable := writable r; inbound := rest;
                        outbound := outbound r; buffered := buffered r |}
                else r in
      (if x >? 0 then Z.min x n else x, r',
       if x =? TLS13_IO_EOF then 1 else close_notify_recv c)
  end.

(** Write: the next acceptance of the transport, at most what is offered. *)
Definition accept (n : Z) (c : ctx_t) (r : record_layer)
    : Z * record_layer * Z :=
  match outbound r with
  | [] => (TLS13_IO_WANT_POLLOUT, r, close_notify_recv c)
  | x :: rest =>
      (Z.min x n,
       {| alert_queued := alert_queued r; writable := writable r;
          inbound := inbound r; outbound := rest; buffered := buffered r |},
       close_notify_recv c)
  end.

(** The handshake driver reports the next outcome of its script, kept in
    the rest of the connection. *)
Definition drive_handshake (s : conn_t) : Z * conn_t :=
  match other s with
  | [] => (-1, s)
  | r :: rest =>
      (r, {| rbio := rbio s; wbio := wbio s; rwstate := rwstate s;
             tls13 := tls13 s; mode := mode s;
             quiet_shutdown := quiet_shutdown s; shutdown := shutdown s;
             fatal_alert := fatal_alert s; wnum := wnum s; err := err s;
             other := rest |})
  end.

Definition peers : @collaborators crypto := {|
  handshake_func := drive_handshake;
  tls13_pending_application_data := fun s =>
    match tls13 s with
    | None => 0
    | Some c => buffered (rl c)
    end;
  tls13_peek_application_data := fun s n =>
    on_record_layer s (deliver false n);
  tls13_read_application_data := fun s n =>
    on_record_layer s (deliver true n);
  tls13_write_application_data := fun s _ n =>
    on_record_layer s (accept n);
  tls13_send_alert := fun s _ =>
    on_record_layer s (fun c r =>
      let (o, r') := flush (with_writable (writable r) true r) in
      (o, r', close_notify_recv c));
  tls13_record_layer_send_pending := fun s =>
    on_record_layer s (fun c r =>
      let (o, r') := flush r in (o, r', close_notify_recv c));
  SSL_state_func_code := fun _ => 0
|}.

#[local] Existing Instance peers.

(** An idle record layer, given the scripts. *)
Definition layer (w : list bool) (i o : list Z) : record_layer :=
  {| alert_queued := false; writable := w; inbound := i; outbound := o;
     buffered := 0 |}.

(** A handshake context with the two close-notify flags as given. *)
Definition context (completed sent recv : Z) (ecode : Z) (r : record_layer)
    : ctx_t :=
  {| error := {| code := ecode; file := "tls13_lib.c"%string; line := 100 |};
     rl := r; handshake_completed := completed;
     close_notify_sent := sent; close_notify_recv := recv |}.

(** A connection in strict write mode with nothing carried and an empty
    error queue. *)
Definition connection (c : option ctx_t) : conn_t :=
  {| rbio := 0; wbio := 0; rwstate := 1; tls13 := c; mode := 0;
     quiet_shutdown := 0; shutdown := 0; fatal_alert := 0; wnum := 0;
     err := []; other := [] |}.

Definition start (s : conn_t) : machine := {| conn := s; calls := [] |}.

(** What a run shows: the value returned, the carried sent count, the retry
    intent, the calls made and the error queue. *)
Definition observe {A : Type} (r : result A)
    : option (A * Z * Z * list call * list (Z * string * Z)) :=
  match r with
  | Ok a m =>
      Some (a, wnum (conn m), rwstate (conn m), calls m, err (conn m))
  | Stuck _ => None
  end.

(** Five bytes to write. *)
Definition hello : list byte := [x68; x65; x6c; x6c; x6f].

(** An established connection: the transport accepts 3 bytes, then is not
    writable, then accepts 2; the peer delivers 5 bytes, then its
    close-notify; the transport is not writable at the first flush. *)
Definition established : conn_t :=
  connection (Some (context 1 0 0 0
                      (layer [false; true] [5; 0] [3; -4; 2]))).

(** A connection whose handshake is under way and will report progress. *)
Definition handshaking_conn : conn_t :=
  {| rbio := 0; wbio := 0; rwstate := 1;
     tls13 := Some (context 0 0 0 0 (layer [] [] []));
     mode := 0; quiet_shutdown := 0; shutdown := 0; fatal_alert := 0;
     wnum := 0; err := []; other := [1] |}.

(** An established connection with 7 decrypted bytes waiting. *)
Definition buffering : conn_t :=
  connection (Some (context 1 0 0 0
                      {| alert_queued := false; writable := [];
                         inbound := []; outbound := []; buffered := 7 |})).

(** A connection on which the verification of the peer failed after a lower
    layer had already put a diagnostic on the error queue. *)
Definition verify_failed : conn_t :=
  set_err [(ERR_PACK 13 0 100, "a_verify.c"%string, 170)]
          (connection (Some (context 0 0 0 16 (layer [] [] [])))).

(** An established connection on which the fatal alert 40 was recorded, the
    error queue being empty. *)
Definition alerted : conn_t :=
  {| rbio := 0; wbio := 0; rwstate := 1;
     tls13 := Some (context 1 0 0 0 (layer [] [] []));
     mode := 0; quiet_shutdown := 0; shutdown := 0; fatal_alert := 40;
     wnum := 0; err := []; other := [] |}.

(** An established connection without a read BIO, and one without a write
    BIO. *)
Definition deaf : conn_t :=
  set_rbio (-1) (connection (Some (context 1 0 0 0 (layer [] [] [])))).

Definition mute : conn_t :=
  set_wbio (-1) (connection (Some (context 1 0 0 0 (layer [] [] [])))).





End Reference.

(** ** The wire adapter

    The two callbacks the record layer moves bytes with.  What they take
    from libcrypto is again a parameter: [BIO_read] and [BIO_write] (whose
    length parameter is an [int]), which report a count and leave the BIO
    and the error queue of the thread as they please, and the two retry
    tests.  The bytes a read delivers are the caller's memory and are not
    modelled. *)

Class transport {LC : libcrypto} : Type := {
  SSL_R_BIO_NOT_SET : Z;
  BIO_read : BIO -> Z -> ERR_STATE -> Z * BIO * ERR_STATE;
  BIO_write : BIO -> list byte -> Z -> ERR_STATE -> Z * BIO * ERR_STATE;
  BIO_should_read : BIO -> Z;
  BIO_should_write : BIO -> Z
}.

Section Wire.
Context {SH : ssl_locl_h} {TH : tls13_internal_h} {LC : libcrypto}
        {CO : collaborators} {TR : transport}.
Local Open Scope adapter_scope.

(** A transfer of libcrypto on [ssl->rbio], and on [ssl->wbio]: it changes
    the BIO and may put diagnostics on the error queue. *)
Definition on_rbio (f : BIO -> ERR_STATE -> Z * BIO * ERR_STATE) : M Z :=
  fun m => match f (rbio (conn m)) (err (conn m)) with
           | (n, b, e) => Ok n (on_conn (fun s => set_err e (set_rbio b s)) m)
           end.

Definition on_wbio (f : BIO -> ERR_STATE -> Z * BIO * ERR_STATE) : M Z :=
  fun m => match f (wbio (conn m)) (err (conn m)) with
           | (n, b, e) => Ok n (on_conn (fun s => set_err e (set_wbio b s)) m)
           end.

(** [static ssize_t tls13_legacy_wire_read(SSL *ssl, uint8_t *buf,
    size_t len)]; [n] is an [int]. *)
Definition tls13_legacy_wire_read (len : Z) : M Z :=
  b <- gets rbio ;;
  if BIO_is_NULL b then
    SSLerror SSL_R_BIO_NOT_SET 34 ;;
    ret_ TLS13_IO_FAILURE
  else
    modify (set_rwstate SSL_READING) ;;
    n <- on_rbio (fun b => BIO_read b (to_int len)) ;;
    if n <=? 0 then
      b' <- gets rbio ;;
      if negb (BIO_should_read b' =? 0) then ret_ TLS13_IO_WANT_POLLIN
      else if negb (BIO_should_write b' =? 0) then ret_ TLS13_IO_WANT_POLLOUT
      else if n =? 0 then ret_ TLS13_IO_EOF
      else ret_ TLS13_IO_FAILURE
    else
      (if to_size_t n =? len then modify (set_rwstate SSL_NOTHING)
       else ret_ tt) ;;
      ret_ n.

(** [ssize_t tls13_legacy_wire_read_cb(void *buf, size_t n, void *arg)]:
    [ctx->ssl] is the connection the context belongs to. *)
Definition tls13_legacy_wire_read_cb (n : Z) : M Z :=
  tls13_legacy_wire_read n.

(** [static ssize_t tls13_legacy_wire_write(SSL *ssl, const uint8_t *buf,
    size_t len)] *)
Definition tls13_legacy_wire_write (buf : list byte) (len : Z) : M Z :=
  b <- gets wbio ;;
  if BIO_is_NULL b then
    SSLerror SSL_R_BIO_NOT_SET 71 ;;
    ret_ TLS13_IO_FAILURE
  else
    modify (set_rwstate SSL_WRITING) ;;
    n <- on_wbio (fun b => BIO_write b buf (to_int len)) ;;
    if n <=? 0 then
      b' <- gets wbio ;;
      if negb (BIO_should_read b' =? 0) then ret_ TLS13_IO_WANT_POLLIN
      else if negb (BIO_should_write b' =? 0) then ret_ TLS13_IO_WANT_POLLOUT
      else ret_ TLS13_IO_FAILURE
    else
      (if to_size_t n =? len then modify (set_rwstate SSL_NOTHING)
       else ret_ tt) ;;
      ret_ n.

(** [ssize_t tls13_legacy_wire_write_cb(const void *buf, size_t n,
    void *arg)] *)
Definition tls13_legacy_wire_write_cb (buf : list byte) (n : Z) : M Z :=
  tls13_legacy_wire_write buf n.

(** What [BIO_read] and [BIO_write] report on the endpoints of a
    connection, the BIO they leave and the error queue they leave. *)
Definition bio_read_count (s : SSL) (len : Z) : Z :=
  fst (fst (BIO_read (rbio s) (to_int len) (err s))).

Definition bio_read_left (s : SSL) (len : Z) : BIO :=
  snd (fst (BIO_read (rbio s) (to_int len) (err s))).

Definition bio_read_queue (s : SSL) (len : Z) : ERR_STATE :=
  snd (BIO_read (rbio s) (to_int len) (err s)).

Definition bio_write_count (s : SSL) (buf : list byte) (len : Z) : Z :=
  fst (fst (BIO_write (wbio s) buf (to_int len) (err s))).

Definition bio_write_left (s : SSL) (buf : list byte) (len : Z) : BIO :=
  snd (fst (BIO_write (wbio s) buf (to_int len) (err s))).

Definition bio_write_queue (s : SSL) (buf : list byte) (len : Z)
    : ERR_STATE :=
  snd (BIO_write (wbio s) buf (to_int len) (err s)).

End Wire.

(** ** Further observations and contracts *)

Section MoreContracts.
Context {SH : ssl_locl_h} {TH : tls13_internal_h} {LC : libcrypto}
        {CO : collaborators}.

(** The record layer moves at most the [n] bytes it is asked for and does
    not drop the handshake context. *)
Definition within_request (n : Z) (s : SSL) (p : Z * SSL) : Prop :=
  fst p <= n /\ (tls13 s <> None -> tls13 (snd p) <> None).

Definition data_contract : Prop :=
  forall s data n, 0 <= n ->
    within_request n s (tls13_peek_application_data s n) /\
    within_request n s (tls13_read_application_data s n) /\
    within_request n s (tls13_write_application_data s data n).

(** Partial writes are allowed. *)
Definition partial_write_mode (s : SSL) : Prop :=
  Z.land (mode s) SSL_MODE_ENABLE_PARTIAL_WRITE <> 0.

(** The bytes the record layer took over in the logged calls: of each write,
    as many bytes of the data offered as were accepted. *)
Definition delivered_by (c : call) : list byte :=
  match c with
  | Call_write_application_data d _ r => firstn (Z.to_nat r) d
  | _ => []
  end.

Definition delivered (l : list call) : list byte :=
  flat_map delivered_by l.

(** The three calls a shutdown can make, in their order: the close-notify
    alert, the flush, the read into the scratch buffer.  There is a read
    only after a flush that reported success. *)
Definition shutdown_calls_shape (l : list call) : Prop :=
  exists la lf lr,
    l = la ++ lf ++ lr /\
    (la = [] \/ exists ra, la = [Call_send_alert SSL_AD_CLOSE_NOTIFY ra]) /\
    (lf = [] \/ exists rf, lf = [Call_send_pending rf]) /\
    (lr = [] \/
     exists rr, lr = [Call_read_application_data 512 rr] /\
                lf = [Call_send_pending TLS13_IO_SUCCESS]).

(** A collaborator that leaves the shutdown bits of the connection alone,
    and the three calls of the shutdown operation doing so. *)
Definition leaves_shutdown_bits (f : SSL -> Z * SSL) : Prop :=
  forall s, shutdown (snd (f s)) = shutdown s.

Definition shutdown_bits_contract : Prop :=
  leaves_shutdown_bits send_close_notify /\
  leaves_shutdown_bits tls13_record_layer_send_pending /\
  leaves_shutdown_bits read_scratch.

(** A transfer that moved all the [len] bytes asked for: [n] is the [int]
    the BIO reported, compared as a [size_t]. *)
Definition full_transfer (n len : Z) : bool :=
  (0 <? n) && (to_size_t n =? len).

(** The retry intent the translator leaves after a non-positive outcome. *)
Definition intent_after (ret : Z) : Z :=
  if ret =? TLS13_IO_WANT_POLLIN then SSL_READING
  else if ret =? TLS13_IO_WANT_POLLOUT then SSL_WRITING
  else SSL_NOTHING.

End MoreContracts.

(** ** A transport for the reference platform

    A BIO is the integer [16 * available + flags]: the number of bytes the
    endpoint can still move, the retry flags of libcrypto (1 read, 2 write,
    8 should retry) and a flag of its own (4) for a broken endpoint.  A
    negative integer stands for the NULL pointer.  An endpoint that should
    retry moves nothing and reports -1; a broken one reports -1 and puts a
    diagnostic of the BIO library on the error queue; one with nothing left
    reports 0. *)

Module ReferenceWire.

#[local] Existing Instance Reference.ssl_h.
#[local] Existing Instance Reference.tls13_h.
#[local] Existing Instance Reference.crypto.
#[local] Existing Instance Reference.peers.

Definition move (b len : Z) (q : list (Z * string * Z))
    : Z * Z * list (Z * string * Z) :=
  if negb (Z.land b 8 =? 0) then (-1, b, q)
  else if negb (Z.land b 4 =? 0) then
    (-1, b, q ++ [(Reference.ERR_PACK 32 0 2, "bss_sock.c"%string, 120)])
  else
    let n := Z.min (b / 16) len in
    (n, b - 16 * n, q).

Definition sockets : @transport Reference.crypto :=
  @Build_transport Reference.crypto
    128
    move
    (fun (b : Z) (_ : list byte) (len : Z) => move b len)
    (fun b : Z => Z.land b 1)
    (fun b : Z => Z.land b 2).

(** A connection with the given endpoints and no handshake context. *)
Definition wired (r w : Z) : Reference.conn_t :=
  {| rbio := r; wbio := w; rwstate := 1; tls13 := None; mode := 0;
     quiet_shutdown := 0; shutdown := 0; fatal_alert := 0; wnum := 0;
     err := []; other := [] |}.

(** An established connection on which partial writes are allowed. *)
Definition partial : Reference.conn_t :=
  {| rbio := 0; wbio := 0; rwstate := 1;
     tls13 := Some (Reference.context 1 0 0 0
                      (Reference.layer [] [4; 0] [3; -4; 2]));
     mode := 1; quiet_shutdown := 0; shutdown := 0; fatal_alert := 0;
     wnum := 0; err := []; other := [] |}.

End ReferenceWire.

(** * Properties *)

Unset Implicit Arguments.

(** ** Reasoning support *)

Ltac run :=
  repeat (unfold bind, ret_, modify, gets, stuck, SSLerror; simpl).

(** Decide the comparison a conditional scrutinises, by linear arithmetic
    over the hypotheses at hand. *)
Ltac absurd_arith := exfalso; unfold INT_MAX in *; lia.

(** Two different [case] labels cannot be equal: refute an equation between
    two members of a duplicate-free list. *)
Ltac by_distinct :=
  match goal with
  | E : ?a = ?b, Hd : NoDup _ |- _ =>
      exfalso; clear - E Hd; rewrite E in Hd;
      repeat (apply NoDup_cons_iff in Hd;
              let Hn := fresh "Hn" in destruct Hd as [Hn Hd];
              simpl in Hn);
      solve [intuition auto]
  end.

Ltac absurd_case := first [by_distinct | absurd_arith].

(** Decide the comparison a conditional scrutinises, by the hypotheses at
    hand. *)
Ltac settle_tests :=
  repeat match goal with
  | |- context [?a >? ?b] => destruct (Z.gtb_spec a b); try absurd_arith
  | |- context [?a <? ?b] => destruct (Z.ltb_spec a b); try absurd_arith
  | |- context [?a <=? ?b] => destruct (Z.leb_spec a b); try absurd_arith
  | |- context [?a =? ?b] =>
      destruct (Z.eqb_spec a b);
      try congruence; try by_distinct; try absurd_arith
  end; simpl.

(** Spell a well-formedness condition on the header constants out: the
    duplicate-free list of labels, and one fact per member of the other
    list. *)
Ltac spell_out H :=
  let Hd := fresh "Hdistinct" in
  let Hs := fresh "Hsign" in
  destruct H as [Hd Hs];
  repeat match goal with
  | Hf : Forall _ (_ :: _) |- _ =>
      apply Forall_cons_iff in Hf;
      let Hx := fresh "Hmember" in destruct Hf as [Hx Hf]; cbv beta in Hx
  | Hf : Forall _ [] |- _ => clear Hf
  end.

Section TranslatorFacts.
Context {SH : ssl_locl_h} {TH : tls13_internal_h} {LC : libcrypto}
        {CO : collaborators}.
Local Open Scope adapter_scope.

Lemma same_session_refl (s : SSL) : same_session s s.
Proof. unfold same_session; intuition. Qed.

Lemma same_session_trans (s1 s2 s3 : SSL) :
  same_session s1 s2 -> same_session s2 s3 -> same_session s1 s3.
Proof. unfold same_session; intuition congruence. Qed.

(** The error surface mapper always returns when there is a context or a
    fatal alert was recorded, and stays within the session. *)
Lemma tls13_legacy_error_runs (m : machine) :
  tls13 (conn m) <> None \/ fatal_alert (conn m) <> 0 ->
  exists m', tls13_legacy_error m = Ok tt m' /\
             calls m' = calls m /\ same_session (conn m) (conn m').
Proof.
  intros H. unfold tls13_legacy_error. run.
  destruct (Z.eqb_spec (fatal_alert (conn m)) 0) as [E | E]; simpl.
  - unfold ctx_field. destruct (tls13 (conn m)) as [c |] eqn:Ec.
    + match goal with
      | |- context [if ?b then _ else _] => destruct b
      end.
      * exists m. auto using same_session_refl.
      * eexists. split; [reflexivity |]. split; [reflexivity |].
        unfold same_session; simpl; intuition.
    + destruct H; congruence.
  - exists m. auto using same_session_refl.
Qed.

(** What the error surface mapper does to the machine: it stops at the NULL
    context, or leaves the machine as it is, or puts one diagnostic on the
    error queue. *)
Lemma tls13_legacy_error_effect (m : machine) :
  (fatal_alert (conn m) = 0 /\ tls13 (conn m) = None /\
   tls13_legacy_error m = Stuck NullContext) \/
  (tls13_legacy_error m = Ok tt m /\
   (tls13 (conn m) <> None \/ fatal_alert (conn m) <> 0)) \/
  (exists c reason,
     tls13 (conn m) = Some c /\ fatal_alert (conn m) = 0 /\
     tls13_legacy_error m = Ok tt (on_conn (put_error_of reason (error c)) m)).
Proof.
  unfold tls13_legacy_error. run.
  destruct (Z.eqb_spec (fatal_alert (conn m)) 0) as [Hf | Hf]; simpl.
  - unfold ctx_field. destruct (tls13 (conn m)) as [c |] eqn:Hc.
    + match goal with
      | |- context [if ?b then _ else _] => destruct b
      end.
      * right. left. split; [reflexivity | left; discriminate].
      * right. right. exists c, (reason_of_error_code (code (error c))).
        auto.
    + left. auto.
  - right. left. auto.
Qed.

(** The mapper with a context and no fatal alert recorded: the one test that
    decides whether a diagnostic is put on the queue. *)
Lemma tls13_legacy_error_mapped (m : machine) (c : tls13_ctx) :
  tls13 (conn m) = Some c -> fatal_alert (conn m) = 0 ->
  tls13_legacy_error m =
    if (reason_of_error_code (code (error c)) =? SSL_R_UNKNOWN) &&
       negb (ERR_peek_error (err (conn m)) =? 0)
    then Ok tt m
    else Ok tt (on_conn (put_error_of (reason_of_error_code (code (error c)))
                                      (error c)) m).
Proof.
  intros Hc Hf. unfold tls13_legacy_error. run. unfold ctx_field.
  rewrite Hf. simpl. rewrite Hc. simpl.
  destruct ((reason_of_error_code (code (error c)) =? SSL_R_UNKNOWN) &&
            negb (ERR_peek_error (err (conn m)) =? 0)); reflexivity.
Qed.

(** The two macros that set retry flags: with the BIO set, and with the NULL
    pointer. *)
Lemma retry_read_runs (m : machine) :
  BIO_is_NULL (rbio (conn m)) = false ->
  retry_read m = Ok tt (on_conn flag_retry_read m).
Proof. intros H. unfold retry_read. run. rewrite H. reflexivity. Qed.

Lemma retry_write_runs (m : machine) :
  BIO_is_NULL (wbio (conn m)) = false ->
  retry_write m = Ok tt (on_conn flag_retry_write m).
Proof. intros H. unfold retry_write. run. rewrite H. reflexivity. Qed.

Lemma retry_read_stops (m : machine) :
  BIO_is_NULL (rbio (conn m)) = true -> retry_read m = Stuck NullBIO.
Proof. intros H. unfold retry_read. run. rewrite H. reflexivity. Qed.

Lemma retry_write_stops (m : machine) :
  BIO_is_NULL (wbio (conn m)) = true -> retry_write m = Stuck NullBIO.
Proof. intros H. unfold retry_write. run. rewrite H. reflexivity. Qed.

Lemma endpoints_bound_for (ret : Z) (s : SSL) :
  endpoints_bound s -> endpoint_for ret s.
Proof. intros [Hr Hw]. split; auto. Qed.

(** A non-positive outcome is translated to 0 when it is [EOF] and to -1
    otherwise, within the session and without any call into a
    collaborator, when the mapper can run and the BIO the outcome asks for
    is set. *)
Lemma return_code_non_positive_any (ret : Z) (m : machine) :
  ret <= 0 -> tls13 (conn m) <> None \/ fatal_alert (conn m) <> 0 ->
  endpoint_for ret (conn m) ->
  exists m', tls13_legacy_return_code ret m =
               Ok (if ret =? TLS13_IO_EOF then 0 else -1) m' /\
             calls m' = calls m /\ same_session (conn m) (conn m').
Proof.
  intros Hret Hctx [Hin Hout]. unfold tls13_legacy_return_code.
  destruct (Z.gtb_spec ret INT_MAX); [absurd_arith |].
  destruct (Z.gtb_spec ret 0); [absurd_arith |].
  set (m0 := on_conn (set_rwstate SSL_NOTHING) m).
  assert (Hs0 : same_session (conn m) (conn m0))
    by (unfold same_session; simpl; intuition).
  assert (Herr : exists m', (tls13_legacy_error ;; ret_ (-1)) m0 = Ok (-1) m' /\
              calls m' = calls m /\ same_session (conn m) (conn m')).
  { destruct (tls13_legacy_error_runs m0 Hctx) as (m' & E & Hc' & Hs').
    exists m'. unfold bind. rewrite E. unfold ret_.
    split; [reflexivity |]. split; [exact Hc' |].
    eauto using same_session_trans. }
  unfold bind at 1. unfold modify at 1. fold m0.
  destruct (ret =? TLS13_IO_EOF).
  { eexists. split; [reflexivity |]. auto. }
  destruct (ret =? TLS13_IO_FAILURE); [exact Herr |].
  destruct (ret =? TLS13_IO_ALERT); [exact Herr |].
  destruct (Z.eqb_spec ret TLS13_IO_WANT_POLLIN) as [E | _].
  { unfold bind at 1. rewrite retry_read_runs by (simpl; auto).
    run. eexists. split; [reflexivity |]. simpl.
    split; [auto |]. unfold same_session; simpl; intuition. }
  destruct (Z.eqb_spec ret TLS13_IO_WANT_POLLOUT) as [E | _].
  { unfold bind at 1. rewrite retry_write_runs by (simpl; auto).
    run. eexists. split; [reflexivity |]. simpl.
    split; [auto |]. unfold same_session; simpl; intuition. }
  destruct (ret =? TLS13_IO_WANT_RETRY);
    run; eexists; (split; [reflexivity |]); simpl;
    (split; [auto |]); unfold same_session; simpl; intuition.
Qed.

Lemma return_code_non_positive_value (ret : Z) (m : machine) :
  ret <= 0 -> tls13 (conn m) <> None -> endpoints_bound (conn m) ->
  exists m', tls13_legacy_return_code ret m =
               Ok (if ret =? TLS13_IO_EOF then 0 else -1) m' /\
             calls m' = calls m /\ same_session (conn m) (conn m').
Proof.
  intros Hret Hctx Hb.
  apply return_code_non_positive_any;
    [exact Hret | left; exact Hctx | now apply endpoints_bound_for].
Qed.

Lemma return_code_non_positive (ret : Z) (m : machine) :
  ret <= 0 -> tls13 (conn m) <> None -> endpoints_bound (conn m) ->
  exists r m', tls13_legacy_return_code ret m = Ok r m' /\
               (r = 0 \/ r = -1) /\ (r = 0 -> ret = TLS13_IO_EOF) /\
               calls m' = calls m /\ same_session (conn m) (conn m').
Proof.
  intros Hret Hctx Hb.
  destruct (return_code_non_positive_value ret m Hret Hctx Hb)
    as (m' & E & Hc & Hs).
  eexists _, m'. split; [exact E |].
  destruct (Z.eqb_spec ret TLS13_IO_EOF);
    (split; [auto |]); (split; [auto; discriminate | auto]).
Qed.

(** Whenever the translator returns, it has stayed within the session and
    called no collaborator. *)
Lemma return_code_frame (ret r : Z) (m m' : machine) :
  tls13_legacy_return_code ret m = Ok r m' ->
  calls m' = calls m /\ same_session (conn m) (conn m').
Proof.
  unfold tls13_legacy_return_code.
  assert (Hmap : forall m0 : machine,
            calls m0 = calls m -> same_session (conn m) (conn m0) ->
            (tls13_legacy_error ;; ret_ (-1)) m0 = Ok r m' ->
            calls m' = calls m /\ same_session (conn m) (conn m')).
  { intros m0 Hc Hs. unfold bind, ret_.
    destruct (tls13_legacy_error_effect m0)
      as [(_ & _ & E) | [(E & _) | (c & reason & _ & _ & E)]];
      rewrite E; try discriminate; intros H; injection H as <- <-.
    - auto.
    - split; [exact Hc |].
      apply (same_session_trans _ _ _ Hs).
      unfold same_session; simpl; intuition. }
  assert (Hs0 : same_session (conn m)
                  (conn (on_conn (set_rwstate SSL_NOTHING) m)))
    by (unfold same_session; simpl; intuition).
  destruct (ret >? INT_MAX).
  { run. intros H. injection H as <- <-.
    split; [reflexivity |]. unfold same_session; simpl; intuition. }
  destruct (ret >? 0).
  { unfold ret_. intros H. injection H as <- <-.
    split; [reflexivity | apply same_session_refl]. }
  unfold bind at 1. unfold modify at 1.
  repeat match goal with
  | |- context [if ?a =? ?b then _ else _] => destruct (a =? b)
  end; try (apply Hmap; [reflexivity | exact Hs0]);
    unfold retry_read, retry_write; run;
    try match goal with
    | |- context [if BIO_is_NULL ?b then _ else _] =>
        destruct (BIO_is_NULL b); [discriminate |]
    end;
    intros H; injection H as <- <-;
    (split; [reflexivity |]); unfold same_session; simpl; intuition.
Qed.

(** Whenever the translator returns, the BIOs that were set are still
    set. *)
Lemma return_code_keeps_endpoints (ret r : Z) (m m' : machine) :
  endpoints_contract ->
  tls13_legacy_return_code ret m = Ok r m' ->
  endpoints_bound (conn m) -> endpoints_bound (conn m').
Proof.
  intros (Hfr & Hfw & _) Hrun [Hr Hw].
  unfold tls13_legacy_return_code in Hrun.
  assert (Hmap : forall m0 : machine,
            rbio (conn m0) = rbio (conn m) ->
            wbio (conn m0) = wbio (conn m) ->
            (tls13_legacy_error ;; ret_ (-1)) m0 = Ok r m' ->
            endpoints_bound (conn m')).
  { intros m0 Er Ew. unfold bind, ret_.
    destruct (tls13_legacy_error_effect m0)
      as [(_ & _ & E) | [(E & _) | (c & reason & _ & _ & E)]];
      rewrite E; try discriminate; intros H; injection H as <- <-;
      unfold endpoints_bound; simpl; rewrite Er, Ew; auto. }
  destruct (ret >? INT_MAX).
  { revert Hrun. run. intros H. injection H as <- <-. split; assumption. }
  destruct (ret >? 0).
  { unfold ret_ in Hrun. injection Hrun as <- <-. split; assumption. }
  revert Hrun. unfold bind at 1. unfold modify at 1.
  repeat match goal with
  | |- context [if ?a =? ?b then _ else _] => destruct (a =? b)
  end; try (apply Hmap; reflexivity);
    unfold retry_read, retry_write; run;
    try match goal with
    | |- context [if BIO_is_NULL ?b then _ else _] =>
        let Eb := fresh "Eb" in
        destruct (BIO_is_NULL b) eqn:Eb; [discriminate |]
    end;
    intros H; injection H as <- <-;
    unfold endpoints_bound; simpl; rewrite ?Hfr, ?Hfw; auto.
Qed.


(** The translator, branch by branch of its [switch]. *)
Lemma return_code_switch (m : machine) :
  io_sentinels_wf ->
  (forall ret, INT_MAX < ret ->
     tls13_legacy_return_code ret m =
     Ok (-1) (on_conn (SSLerror_at ERR_R_INTERNAL_ERROR 137) m)) /\
  tls13_legacy_return_code TLS13_IO_WANT_RETRY m =
    Ok (-1) (on_conn (fun s => SSLerror_at ERR_R_INTERNAL_ERROR 170
                                 (set_rwstate SSL_NOTHING s)) m) /\
  tls13_legacy_return_code TLS13_IO_EOF m =
    Ok 0 (on_conn (set_rwstate SSL_NOTHING) m) /\
  tls13_legacy_return_code TLS13_IO_FAILURE m =
    (tls13_legacy_error ;; ret_ (-1)) (on_conn (set_rwstate SSL_NOTHING) m) /\
  tls13_legacy_return_code TLS13_IO_ALERT m =
    (tls13_legacy_error ;; ret_ (-1)) (on_conn (set_rwstate SSL_NOTHING) m) /\
  tls13_legacy_return_code TLS13_IO_WANT_POLLIN m =
    (retry_read ;; modify (set_rwstate SSL_READING) ;; ret_ (-1))
      (on_conn (set_rwstate SSL_NOTHING) m) /\
  tls13_legacy_return_code TLS13_IO_WANT_POLLOUT m =
    (retry_write ;; modify (set_rwstate SSL_WRITING) ;; ret_ (-1))
      (on_conn (set_rwstate SSL_NOTHING) m).
Proof.
  intros Hwf. unfold io_sentinels_wf, io_sentinels in Hwf. spell_out Hwf.
  assert (HI : 0 < INT_MAX) by (unfold INT_MAX; lia).
  repeat apply conj; intros; unfold tls13_legacy_return_code;
    settle_tests; try reflexivity.
Qed.

(** The two retry outcomes with the BIO they ask for set, and with the NULL
    pointer in its place. *)
Lemma return_code_retry (m : machine) :
  io_sentinels_wf ->
  (BIO_is_NULL (rbio (conn m)) = false ->
   tls13_legacy_return_code TLS13_IO_WANT_POLLIN m =
     Ok (-1) (on_conn (fun s => set_rwstate SSL_READING
                          (flag_retry_read (set_rwstate SSL_NOTHING s))) m)) /\
  (BIO_is_NULL (wbio (conn m)) = false ->
   tls13_legacy_return_code TLS13_IO_WANT_POLLOUT m =
     Ok (-1) (on_conn (fun s => set_rwstate SSL_WRITING
                          (flag_retry_write (set_rwstate SSL_NOTHING s))) m)) /\
  (BIO_is_NULL (rbio (conn m)) = true ->
   tls13_legacy_return_code TLS13_IO_WANT_POLLIN m = Stuck NullBIO) /\
  (BIO_is_NULL (wbio (conn m)) = true ->
   tls13_legacy_return_code TLS13_IO_WANT_POLLOUT m = Stuck NullBIO).
Proof.
  intros Hwf.
  destruct (return_code_switch m Hwf) as (_ & _ & _ & _ & _ & Hin & Hout).
  rewrite Hin, Hout. repeat apply conj; intros H; unfold bind at 1.
  - rewrite retry_read_runs by exact H. reflexivity.
  - rewrite retry_write_runs by exact H. reflexivity.
  - rewrite retry_read_stops by exact H. reflexivity.
  - rewrite retry_write_stops by exact H. reflexivity.
Qed.

(** C8, as amended.  With the outcome codes pairwise different and none of
    them positive: a count above [INT_MAX] and the [WANT_RETRY] sentinel
    both file an internal-error diagnostic and give -1; [EOF] gives 0;
    [FAILURE] and [ALERT] run the error surface mapper and give -1, and what
    that leaves on the error queue is: nothing new when a fatal alert was
    recorded; nothing new when the error code of the context is unknown and
    the queue already holds a diagnostic; and otherwise one new diagnostic
    with the reason the error code selects.  [WANT_POLLIN] gives -1 with the
    retry flags set in the read BIO and the retry intent set to reading,
    [WANT_POLLOUT] gives -1 with the flags set in the write BIO and the
    intent set to writing, each provided that BIO is set.  But for the
    oversized count, the retry intent is first reset to none. *)
Theorem return_code_sentinels (m : machine) :
  io_sentinels_wf ->
  (forall ret, INT_MAX < ret ->
     tls13_legacy_return_code ret m =
     Ok (-1) (on_conn (SSLerror_at ERR_R_INTERNAL_ERROR 137) m)) /\
  tls13_legacy_return_code TLS13_IO_WANT_RETRY m =
    Ok (-1) (on_conn (fun s => SSLerror_at ERR_R_INTERNAL_ERROR 170
                                 (set_rwstate SSL_NOTHING s)) m) /\
  tls13_legacy_return_code TLS13_IO_EOF m =
    Ok 0 (on_conn (set_rwstate SSL_NOTHING) m) /\
  (forall ret, ret = TLS13_IO_FAILURE \/ ret = TLS13_IO_ALERT ->
     (fatal_alert (conn m) <> 0 ->
      tls13_legacy_return_code ret m =
        Ok (-1) (on_conn (set_rwstate SSL_NOTHING) m)) /\
     (forall c, tls13 (conn m) = Some c -> fatal_alert (conn m) = 0 ->
        let reason := reason_of_error_code (code (error c)) in
        (reason = SSL_R_UNKNOWN -> ERR_peek_error (err (conn m)) <> 0 ->
         tls13_legacy_return_code ret m =
           Ok (-1) (on_conn (set_rwstate SSL_NOTHING) m)) /\
        (reason <> SSL_R_UNKNOWN \/ ERR_peek_error (err (conn m)) = 0 ->
         tls13_legacy_return_code ret m =
           Ok (-1) (on_conn (fun s => put_error_of reason (error c)
                                        (set_rwstate SSL_NOTHING s)) m)))) /\
  (BIO_is_NULL (rbio (conn m)) = false ->
   tls13_legacy_return_code TLS13_IO_WANT_POLLIN m =
     Ok (-1) (on_conn (fun s => set_rwstate SSL_READING
                          (flag_retry_read (set_rwstate SSL_NOTHING s))) m)) /\
  (BIO_is_NULL (wbio (conn m)) = false ->
   tls13_legacy_return_code TLS13_IO_WANT_POLLOUT m =
     Ok (-1) (on_conn (fun s => set_rwstate SSL_WRITING
                          (flag_retry_write (set_rwstate SSL_NOTHING s))) m)).
Proof.
  intros Hwf.
  destruct (return_code_switch m Hwf)
    as (Hbig & Hretry & Heof & Hfail & Halert & _ & _).
  destruct (return_code_retry m Hwf) as (Hin & Hout & _ & _).
  repeat apply conj; try assumption.
  intros ret Hret.
  assert (Hrun : tls13_legacy_return_code ret m =
            (tls13_legacy_error ;; ret_ (-1))
              (on_conn (set_rwstate SSL_NOTHING) m))
    by (destruct Hret as [-> | ->]; assumption).
  rewrite Hrun. unfold bind. split.
  - intros Hf.
    destruct (tls13_legacy_error_effect (on_conn (set_rwstate SSL_NOTHING) m))
      as [(Hf' & _) | [(E & _) | (c & reason & _ & Hf' & _)]];
      [contradiction | | contradiction].
    rewrite E. reflexivity.
  - intros c Hc Hf.
    rewrite (tls13_legacy_error_mapped (on_conn (set_rwstate SSL_NOTHING) m) c)
      by assumption.
    set (reason := reason_of_error_code (code (error c))). simpl. split.
    + intros E Hp. rewrite E, Z.eqb_refl.
      destruct (Z.eqb_spec (ERR_peek_error (err (conn m))) 0);
        [contradiction | reflexivity].
    + intros [Hn | Hp].
      * destruct (Z.eqb_spec reason SSL_R_UNKNOWN); [contradiction |].
        reflexivity.
      * rewrite Hp, Z.eqb_refl, andb_false_r. reflexivity.
Qed.

End TranslatorFacts.

Section SimplePaths.
Context {SH : ssl_locl_h} {TH : tls13_internal_h} {LC : libcrypto}
        {CO : collaborators}.
Local Open Scope adapter_scope.

(** C5, as amended.  With a fatal alert recorded the mapper emits nothing.
    Otherwise the error code of the context selects the reason
    (verification failure, hello-retry failure, trailing data, no shared
    cipher; unknown for every other code); an unknown reason is dropped when
    the error queue already holds a diagnostic, and in every other case,
    whatever the queue holds, exactly one diagnostic with the selected
    reason is put on the queue. *)
Theorem error_mapper (m : machine) :
  error_codes_wf ->
  (fatal_alert (conn m) <> 0 -> tls13_legacy_error m = Ok tt m) /\
  (forall c, tls13 (conn m) = Some c -> fatal_alert (conn m) = 0 ->
     let e := error c in
     let reason := reason_of_error_code (code e) in
     (code e = TLS13_ERR_VERIFY_FAILED ->
      reason = SSL_R_CERTIFICATE_VERIFY_FAILED) /\
     (code e = TLS13_ERR_HRR_FAILED ->
      reason = SSL_R_NO_CIPHERS_AVAILABLE) /\
     (code e = TLS13_ERR_TRAILING_DATA ->
      reason = SSL_R_EXTRA_DATA_IN_MESSAGE) /\
     (code e = TLS13_ERR_NO_SHARED_CIPHER ->
      reason = SSL_R_NO_SHARED_CIPHER) /\
     (~ In (code e) error_codes -> reason = SSL_R_UNKNOWN) /\
     (In (code e) error_codes -> reason <> SSL_R_UNKNOWN) /\
     (reason = SSL_R_UNKNOWN -> ERR_peek_error (err (conn m)) <> 0 ->
      tls13_legacy_error m = Ok tt m) /\
     (reason <> SSL_R_UNKNOWN \/ ERR_peek_error (err (conn m)) = 0 ->
      tls13_legacy_error m = Ok tt (on_conn (put_error_of reason e) m))).
Proof.
  intros Hwf. unfold error_codes_wf, error_codes, mapped_reasons in Hwf.
  spell_out Hwf. split.
  - intros Hf. unfold tls13_legacy_error. run. settle_tests; try reflexivity.
  - intros c Hc Hf e reason.
    assert (Hrun : tls13_legacy_error m =
              if (reason =? SSL_R_UNKNOWN) &&
                 negb (ERR_peek_error (err (conn m)) =? 0)
              then Ok tt m
              else Ok tt (on_conn (put_error_of reason e) m)).
    { unfold tls13_legacy_error. run. unfold ctx_field. rewrite Hf. simpl.
      rewrite Hc.
      simpl. fold e. fold reason.
      destruct ((reason =? SSL_R_UNKNOWN) &&
                negb (ERR_peek_error (err (conn m)) =? 0)); reflexivity. }
    repeat apply conj.
    + intros E. subst reason. unfold reason_of_error_code. rewrite E.
      settle_tests; try reflexivity.
    + intros E. subst reason. unfold reason_of_error_code. rewrite E.
      settle_tests; try reflexivity.
    + intros E. subst reason. unfold reason_of_error_code. rewrite E.
      settle_tests; try reflexivity.
    + intros E. subst reason. unfold reason_of_error_code. rewrite E.
      settle_tests; try reflexivity.
    + intros Hn. simpl in Hn. subst reason. unfold reason_of_error_code.
      settle_tests; try reflexivity.
    + intros [E | [E | [E | [E | []]]]]; subst reason;
        unfold reason_of_error_code; rewrite <- E; settle_tests; try assumption.
    + intros E Hp. rewrite Hrun, E.
      settle_tests; try reflexivity.
    + intros Hemit. rewrite Hrun.
      destruct Hemit; settle_tests; try reflexivity.
Qed.

(** C9.  The pending-data query returns a count between 0 and [INT_MAX]:
    0 without a handshake context, 0 when the count the engine reports is
    negative or above [INT_MAX], and otherwise that very count. *)
Theorem pending_query (s : SSL) :
  0 <= tls13_legacy_pending s <= INT_MAX /\
  (tls13 s = None -> tls13_legacy_pending s = 0) /\
  (tls13_pending_application_data s < 0 \/
   INT_MAX < tls13_pending_application_data s ->
   tls13_legacy_pending s = 0) /\
  (tls13 s <> None ->
   0 <= tls13_pending_application_data s <= INT_MAX ->
   tls13_legacy_pending s = tls13_pending_application_data s).
Proof.
  unfold tls13_legacy_pending.
  destruct (tls13 s) as [c |]; simpl.
  - destruct (Z.ltb_spec (tls13_pending_application_data s) 0);
      destruct (Z.gtb_spec (tls13_pending_application_data s) INT_MAX);
      simpl; unfold INT_MAX in *; repeat apply conj; intros;
      try congruence; lia.
  - unfold INT_MAX. repeat apply conj; intros; try congruence; lia.
Qed.

(** C6.  While the handshake is not completed, or without a handshake
    context, a read and a write of any type and length call the handshake
    driver and no other collaborator; a non-positive outcome of the driver
    is returned as it is, and after a positive one the read returns what the
    translator makes of [WANT_POLLIN] and the write what it makes of
    [WANT_POLLOUT]: with the read BIO set after the handshake step, -1 and
    waiting to read; with the write BIO set, -1 and waiting to write. *)
Theorem handshake_gating (type len peek : Z) (fuel : nat) (buf : list byte)
    (m : machine) :
  io_sentinels_wf ->
  handshaking (conn m) = true ->
  let r := fst (handshake_func (conn m)) in
  let m1 := {| conn := snd (handshake_func (conn m));
               calls := calls m ++ [Call_handshake_func r] |} in
  tls13_legacy_read_bytes type len peek m =
    (if r <=? 0 then Ok r m1
     else tls13_legacy_return_code TLS13_IO_WANT_POLLIN m1) /\
  tls13_legacy_write_bytes fuel type buf len m =
    (if r <=? 0 then Ok r m1
     else tls13_legacy_return_code TLS13_IO_WANT_POLLOUT m1) /\
  (BIO_is_NULL (rbio (conn m1)) = false ->
   tls13_legacy_return_code TLS13_IO_WANT_POLLIN m1 =
     Ok (-1) (on_conn (fun s => set_rwstate SSL_READING
                          (flag_retry_read (set_rwstate SSL_NOTHING s))) m1)) /\
  (BIO_is_NULL (wbio (conn m1)) = false ->
   tls13_legacy_return_code TLS13_IO_WANT_POLLOUT m1 =
     Ok (-1) (on_conn (fun s => set_rwstate SSL_WRITING
                          (flag_retry_write (set_rwstate SSL_NOTHING s))) m1)).
Proof.
  intros Hwf Hhs r m1.
  assert (Hrun : extern handshake_func Call_handshake_func m = Ok r m1).
  { unfold extern. subst r m1.
    destruct (handshake_func (conn m)); reflexivity. }
  repeat apply conj.
  - unfold tls13_legacy_read_bytes. run. rewrite Hhs, Hrun.
    destruct (r <=? 0); reflexivity.
  - unfold tls13_legacy_write_bytes. run. rewrite Hhs, Hrun.
    destruct (r <=? 0); reflexivity.
  - apply (return_code_retry m1 Hwf).
  - apply (return_code_retry m1 Hwf).
Qed.

(** On an established connection in strict mode, a write of application
    data of non-negative length comes down to the length check and the
    loop. *)
Lemma write_bytes_strict (fuel : nat) (type : Z) (buf : list byte)
    (len : Z) (m : machine) :
  strict_established (conn m) ->
  type = SSL3_RT_APPLICATION_DATA ->
  0 <= len ->
  tls13_legacy_write_bytes fuel type buf len m =
    if to_size_t len <? to_size_t (wnum (conn m))
    then Ok (-1) (on_conn (SSLerror_at SSL_R_BAD_LENGTH 261) m)
    else write_loop fuel buf (to_size_t (wnum (conn m)))
           (to_size_t (to_size_t len - to_size_t (wnum (conn m)))) m.
Proof.
  intros [Hhs Hmode] Htype Hlen.
  unfold tls13_legacy_write_bytes. run. rewrite Hhs. simpl.
  rewrite Htype, Z.eqb_refl. simpl.
  destruct (Z.ltb_spec len 0); [lia |].
  rewrite Hmode. simpl.
  destruct (to_size_t len <? to_size_t (wnum (conn m))); reflexivity.
Qed.

(** C7.  In strict mode on an established connection, a write of
    application data whose length is below the carried sent count files a
    bad-length diagnostic and returns -1; the record layer is not called. *)
Theorem strict_write_shrunk (fuel : nat) (type : Z) (buf : list byte)
    (len : Z) (m : machine) :
  strict_established (conn m) ->
  type = SSL3_RT_APPLICATION_DATA ->
  len < wnum (conn m) ->
  wnum (conn m) <= INT_MAX ->
  tls13_legacy_write_bytes fuel type buf len m =
    Ok (-1) (on_conn (SSLerror_at SSL_R_BAD_LENGTH
                                  (if len <? 0 then 242 else 261)) m).
Proof.
  intros Hst Htype Hlen Hmax.
  destruct (Z.ltb_spec len 0).
  - destruct Hst as [Hhs Hmode].
    unfold tls13_legacy_write_bytes. run. rewrite Hhs. simpl.
    rewrite Htype, Z.eqb_refl. simpl.
    destruct (Z.ltb_spec len 0); [reflexivity | lia].
  - rewrite write_bytes_strict by assumption.
    unfold to_size_t.
    rewrite (Z.mod_small len), (Z.mod_small (wnum (conn m)))
      by (unfold INT_MAX in *; lia).
    destruct (Z.ltb_spec len (wnum (conn m))); [reflexivity | lia].
Qed.

(** C10.  In strict mode on an established connection with nothing carried,
    a write of application data of length 0 returns 0 and calls no
    collaborator; 0 is also what the translator returns for the clean end
    [EOF]. *)
Theorem strict_write_empty (fuel : nat) (type : Z) (buf : list byte)
    (m m0 : machine) :
  io_sentinels_wf ->
  strict_established (conn m) ->
  type = SSL3_RT_APPLICATION_DATA ->
  wnum (conn m) = 0 ->
  tls13_legacy_write_bytes (S fuel) type buf 0 m =
    Ok 0 (on_conn (set_wnum 0) m) /\
  tls13_legacy_return_code TLS13_IO_EOF m0 =
    Ok 0 (on_conn (set_rwstate SSL_NOTHING) m0).
Proof.
  intros Hwf Hst Htype Hw. split.
  - rewrite write_bytes_strict by (assumption || lia).
    rewrite Hw. reflexivity.
  - apply (return_code_switch m0 Hwf).
Qed.

End SimplePaths.

Section StrictWrite.
Context {SH : ssl_locl_h} {TH : tls13_internal_h} {LC : libcrypto}
        {CO : collaborators}.
Local Open Scope adapter_scope.

Lemma accepted_nonneg (l : list call) : 0 <= accepted l.
Proof.
  induction l as [| c l IH]; simpl; [lia |].
  destruct c; simpl; lia.
Qed.

Lemma accepted_app (l1 l2 : list call) :
  accepted (l1 ++ l2) = accepted l1 + accepted l2.
Proof. induction l1 as [| c l1 IH]; simpl; lia. Qed.

Lemma strict_established_context (s : SSL) :
  strict_established s -> tls13 s <> None.
Proof.
  intros [Hhs _]. unfold handshaking in Hhs.
  destruct (tls13 s); congruence.
Qed.

Lemma strict_established_same_session (s s' : SSL) :
  same_session s s' -> strict_established s -> strict_established s'.
Proof.
  intros (Ht & Hm & _) [Hhs Hmode]. unfold strict_established, handshaking.
  rewrite Ht, Hm. split; assumption.
Qed.

Lemma to_int_small (x : Z) : 0 <= x <= INT_MAX -> to_int x = x.
Proof.
  intros H. unfold to_int, INT_MAX in *. rewrite Z.mod_small; lia.
Qed.

Lemma to_size_t_small (x : Z) : 0 <= x <= INT_MAX -> to_size_t x = x.
Proof.
  intros H. unfold to_size_t, INT_MAX in *. apply Z.mod_small. lia.
Qed.

(** The loop, resumed at [sent] with [len - sent] bytes to go, returns
    within [len - sent + 1] turns. *)
Lemma write_loop_spec (buf : list byte) (len : Z) :
  write_contract -> endpoints_contract -> 0 <= len <= INT_MAX ->
  forall (fuel : nat) (sent : Z) (m : machine),
    strict_established (conn m) -> endpoints_bound (conn m) ->
    0 <= sent <= len ->
    len - sent < Z.of_nat fuel ->
    exists r m' l stop,
      write_loop fuel buf sent (len - sent) m = Ok r m' /\
      new_calls m m' l /\
      suffix_writes buf len sent l stop /\
      strict_established (conn m') /\
      strict_outcome len sent l stop r m' /\
      endpoints_bound (conn m').
Proof.
  intros Hrl Hep Hlen fuel.
  pose proof Hep as (_ & _ & _ & _ & _ & Hwkeep & _).
  induction fuel as [| fuel IH]; intros sent m Hst Hb Hsent Hfuel; [lia |].
  cbn [write_loop].
  destruct (Z.eqb_spec (len - sent) 0) as [E | E].
  - (* nothing remains *)
    exists len, (on_conn (set_wnum 0) m), [], None.
    split; [| split; [| split; [| split; [| split]]]].
    + run. rewrite to_int_small by lia. f_equal. lia.
    + unfold new_calls. simpl. now rewrite app_nil_r.
    + simpl. split; [reflexivity | lia].
    + exact Hst.
    + simpl. repeat split; lia.
    + exact Hb.
  - (* one more write of the unsent suffix *)
    destruct (Hrl (conn m) (skipn (Z.to_nat sent) buf) (len - sent))
      as [Hle Hkeep].
    specialize (Hle ltac:(lia)). specialize (Hkeep Hst).
    pose proof (Hwkeep (skipn (Z.to_nat sent) buf) (len - sent) (conn m) Hb)
      as Hb1.
    cbv beta in Hb1. unfold bind at 1. unfold extern at 1.
    destruct (tls13_write_application_data (conn m)
                (skipn (Z.to_nat sent) buf) (len - sent)) as [ret s1] eqn:Ew.
    simpl in Hle, Hkeep, Hb1.
    set (c := Call_write_application_data (skipn (Z.to_nat sent) buf)
                                          (len - sent) ret).
    set (m1 := {| conn := s1; calls := calls m ++ [c] |}).
    destruct (Z.leb_spec ret 0) as [Hret | Hret].
    + (* interrupted: persist the count, translate the outcome *)
      run. rewrite to_int_small by lia.
      destruct (return_code_non_positive ret (on_conn (set_wnum sent) m1))
        as (r & m' & Hrc & Hr & _ & Hc & Hss);
        [assumption | simpl; now apply strict_established_context
        | exact Hb1 |].
      exists r, m', [c], (Some ret).
      assert (Hacc : accepted [c] = 0) by (simpl; lia).
      split; [exact Hrc |]. split; [| split; [| split; [| split]]].
      * unfold new_calls. rewrite Hc. reflexivity.
      * simpl. exists ret. split; [reflexivity |]. split; [lia |].
        destruct (Z.leb_spec ret 0); [auto | lia].
      * apply (strict_established_same_session _ _ Hss). exact Hkeep.
      * unfold strict_outcome. rewrite Hacc.
        destruct Hss as (_ & _ & Hw & _). simpl in Hw.
        split; [lia |]. split; [exact Hr |].
        split; [lia |]. split; [lia |].
        exists (on_conn (set_wnum sent) m1).
        split; [simpl; lia |]. split; [now rewrite Hc | exact Hrc].
      * exact (return_code_keeps_endpoints _ _ _ _ Hep Hrc Hb1).
    + (* accepted in part or in full: go on with what remains *)
      rewrite !to_size_t_small by lia.
      replace (len - sent - ret) with (len - (sent + ret)) by lia.
      destruct (IH (sent + ret) m1)
        as (r & m' & l & stop & Hrun & Hc & Hsw & Hst' & Hout & Hb');
        [exact Hkeep | exact Hb1 | lia | lia |].
      exists r, m', (c :: l), stop.
      assert (Hacc : accepted (c :: l) = ret + accepted l) by (simpl; lia).
      split; [exact Hrun |]. split; [| split; [| split; [| split]]].
      * unfold new_calls in *. rewrite Hc. simpl. now rewrite <- app_assoc.
      * simpl. exists ret. split; [reflexivity |]. split; [lia |].
        destruct (Z.leb_spec ret 0); [lia | exact Hsw].
      * exact Hst'.
      * unfold strict_outcome in *. rewrite Hacc.
        destruct stop as [ret' |].
        -- destruct Hout as (H1 & H2 & H3 & H4 & m2 & H5 & H6 & H7).
           split; [exact H1 |]. split; [exact H2 |].
           split; [lia |]. split; [lia |].
           exists m2. split; [lia |]. split; assumption.
        -- destruct Hout as (H1 & H2 & H3). repeat split; lia.
      * exact Hb'.
Qed.

(** One strict call on an established connection carrying [wnum]. *)
Lemma strict_write_call (fuel : nat) (type : Z) (buf : list byte) (len : Z)
    (m : machine) :
  write_contract -> endpoints_contract ->
  strict_established (conn m) -> endpoints_bound (conn m) ->
  type = SSL3_RT_APPLICATION_DATA ->
  0 <= wnum (conn m) <= len -> len <= INT_MAX ->
  len < Z.of_nat fuel ->
  exists r m' l stop,
    tls13_legacy_write_bytes fuel type buf len m = Ok r m' /\
    new_calls m m' l /\
    suffix_writes buf len (wnum (conn m)) l stop /\
    strict_established (conn m') /\
    strict_outcome len (wnum (conn m)) l stop r m' /\
    endpoints_bound (conn m').
Proof.
  intros Hrl Hep Hst Hb Htype Hw Hlen Hfuel.
  rewrite write_bytes_strict by (assumption || lia).
  rewrite !to_size_t_small by lia.
  destruct (Z.ltb_spec len (wnum (conn m))); [lia |].
  apply write_loop_spec; (assumption || lia).
Qed.

Lemma retry_observation_not_done (len : Z) (pre : list (Z * Z)) :
  Forall (retry_observation len) pre ->
  count_occ Z.eq_dec (map fst pre) len = 0%nat.
Proof.
  induction 1 as [| [r w] pre [Hr Hw] _ IH]; [reflexivity |].
  simpl in *. destruct (Z.eq_dec r len); [lia | exact IH].
Qed.

(** The caller's retry loop, started with [w] bytes carried. *)
Lemma write_retry_spec (fuel : nat) (type : Z) (buf : list byte) (len : Z) :
  write_contract -> endpoints_contract ->
  type = SSL3_RT_APPLICATION_DATA ->
  0 <= len <= INT_MAX ->
  len < Z.of_nat fuel ->
  forall (k : nat) (m : machine),
    strict_established (conn m) -> endpoints_bound (conn m) ->
    0 <= wnum (conn m) <= len ->
    exists obs m' l,
      write_retry k fuel type buf len m = Ok obs m' /\
      new_calls m m' l /\
      strict_established (conn m') /\
      ((exists pre, obs = pre ++ [(len, 0)] /\
                    Forall (retry_observation len) pre /\
                    non_decreasing (wnum (conn m) :: map snd pre) /\
                    wnum (conn m) + accepted l = len /\
                    wnum (conn m') = 0) \/
       (List.length obs = k /\
        Forall (retry_observation len) obs /\
        non_decreasing (wnum (conn m) :: map snd obs) /\
        wnum (conn m') = wnum (conn m) + accepted l /\
        (k <> 0%nat -> wnum (conn m) + accepted l < len))).
Proof.
  intros Hrl Hep Htype Hlen Hfuel k.
  induction k as [| k IH]; intros m Hst Hb Hw.
  - exists [], m, []. split; [reflexivity |].
    split; [unfold new_calls; now rewrite app_nil_r |].
    split; [exact Hst |]. right. simpl.
    repeat split; auto; lia.
  - cbn [write_retry]. unfold bind at 1.
    destruct (strict_write_call fuel type buf len m)
      as (r & m1 & l1 & stop & Hrun & Hc1 & _ & Hst1 & Hout & Hb1);
      try (assumption || lia).
    rewrite Hrun. run.
    destruct stop as [ret |]; simpl in Hout.
    + (* a retry indication: the caller calls again *)
      destruct Hout as (_ & Hr & Hw1 & Hshort & _).
      pose proof (accepted_nonneg l1) as Hnn.
      destruct (Z.eqb_spec r len); [lia |].
      destruct (IH m1 Hst1 Hb1) as (obs & m' & l & Hrest & Hc & Hst' & Hcases);
        [lia |].
      rewrite Hrest.
      exists ((r, wnum (conn m1)) :: obs), m', (l1 ++ l).
      split; [reflexivity |].
      split; [unfold new_calls in *; rewrite Hc, Hc1; now rewrite app_assoc |].
      split; [exact Hst' |].
      assert (Hobs : retry_observation len (r, wnum (conn m1)))
        by (split; simpl; [exact Hr | lia]).
      rewrite accepted_app.
      destruct Hcases as [(pre & -> & Hpre & Hnd & Hsum & Hz) |
                          (Hlen' & Hall & Hnd & Hw' & Hk)].
      * left. exists ((r, wnum (conn m1)) :: pre).
        split; [reflexivity |]. split; [now constructor |].
        split; [simpl in *; split; [lia | exact Hnd] |].
        split; [lia | exact Hz].
      * right. simpl. split; [now rewrite Hlen' |].
        split; [now constructor |].
        split; [split; [lia | exact Hnd] |].
        split; [lia |]. intros _.
        pose proof (accepted_nonneg l).
        destruct k as [| k']; [| specialize (Hk ltac:(congruence)); lia].
        destruct obs; [| discriminate].
        assert (wnum (conn m') = wnum (conn m1) + accepted l) by exact Hw'.
        enough (accepted l = 0) by lia.
        cbn [write_retry] in Hrest. unfold ret_ in Hrest.
        injection Hrest as <-. unfold new_calls in Hc.
        apply (f_equal (@List.length call)) in Hc.
        rewrite length_app in Hc.
        destruct l; [reflexivity | simpl in Hc; lia].
    + (* the full length: the caller is done *)
      destruct Hout as (-> & Hz & Hsum).
      rewrite Z.eqb_refl.
      exists [(len, wnum (conn m1))], m1, l1.
      split; [reflexivity |]. split; [exact Hc1 |]. split; [exact Hst1 |].
      left. exists []. rewrite Hz. simpl. repeat split; auto.
Qed.

(** C1.  In strict mode, on an established connection carrying
    [w = wnum] bytes of a write of [len] bytes (0 on a fresh call), with a
    record layer that never accepts more than it is offered, and with both
    BIOs set and left in place by the record layer:

    - one call returns, and the calls it makes are writes of the unsent
      suffix, first from [w], then from wherever the acceptances have led;
      it ends either with nothing remaining, returning [len] with the
      carried count reset to 0, or at the first non-positive outcome,
      returning its translation with the count sent so far carried over;
    - when the caller calls again with the same buffer and length until
      [len] is returned, at most [k + 1] times, and the acceptances logged
      add up to what was missing, then the observations are retry
      indications with non-decreasing carried counts followed by the full
      length, which is thus returned exactly once; while the acceptances
      fall short, every call is a retry indication and the carried count is
      what has been accepted. *)
Theorem strict_write_resumable (fuel : nat) (type : Z) (buf : list byte)
    (len : Z) (k : nat) (m : machine) :
  write_contract -> endpoints_contract ->
  strict_established (conn m) -> endpoints_bound (conn m) ->
  type = SSL3_RT_APPLICATION_DATA ->
  0 <= wnum (conn m) <= len -> len <= INT_MAX ->
  len < Z.of_nat fuel ->
  (exists r m' l stop,
     tls13_legacy_write_bytes fuel type buf len m = Ok r m' /\
     new_calls m m' l /\
     suffix_writes buf len (wnum (conn m)) l stop /\
     strict_outcome len (wnum (conn m)) l stop r m') /\
  (exists obs m' l,
     write_retry (S k) fuel type buf len m = Ok obs m' /\
     new_calls m m' l /\
     wnum (conn m) + accepted l <= len /\
     (wnum (conn m) + accepted l = len ->
      exists pre, obs = pre ++ [(len, 0)] /\
                  Forall (retry_observation len) pre /\
                  non_decreasing (wnum (conn m) :: map snd pre) /\
                  count_occ Z.eq_dec (map fst obs) len = 1%nat /\
                  wnum (conn m') = 0) /\
     (wnum (conn m) + accepted l < len ->
      List.length obs = S k /\
      Forall (retry_observation len) obs /\
      non_decreasing (wnum (conn m) :: map snd obs) /\
      wnum (conn m') = wnum (conn m) + accepted l)).
Proof.
  intros Hrl Hep Hst Hb Htype Hw Hlen Hfuel. split.
  - destruct (strict_write_call fuel type buf len m)
      as (r & m' & l & stop & H1 & H2 & H3 & _ & H4 & _);
      try (assumption || lia).
    exists r, m', l, stop. auto.
  - destruct (write_retry_spec fuel type buf len
                Hrl Hep Htype ltac:(lia) Hfuel (S k) m Hst Hb Hw)
      as (obs & m' & l & Hrun & Hc & _ & Hcases).
    exists obs, m', l. split; [exact Hrun |]. split; [exact Hc |].
    destruct Hcases as [(pre & -> & Hpre & Hnd & Hsum & Hz) |
                        (Hlen' & Hall & Hnd & Hw' & Hk)].
    + split; [lia |]. split; [| lia].
      intros _. exists pre. repeat split; auto.
      rewrite map_app, count_occ_app, retry_observation_not_done by assumption.
      simpl. destruct (Z.eq_dec len len); [reflexivity | congruence].
    + specialize (Hk ltac:(congruence)).
      split; [lia |]. split; [lia |]. intros _. auto.
Qed.

End StrictWrite.

Section Shutdown.
Context {SH : ssl_locl_h} {TH : tls13_internal_h} {LC : libcrypto}
        {CO : collaborators}.
Local Open Scope adapter_scope.

Lemma ctx_flag_same_session (f : tls13_ctx -> Z) (s s' : SSL) :
  same_session s s' -> ctx_flag f s' = ctx_flag f s.
Proof. intros (Ht & _). unfold ctx_flag. now rewrite Ht. Qed.

Lemma ctx_flag_context (f : tls13_ctx -> Z) (s : SSL) :
  ctx_flag f s <> 0 -> tls13 s <> None.
Proof. unfold ctx_flag. destruct (tls13 s); congruence. Qed.

Lemma ctx_field_flag (f : tls13_ctx -> Z) (m : machine) :
  tls13 (conn m) <> None -> ctx_field f m = Ok (ctx_flag f (conn m)) m.
Proof.
  unfold ctx_field, ctx_flag. destruct (tls13 (conn m)); congruence.
Qed.

Lemma extern_runs (f : SSL -> Z * SSL) (ev : Z -> call) (m : machine) :
  extern f ev m =
    Ok (fst (f (conn m)))
       {| conn := snd (f (conn m));
          calls := calls m ++ [ev (fst (f (conn m)))] |}.
Proof. unfold extern. destruct (f (conn m)); reflexivity. Qed.

Lemma shutdown_result_runs (m : machine) :
  tls13 (conn m) <> None ->
  shutdown_result m = Ok (checked_result (conn m)) m.
Proof.
  intros Hc. unfold shutdown_result, bind.
  rewrite ctx_field_flag by assumption.
  unfold checked_result, close_notify_recv_flag.
  destruct (ctx_flag close_notify_recv (conn m) =? 0); reflexivity.
Qed.

Lemma alerts_sent_app (l1 l2 : list call) :
  alerts_sent (l1 ++ l2) = (alerts_sent l1 + alerts_sent l2)%nat.
Proof. unfold alerts_sent. now rewrite filter_app, length_app. Qed.

(** The receive phase, entered after a flush that reported success. *)
Lemma shutdown_receive_spec (m : machine) :
  io_sentinels_wf -> shutdown_contract -> endpoints_contract ->
  close_notify_sent_flag (conn m) <> 0 -> endpoints_bound (conn m) ->
  exists r m' lr,
    shutdown_receive m = Ok r m' /\ new_calls m m' lr /\
    close_notify_sent_flag (conn m') <> 0 /\
    endpoints_bound (conn m') /\
    ((exists rr, lr = [Call_read_application_data 512 rr] /\
        rr <> TLS13_IO_EOF /\ r = -1 /\
        (0 < rr ->
         rwstate (conn m') = SSL_READING /\
         exists m1, calls m1 = calls m' /\
           tls13_legacy_return_code TLS13_IO_WANT_POLLIN m1 = Ok r m')) \/
     ((lr = [] \/ lr = [Call_read_application_data 512 TLS13_IO_EOF]) /\
      r = checked_result (conn m') /\
      (flush_stable -> flushed (conn m) -> flushed (conn m')) /\
      (lr = [] -> r = 1))).
Proof.
  intros Hwf (_ & _ & Hread & _) Hep Hsent Hb.
  pose proof Hep as (_ & _ & _ & _ & Hrkeep & _).
  pose proof (ctx_flag_context _ _ Hsent) as Hctx.
  unfold shutdown_receive. unfold bind at 1.
  rewrite ctx_field_flag by assumption.
  fold (close_notify_recv_flag (conn m)).
  destruct (Z.eqb_spec (close_notify_recv_flag (conn m)) 0) as [Hrecv | Hrecv].
  - (* the close-notify of the peer is still to come: read *)
    unfold bind at 1. rewrite extern_runs.
    fold (read_scratch (conn m)).
    set (rr := fst (read_scratch (conn m))).
    set (m1 := {| conn := snd (read_scratch (conn m));
                  calls := calls m ++ [Call_read_application_data 512 rr] |}).
    assert (Hsent1 : close_notify_sent_flag (conn m1) <> 0)
      by (apply Hread; exact Hsent).
    assert (Hb1 : endpoints_bound (conn m1))
      by (apply (Hrkeep 512); exact Hb).
    pose proof (ctx_flag_context _ _ Hsent1) as Hctx1.
    pose proof Hwf as Hwf'. unfold io_sentinels_wf, io_sentinels in Hwf'.
    spell_out Hwf'.
    set (ret := if rr >? 0 then TLS13_IO_WANT_POLLIN else rr).
    destruct (Z.eqb_spec ret TLS13_IO_EOF) as [Heof | Hne]; simpl.
    + (* the clean end: on to the final check *)
      assert (Hrr : rr = TLS13_IO_EOF).
      { subst ret. destruct (Z.gtb_spec rr 0); [absurd_case | exact Heof]. }
      rewrite shutdown_result_runs by assumption.
      exists (checked_result (conn m1)), m1,
             [Call_read_application_data 512 rr].
      split; [reflexivity |]. split; [reflexivity |].
      split; [exact Hsent1 |]. split; [exact Hb1 |]. right.
      split; [right; now rewrite Hrr |]. split; [reflexivity |].
      split; [| discriminate].
      intros (_ & Hst & _) Hfl. apply Hst; [exact Hfl | exact Hrr].
    + (* anything else: translate *)
      assert (Hret : ret <= 0)
        by (subst ret; destruct (Z.gtb_spec rr 0); lia).
      destruct (return_code_non_positive_value ret m1 Hret Hctx1 Hb1)
        as (m' & Hrc & Hc & Hss).
      destruct (Z.eqb_spec ret TLS13_IO_EOF) as [| _]; [contradiction |].
      exists (-1), m', [Call_read_application_data 512 rr].
      split; [exact Hrc |].
      split; [unfold new_calls; rewrite Hc; reflexivity |].
      split.
      { unfold close_notify_sent_flag in *.
        rewrite (ctx_flag_same_session _ _ _ Hss). exact Hsent1. }
      split; [exact (return_code_keeps_endpoints _ _ _ _ Hep Hrc Hb1) |].
      left. exists rr. split; [reflexivity |].
      split; [| split; [reflexivity |]].
      * intros E. apply Hne. subst ret.
        destruct (Z.gtb_spec rr 0); [absurd_case | exact E].
      * intros Hpos.
        assert (E : ret = TLS13_IO_WANT_POLLIN)
          by (subst ret; destruct (Z.gtb_spec rr 0); [reflexivity | lia]).
        rewrite E in Hrc.
        destruct (return_code_retry m1 Hwf) as (Hin & _).
        specialize (Hin (proj1 Hb1)).
        rewrite Hin in Hrc. injection Hrc as <-.
        split; [reflexivity |].
        exists m1. split; [reflexivity | exact Hin].
  - (* already received: straight to the final check *)
    rewrite shutdown_result_runs by assumption.
    exists (checked_result (conn m)), m, [].
    split; [reflexivity |].
    split; [unfold new_calls; now rewrite app_nil_r |].
    split; [exact Hsent |]. split; [exact Hb |]. right.
    split; [auto |]. split; [reflexivity |]. split; [auto |].
    intros _. unfold checked_result.
    destruct (Z.eqb_spec (close_notify_recv_flag (conn m)) 0);
      [contradiction | reflexivity].
Qed.

(** The flush phase and what follows it. *)
Lemma shutdown_flush_spec (m : machine) :
  io_sentinels_wf -> shutdown_contract -> endpoints_contract ->
  close_notify_sent_flag (conn m) <> 0 -> endpoints_bound (conn m) ->
  exists r m' lf,
    shutdown_flush m = Ok r m' /\ new_calls m m' lf /\
    close_notify_sent_flag (conn m') <> 0 /\
    alerts_sent lf = 0%nat /\
    flush_end r m' lf /\
    endpoints_bound (conn m').
Proof.
  intros Hwf Hrl Hep Hsent Hb.
  pose proof Hrl as (_ & Hflush & _ & Hrange).
  pose proof Hep as (_ & _ & _ & _ & _ & _ & _ & Hfkeep).
  unfold shutdown_flush. unfold bind at 1. rewrite extern_runs.
  set (rf := fst (tls13_record_layer_send_pending (conn m))).
  set (m1 := {| conn := snd (tls13_record_layer_send_pending (conn m));
                calls := calls m ++ [Call_send_pending rf] |}).
  assert (Hsent1 : close_notify_sent_flag (conn m1) <> 0)
    by (apply Hflush; exact Hsent).
  assert (Hb1 : endpoints_bound (conn m1)) by (apply Hfkeep; exact Hb).
  pose proof (ctx_flag_context _ _ Hsent1) as Hctx1.
  destruct (Z.eqb_spec rf TLS13_IO_SUCCESS) as [Hok | Hfail]; simpl.
  - destruct (shutdown_receive_spec m1 Hwf Hrl Hep Hsent1 Hb1)
      as (r & m' & lr & Hrun & Hc & Hsent' & Hb' & Hcases).
    exists r, m', (Call_send_pending rf :: lr).
    split; [exact Hrun |].
    split; [unfold new_calls in *; rewrite Hc; simpl;
            now rewrite <- app_assoc |].
    split; [exact Hsent' |].
    destruct Hcases
      as [(rr & -> & Hne & Hr & Hpos) | (Hlr & Hr & Hfl & Hnone)].
    + split; [reflexivity |]. split; [| exact Hb'].
      rewrite Hok. now apply Read_retry.
    + split; [destruct Hlr as [-> | ->]; reflexivity |].
      split; [| exact Hb'].
      rewrite Hok. apply Checked; [exact Hlr | exact Hr | | exact Hnone].
      intros Hst. apply (Hfl Hst). simpl.
      destruct Hst as (Hst & _). apply Hst. exact Hok.
  - assert (Hrf : rf <= 0)
      by (destruct (Hrange (conn m)); [contradiction | assumption]).
    destruct (return_code_non_positive rf m1 Hrf Hctx1 Hb1)
      as (r & m' & Hrc & Hr & Heof & Hc & Hss).
    exists r, m', [Call_send_pending rf].
    split; [exact Hrc |].
    split; [unfold new_calls; rewrite Hc; reflexivity |].
    split.
    { unfold close_notify_sent_flag in *.
      rewrite (ctx_flag_same_session _ _ _ Hss). exact Hsent1. }
    split; [reflexivity |].
    split; [now apply Flush_failed |].
    exact (return_code_keeps_endpoints _ _ _ _ Hep Hrc Hb1).
Qed.

Lemma mark_close_notify_sent_flag (s : SSL) :
  tls13 s <> None ->
  close_notify_sent_flag (mark_close_notify_sent s) = 1.
Proof.
  unfold close_notify_sent_flag, ctx_flag, mark_close_notify_sent.
  simpl. destruct (tls13 s); [reflexivity | congruence].
Qed.

(** A call of the shutdown operation that is not trivial. *)
Lemma shutdown_send_spec (m : machine) :
  io_sentinels_wf -> shutdown_contract -> endpoints_contract ->
  tls13 (conn m) <> None -> endpoints_bound (conn m) ->
  exists r m' l,
    shutdown_send m = Ok r m' /\ new_calls m m' l /\
    close_notify_sent_flag (conn m') <> 0 /\
    alerts_sent l =
      (if close_notify_sent_flag (conn m) =? 0 then 1%nat else 0%nat) /\
    shutdown_end m r m' l /\
    endpoints_bound (conn m').
Proof.
  intros Hwf Hrl Hep Hctx Hb.
  pose proof Hrl as (Halert & _).
  pose proof Hep as (_ & _ & _ & _ & _ & _ & Hakeep & _).
  unfold shutdown_send. unfold bind at 1.
  rewrite ctx_field_flag by assumption.
  fold (close_notify_sent_flag (conn m)).
  destruct (Z.eqb_spec (close_notify_sent_flag (conn m)) 0) as [Hs | Hs].
  - (* mark, then send the alert *)
    unfold bind at 1. unfold modify at 1. unfold bind at 1.
    rewrite extern_runs.
    set (m0 := on_conn mark_close_notify_sent m).
    fold (send_close_notify (conn m0)).
    set (ra := fst (send_close_notify (conn m0))).
    set (m1 := {| conn := snd (send_close_notify (conn m0));
                  calls := calls m0 ++
                           [Call_send_alert SSL_AD_CLOSE_NOTIFY ra] |}).
    assert (Hsent1 : close_notify_sent_flag (conn m1) <> 0).
    { apply Halert. unfold m0. simpl.
      rewrite mark_close_notify_sent_flag by assumption. lia. }
    assert (Hb1 : endpoints_bound (conn m1))
      by (apply (Hakeep SSL_AD_CLOSE_NOTIFY); exact Hb).
    pose proof (ctx_flag_context _ _ Hsent1) as Hctx1.
    destruct (Z.ltb_spec ra 0) as [Hneg | Hnn].
    + destruct (return_code_non_positive ra m1 ltac:(lia) Hctx1 Hb1)
        as (r & m' & Hrc & Hr & Heof & Hc & Hss).
      exists r, m', [Call_send_alert SSL_AD_CLOSE_NOTIFY ra].
      split; [exact Hrc |].
      split; [unfold new_calls; rewrite Hc; reflexivity |].
      split.
      { unfold close_notify_sent_flag in *.
        rewrite (ctx_flag_same_session _ _ _ Hss). exact Hsent1. }
      split; [reflexivity |].
      split; [now apply Alert_failed |].
      exact (return_code_keeps_endpoints _ _ _ _ Hep Hrc Hb1).
    + destruct (shutdown_flush_spec m1 Hwf Hrl Hep Hsent1 Hb1)
        as (r & m' & lf & Hrun & Hc & Hsent' & Hal & Hend & Hb').
      exists r, m', (Call_send_alert SSL_AD_CLOSE_NOTIFY ra :: lf).
      split; [exact Hrun |].
      split; [unfold new_calls in *; rewrite Hc; simpl;
              now rewrite <- app_assoc |].
      split; [exact Hsent' |].
      split; [change (S (alerts_sent lf) = 1%nat); now rewrite Hal |].
      split; [now apply Alert_sent | exact Hb'].
  - destruct (shutdown_flush_spec m Hwf Hrl Hep Hs Hb)
      as (r & m' & lf & Hrun & Hc & Hsent' & Hal & Hend & Hb').
    exists r, m', lf. split; [exact Hrun |]. split; [exact Hc |].
    split; [exact Hsent' |]. split; [exact Hal |].
    split; [now apply Alert_skipped | exact Hb'].
Qed.

Lemma shutdown_trivial_runs (m : machine) :
  trivial_shutdown (conn m) = true ->
  tls13_legacy_shutdown m =
    Ok 1 (on_conn (set_shutdown
                     (Z.lor SSL_SENT_SHUTDOWN SSL_RECEIVED_SHUTDOWN)) m).
Proof.
  unfold trivial_shutdown, tls13_legacy_shutdown. run.
  destruct (tls13 (conn m)); [| reflexivity].
  intros ->. reflexivity.
Qed.

Lemma shutdown_not_trivial (m : machine) :
  trivial_shutdown (conn m) = false ->
  tls13_legacy_shutdown m = shutdown_send m /\ tls13 (conn m) <> None.
Proof.
  unfold trivial_shutdown, tls13_legacy_shutdown. run.
  destruct (tls13 (conn m)); [| discriminate].
  intros ->. split; [reflexivity | discriminate].
Qed.

End Shutdown.

Section ShutdownProperties.
Context {SH : ssl_locl_h} {TH : tls13_internal_h} {LC : libcrypto}
        {CO : collaborators}.
Local Open Scope adapter_scope.

Lemma checked_result_cases (s : SSL) (r : Z) :
  r = checked_result s ->
  (close_notify_recv_flag s <> 0 /\ r = 1) \/
  (close_notify_recv_flag s = 0 /\ r = 0).
Proof.
  unfold checked_result. intros ->.
  destruct (Z.eqb_spec (close_notify_recv_flag s) 0); auto.
Qed.







(** One call, as far as the alert is concerned. *)
Lemma shutdown_call_alerts (m : machine) :
  io_sentinels_wf -> shutdown_contract -> endpoints_contract ->
  endpoints_bound (conn m) ->
  exists r m' l,
    tls13_legacy_shutdown m = Ok r m' /\ new_calls m m' l /\
    (alerts_sent l <= 1)%nat /\
    (alerts_sent l = 1%nat -> close_notify_sent_flag (conn m') <> 0) /\
    (close_notify_sent_flag (conn m) <> 0 ->
     alerts_sent l = 0%nat /\ close_notify_sent_flag (conn m') <> 0) /\
    endpoints_bound (conn m').
Proof.
  intros Hwf Hrl Hep Hb.
  destruct (trivial_shutdown (conn m)) eqn:Htriv.
  - eexists 1, _, [].
    split; [now apply shutdown_trivial_runs |].
    split; [unfold new_calls; simpl; now rewrite app_nil_r |].
    change (alerts_sent []) with 0%nat. simpl.
    split; [lia |]. split; [discriminate |]. split; [auto | exact Hb].
  - destruct (shutdown_not_trivial m Htriv) as (Hrun & Hctx).
    destruct (shutdown_send_spec m Hwf Hrl Hep Hctx Hb)
      as (r & m' & l & Hsend & Hc & Hsent & Hal & _ & Hb').
    exists r, m', l. rewrite Hrun.
    split; [exact Hsend |]. split; [exact Hc |].
    destruct (Z.eqb_spec (close_notify_sent_flag (conn m)) 0);
      rewrite Hal; (split; [lia |]); (split; [auto |]);
      (split; [| exact Hb']); intros; try contradiction; auto.
Qed.

(** Any number of calls, as far as the alert is concerned. *)
Lemma shutdown_calls_alerts (k : nat) :
  io_sentinels_wf -> shutdown_contract -> endpoints_contract ->
  forall m : machine,
  endpoints_bound (conn m) ->
  exists rs m' l,
    shutdown_calls k m = Ok rs m' /\ new_calls m m' l /\
    (alerts_sent l <= 1)%nat /\
    (close_notify_sent_flag (conn m) <> 0 ->
     alerts_sent l = 0%nat /\ close_notify_sent_flag (conn m') <> 0).
Proof.
  intros Hwf Hrl Hep. induction k as [| k IH]; intros m Hb.
  - exists [], m, []. split; [reflexivity |].
    split; [unfold new_calls; now rewrite app_nil_r |].
    change (alerts_sent []) with 0%nat. split; [lia | auto].
  - destruct (shutdown_call_alerts m Hwf Hrl Hep Hb)
      as (r & m1 & l1 & Hrun & Hc1 & Hle & Hone & Hset & Hb1).
    destruct (IH m1 Hb1) as (rs & m' & l2 & Hrest & Hc2 & Hle2 & Hset2).
    exists (r :: rs), m', (l1 ++ l2).
    split; [cbn [shutdown_calls]; unfold bind; rewrite Hrun, Hrest;
            reflexivity |].
    split; [unfold new_calls in *; rewrite Hc2, Hc1; now rewrite app_assoc |].
    rewrite alerts_sent_app. split.
    + destruct (Nat.eq_dec (alerts_sent l1) 1) as [E | E].
      * destruct (Hset2 (Hone E)) as (-> & _). lia.
      * lia.
    + intros Hs. destruct (Hset Hs) as (-> & Hs1).
      destruct (Hset2 Hs1) as (-> & Hs'). auto.
Qed.

(** A call on a settled connection returns 1, sends no alert and leaves the
    connection settled. *)
Lemma shutdown_settled_call (m : machine) :
  shutdown_contract -> flush_stable ->
  shutdown_settled (conn m) ->
  exists m' l,
    tls13_legacy_shutdown m = Ok 1 m' /\ new_calls m m' l /\
    alerts_sent l = 0%nat /\ shutdown_settled (conn m').
Proof.
  intros (_ & Hkeep & _) (Hidem & _ & Hrecvkeep) Hsettled.
  destruct (trivial_shutdown (conn m)) eqn:Htriv.
  - eexists _, [].
    split; [now apply shutdown_trivial_runs |].
    split; [unfold new_calls; simpl; now rewrite app_nil_r |].
    split; [reflexivity |]. left. exact Htriv.
  - destruct Hsettled as [Ht | (Hsent & Hrecv & Hfl)]; [congruence |].
    destruct (shutdown_not_trivial m Htriv) as (Hrun & Hctx).
    rewrite Hrun. unfold shutdown_send. unfold bind at 1.
    rewrite ctx_field_flag by assumption.
    fold (close_notify_sent_flag (conn m)).
    destruct (Z.eqb_spec (close_notify_sent_flag (conn m)) 0);
      [contradiction |].
    unfold shutdown_flush. unfold bind at 1. rewrite extern_runs.
    unfold flushed in Hfl. rewrite Hfl, Z.eqb_refl. simpl.
    set (m1 := {| conn := snd (tls13_record_layer_send_pending (conn m));
                  calls := calls m ++ [Call_send_pending TLS13_IO_SUCCESS] |}).
    assert (Hsent1 : close_notify_sent_flag (conn m1) <> 0)
      by (apply Hkeep; exact Hsent).
    assert (Hrecv1 : close_notify_recv_flag (conn m1) <> 0)
      by (apply Hrecvkeep; exact Hrecv).
    pose proof (ctx_flag_context _ _ Hsent1) as Hctx1.
    unfold shutdown_receive. unfold bind at 1.
    rewrite ctx_field_flag by assumption.
    fold (close_notify_recv_flag (conn m1)).
    destruct (Z.eqb_spec (close_notify_recv_flag (conn m1)) 0);
      [contradiction |].
    rewrite shutdown_result_runs by assumption.
    unfold checked_result.
    destruct (Z.eqb_spec (close_notify_recv_flag (conn m1)) 0);
      [contradiction |].
    exists m1, [Call_send_pending TLS13_IO_SUCCESS].
    split; [reflexivity |]. split; [reflexivity |].
    split; [reflexivity |]. right.
    split; [exact Hsent1 |]. split; [exact Hrecv1 |].
    apply Hidem. exact Hfl.
Qed.

(** A call that returned 1 has left the connection settled. *)
Lemma shutdown_success_settles (m m1 : machine) :
  io_sentinels_wf -> shutdown_contract -> flush_stable ->
  endpoints_contract -> endpoints_bound (conn m) ->
  tls13_legacy_shutdown m = Ok 1 m1 ->
  shutdown_settled (conn m1).
Proof.
  intros Hwf Hrl Hst Hep Hb Hrun.
  destruct (trivial_shutdown (conn m)) eqn:Htriv.
  - rewrite shutdown_trivial_runs in Hrun by assumption.
    injection Hrun as <-. left. exact Htriv.
  - destruct (shutdown_not_trivial m Htriv) as (Hrun' & Hctx).
    destruct (shutdown_send_spec m Hwf Hrl Hep Hctx Hb)
      as (r & m' & l & Hsend & Hc & Hsent & _ & Hend & _).
    rewrite Hrun', Hsend in Hrun. injection Hrun as -> ->.
    right. split; [exact Hsent |].
    assert (Hf : forall lf, flush_end 1 m1 lf ->
              close_notify_recv_flag (conn m1) <> 0 /\ flushed (conn m1)).
    { intros lf Hf.
      destruct Hf as [rf Hrf Hr Heof | rr0 Hne Hr Hpos | lr Hlr Hr Hfl Hnone].
      - destruct Hr; discriminate.
      - discriminate.
      - split; [| now apply Hfl].
        destruct (checked_result_cases _ _ Hr) as [[H _] | [_ H]];
          [exact H | discriminate]. }
    destruct Hend as [ra Hs Hra Hr Heof | ra lf Hs Hra Hf' | lf Hs Hf'];
      [destruct Hr; discriminate | now apply (Hf lf) | now apply (Hf lf)].
Qed.

Lemma shutdown_settled_calls (k : nat) :
  shutdown_contract -> flush_stable ->
  forall m : machine,
    shutdown_settled (conn m) ->
    exists m' l,
      shutdown_calls k m = Ok (repeat 1 k) m' /\ new_calls m m' l /\
      alerts_sent l = 0%nat.
Proof.
  intros Hrl Hst. induction k as [| k IH]; intros m Hsettled.
  - exists m, []. split; [reflexivity |].
    split; [unfold new_calls; now rewrite app_nil_r | reflexivity].
  - destruct (shutdown_settled_call m Hrl Hst Hsettled)
      as (m1 & l1 & Hrun & Hc1 & Hal1 & Hsettled1).
    destruct (IH m1 Hsettled1) as (m' & l2 & Hrest & Hc2 & Hal2).
    exists m', (l1 ++ l2).
    split; [cbn [shutdown_calls]; unfold bind; rewrite Hrun, Hrest;
            reflexivity |].
    split; [unfold new_calls in *; rewrite Hc2, Hc1; now rewrite app_assoc |].
    rewrite alerts_sent_app. lia.
Qed.

(** C3.  With both BIOs set and a record layer that leaves them in place,
    keeps the close-notify flags set and whose flush, once it has nothing
    left to send, keeps reporting success:
    - when the alert is still to be sent, the flag is set first and the
      alert is handed to the record layer on the connection that has it
      set;
    - over any number of calls at most one alert is sent, and none, with the
      flag staying set, once the flag is set;
    - after a call that returned 1, any number of further calls all return 1
      and send no alert. *)
Theorem close_notify_sent_once (m : machine) (k : nat) :
  io_sentinels_wf -> shutdown_contract -> flush_stable ->
  endpoints_contract -> endpoints_bound (conn m) ->
  (trivial_shutdown (conn m) = false ->
   close_notify_sent_flag (conn m) = 0 ->
   close_notify_sent_flag (mark_close_notify_sent (conn m)) = 1 /\
   tls13_legacy_shutdown m =
     (ret <- extern send_close_notify (Call_send_alert SSL_AD_CLOSE_NOTIFY) ;;
      if ret <? 0 then tls13_legacy_return_code ret else shutdown_flush)
     (on_conn mark_close_notify_sent m)) /\
  (exists rs m' l,
     shutdown_calls k m = Ok rs m' /\ new_calls m m' l /\
     (alerts_sent l <= 1)%nat /\
     (close_notify_sent_flag (conn m) <> 0 ->
      alerts_sent l = 0%nat /\ close_notify_sent_flag (conn m') <> 0)) /\
  (forall m1, tls13_legacy_shutdown m = Ok 1 m1 ->
     exists m' l,
       shutdown_calls k m1 = Ok (repeat 1 k) m' /\ new_calls m1 m' l /\
       alerts_sent l = 0%nat).
Proof.
  intros Hwf Hrl Hst Hep Hb. split; [| split].
  - intros Htriv Hs.
    destruct (shutdown_not_trivial m Htriv) as (Hrun & Hctx).
    split; [now apply mark_close_notify_sent_flag |].
    rewrite Hrun. unfold shutdown_send. unfold bind at 1.
    rewrite ctx_field_flag by assumption.
    fold (close_notify_sent_flag (conn m)). rewrite Hs. reflexivity.
  - now apply shutdown_calls_alerts.
  - intros m1 Hrun. apply shutdown_settled_calls; try assumption.
    exact (shutdown_success_settles m m1 Hwf Hrl Hst Hep Hb Hrun).
Qed.

End ShutdownProperties.

(** ** The reference platform meets the contracts *)

Section ReferenceFacts.
#[local] Existing Instance Reference.ssl_h.
#[local] Existing Instance Reference.tls13_h.
#[local] Existing Instance Reference.crypto.
#[local] Existing Instance Reference.peers.
Local Open Scope adapter_scope.

Lemma reference_io_sentinels_wf : io_sentinels_wf.
Proof.
  split.
  - unfold io_sentinels. simpl.
    repeat (constructor; [simpl; intuition discriminate |]). constructor.
  - unfold io_sentinels. simpl. repeat constructor; discriminate.
Qed.

Lemma reference_error_codes_wf : error_codes_wf.
Proof.
  split.
  - unfold error_codes. simpl.
    repeat (constructor; [simpl; intuition discriminate |]). constructor.
  - unfold mapped_reasons. simpl. repeat constructor; discriminate.
Qed.

Lemma reference_write_contract : write_contract.
Proof.
  intros s data n. simpl. unfold Reference.on_record_layer.
  destruct (tls13 s) as [c |] eqn:Ec; simpl.
  - unfold Reference.accept.
    destruct (Reference.outbound (rl c)) as [| x rest]; simpl.
    + split; [lia |]. unfold strict_established, handshaking. simpl.
      rewrite Ec. auto.
    + split; [lia |]. unfold strict_established, handshaking. simpl.
      rewrite Ec. auto.
  - split; [lia | auto].
Qed.

Lemma reference_flush_cases (r : Reference.record_layer) :
  (fst (Reference.flush r) = 1 \/ fst (Reference.flush r) = -4) /\
  (fst (Reference.flush r) = 1 ->
   fst (Reference.flush (snd (Reference.flush r))) = 1).
Proof.
  unfold Reference.flush.
  destruct (Reference.alert_queued r) eqn:Eq.
  - destruct (Reference.writable r) as [| [|] v]; simpl; auto.
    split; [auto | discriminate].
  - simpl. rewrite Eq. auto.
Qed.

Lemma reference_shutdown_contract : shutdown_contract.
Proof.
  unfold shutdown_contract, never_clears, close_notify_sent_flag, ctx_flag,
    send_close_notify, read_scratch.
  simpl. unfold Reference.on_record_layer.
  repeat apply conj; intros s; destruct (tls13 s) as [c |] eqn:Ec; simpl;
    try (rewrite Ec; tauto).
  - destruct (Reference.flush _) as [o r']; simpl; auto.
  - destruct (Reference.flush _) as [o r']; simpl; auto.
  - destruct (Reference.deliver true 512 c (rl c)) as [[r rl'] recv'];
      simpl; auto.
  - destruct (reference_flush_cases (rl c)) as ([E | E] & _);
      destruct (Reference.flush (rl c)) as [o r']; simpl in *; subst; auto.
    right. lia.
  - right. lia.
Qed.

Lemma reference_flush_stable : flush_stable.
Proof.
  unfold flush_stable, flushed, never_clears, close_notify_recv_flag,
    ctx_flag, read_scratch.
  simpl. unfold Reference.on_record_layer.
  repeat apply conj; intros s; destruct (tls13 s) as [c |] eqn:Ec; simpl;
    try (rewrite Ec; simpl; (discriminate || tauto)).
  - destruct (reference_flush_cases (rl c)) as (_ & Hidem).
    destruct (Reference.flush (rl c)) as [o r'] eqn:E; simpl in *.
    intros Ho. specialize (Hidem Ho).
    destruct (Reference.flush r') as [o2 r2]; simpl in *. exact Hidem.
  - unfold Reference.deliver.
    destruct (Reference.inbound (rl c)) as [| x rest]; simpl; auto.
    intros Hfl _. revert Hfl.
    unfold Reference.flush. simpl.
    destruct (Reference.alert_queued (rl c));
      [destruct (Reference.writable (rl c)) as [| [|] v] |]; simpl; auto.
  - destruct (Reference.flush (rl c)) as [o r']; simpl; auto.
Qed.

Lemma reference_bio_flags (b v : Z) :
  0 <= v -> (Z.lor b v <? 0) = (b <? 0).
Proof.
  intros Hv.
  destruct (Z.ltb_spec b 0) as [Hb | Hb];
    destruct (Z.ltb_spec (Z.lor b v) 0) as [Hl | Hl]; try reflexivity;
    exfalso.
  - apply Z.lor_nonneg in Hl. lia.
  - assert (0 <= Z.lor b v) by (apply Z.lor_nonneg; lia). lia.
Qed.

Lemma reference_endpoints_contract : endpoints_contract.
Proof.
  unfold endpoints_contract, keeps_endpoints, endpoints_bound. simpl.
  unfold Reference.on_record_layer, Reference.drive_handshake.
  repeat apply conj; intros.
  - apply reference_bio_flags. lia.
  - apply reference_bio_flags. lia.
  - destruct (other s); simpl; assumption.
  - destruct (tls13 s) as [c |]; [| assumption].
    destruct (Reference.deliver false n c (rl c)) as [[o r'] v]. assumption.
  - destruct (tls13 s) as [c |]; [| assumption].
    destruct (Reference.deliver true n c (rl c)) as [[o r'] v]. assumption.
  - destruct (tls13 s) as [c |]; [| assumption].
    destruct (Reference.accept n c (rl c)) as [[o r'] v]. assumption.
  - destruct (tls13 s) as [c |]; [| assumption].
    destruct (Reference.flush _) as [o r']. assumption.
  - destruct (tls13 s) as [c |]; [| assumption].
    destruct (Reference.flush _) as [o r']. assumption.
Qed.

(** *** Runs on the reference platform *)

Example run_strict_write_interrupted :
  Reference.observe
    (tls13_legacy_write_bytes 6 23 Reference.hello 5
       (Reference.start Reference.established)) =
  Some (-1, 3, 2,
        [Call_write_application_data Reference.hello 5 3;
         Call_write_application_data [x6c; x6f] 2 (-4)],
        []).
Proof. reflexivity. Qed.

Example run_strict_write_retried :
  Reference.observe
    (write_retry 3 6 23 Reference.hello 5
       (Reference.start Reference.established)) =
  Some ([(-1, 3); (5, 0)], 0, 2,
        [Call_write_application_data Reference.hello 5 3;
         Call_write_application_data [x6c; x6f] 2 (-4);
         Call_write_application_data [x6c; x6f] 2 2],
        []).
Proof. reflexivity. Qed.

Example run_shutdown_five_times :
  Reference.observe (shutdown_calls 5 (Reference.start Reference.established)) =
  Some ([-1; -1; 1; 1; 1], 0, 3,
        [Call_send_alert 0 (-4); Call_send_pending 1;
         Call_read_application_data 512 5; Call_send_pending 1;
         Call_read_application_data 512 0; Call_send_pending 1;
         Call_send_pending 1],
        []).
Proof. reflexivity. Qed.

Example run_read_while_handshaking :
  Reference.observe
    (tls13_legacy_read_bytes 22 (-7) 0
       (Reference.start Reference.handshaking_conn)) =
  Some (-1, 0, 3, [Call_handshake_func 1], []).
Proof. reflexivity. Qed.

Example run_pending :
  tls13_legacy_pending Reference.buffering = 7 /\
  tls13_legacy_pending (Reference.connection None) = 0.
Proof. split; reflexivity. Qed.

End ReferenceFacts.

(** ** The theorems at explicit inputs *)

Section ExplicitInputs.
#[local] Existing Instance Reference.ssl_h.
#[local] Existing Instance Reference.tls13_h.
#[local] Existing Instance Reference.crypto.
#[local] Existing Instance Reference.peers.
Local Open Scope adapter_scope.

Lemma strict_write_resumable_witness :
  let m := Reference.start Reference.established in
  write_contract /\ endpoints_contract /\
  strict_established (conn m) /\ endpoints_bound (conn m) /\
  0 <= wnum (conn m) <= 5 /\ 5 <= INT_MAX /\ 5 < Z.of_nat 6 /\
  exists obs m' l,
    write_retry 3 6 23 Reference.hello 5 m = Ok obs m' /\
    new_calls m m' l /\
    (0 + accepted l = 5 ->
     exists pre, obs = pre ++ [(5, 0)] /\
                 Forall (retry_observation 5) pre /\
                 non_decreasing (0 :: map snd pre) /\
                 count_occ Z.eq_dec (map fst obs) 5 = 1%nat /\
                 wnum (conn m') = 0).
Proof.
  intros m.
  assert (H1 : strict_established (conn m)) by (split; reflexivity).
  assert (Hb : endpoints_bound (conn m)) by (split; reflexivity).
  assert (H2 : 0 <= wnum (conn m) <= 5) by (simpl; lia).
  assert (H3 : 5 <= INT_MAX) by (unfold INT_MAX; lia).
  assert (H4 : 5 < Z.of_nat 6) by (simpl; lia).
  split; [exact reference_write_contract |].
  split; [exact reference_endpoints_contract |].
  split; [exact H1 |]. split; [exact Hb |].
  split; [exact H2 |]. split; [exact H3 |]. split; [exact H4 |].
  destruct (strict_write_resumable 6 23 Reference.hello 5 2 m
              reference_write_contract reference_endpoints_contract
              H1 Hb eq_refl H2 H3 H4)
    as (_ & obs & m' & l & Hrun & Hc & _ & Hdone & _).
  exists obs, m', l. split; [exact Hrun |]. split; [exact Hc |].
  exact Hdone.
Defined.



Lemma close_notify_sent_once_witness :
  let m := Reference.start Reference.established in
  io_sentinels_wf /\ shutdown_contract /\ flush_stable /\
  endpoints_contract /\ endpoints_bound (conn m) /\
  exists rs m' l,
    shutdown_calls 5 m = Ok rs m' /\ new_calls m m' l /\
    (alerts_sent l <= 1)%nat.
Proof.
  intros m.
  assert (Hb : endpoints_bound (conn m)) by (split; reflexivity).
  split; [exact reference_io_sentinels_wf |].
  split; [exact reference_shutdown_contract |].
  split; [exact reference_flush_stable |].
  split; [exact reference_endpoints_contract |]. split; [exact Hb |].
  destruct (close_notify_sent_once m 5 reference_io_sentinels_wf
              reference_shutdown_contract reference_flush_stable
              reference_endpoints_contract Hb)
    as (_ & (rs & m' & l & Hrun & Hc & Hle & _) & _).
  exists rs, m', l. auto.
Defined.



Lemma error_mapper_witness :
  let m := Reference.start Reference.verify_failed in
  error_codes_wf /\
  tls13_legacy_error m =
    Ok tt (on_conn (put_error_of SSL_R_CERTIFICATE_VERIFY_FAILED
                      {| code := 16; file := "tls13_lib.c"%string;
                         line := 100 |}) m).
Proof.
  intros m. split; [exact reference_error_codes_wf |].
  destruct (error_mapper m reference_error_codes_wf) as (_ & Hmap).
  destruct (Hmap _ eq_refl eq_refl) as (_ & _ & _ & _ & _ & _ & _ & Hemit).
  apply Hemit. left. discriminate.
Defined.

(** C5 as stated fails: with a diagnostic of a lower layer already on the
    error queue and no fatal alert recorded, a verification failure still
    puts a new diagnostic on the queue. *)
Lemma error_mapper_counterexample :
  let m := Reference.start Reference.verify_failed in
  fatal_alert (conn m) = 0 /\
  ERR_peek_error (err (conn m)) <> 0 /\
  Reference.observe (tls13_legacy_error m) =
    Some (tt, 0, 1, [],
          [(Reference.ERR_PACK 13 0 100, "a_verify.c"%string, 170);
           (Reference.ERR_PACK 20 4095 134, "tls13_lib.c"%string, 100)]) /\
  tls13_legacy_error m <> Ok tt m.
Proof.
  intros m. split; [reflexivity |]. split; [discriminate |].
  split; [reflexivity |].
  intros Hrun. apply (f_equal Reference.observe) in Hrun.
  vm_compute in Hrun. discriminate Hrun.
Qed.

Lemma handshake_gating_witness :
  let m := Reference.start Reference.handshaking_conn in
  io_sentinels_wf /\ handshaking (conn m) = true /\
  BIO_is_NULL (rbio (snd (handshake_func (conn m)))) = false /\
  BIO_is_NULL (wbio (snd (handshake_func (conn m)))) = false /\
  Reference.observe (tls13_legacy_read_bytes 22 (-7) 0 m) =
    Some (-1, 0, SSL_READING, [Call_handshake_func 1], []) /\
  Reference.observe (tls13_legacy_write_bytes 0 22 [] (-7) m) =
    Some (-1, 0, SSL_WRITING, [Call_handshake_func 1], []).
Proof.
  intros m.
  assert (Hhs : handshaking (conn m) = true) by reflexivity.
  assert (Hr : BIO_is_NULL (rbio (snd (handshake_func (conn m)))) = false)
    by reflexivity.
  assert (Hw : BIO_is_NULL (wbio (snd (handshake_func (conn m)))) = false)
    by reflexivity.
  split; [exact reference_io_sentinels_wf |]. split; [exact Hhs |].
  split; [exact Hr |]. split; [exact Hw |].
  destruct (handshake_gating 22 (-7) 0 0 [] m reference_io_sentinels_wf Hhs)
    as (Hread & Hwrite & Hin & Hout).
  split.
  - rewrite Hread, (Hin Hr). reflexivity.
  - rewrite Hwrite, (Hout Hw). reflexivity.
Defined.

Lemma strict_write_shrunk_witness :
  let m := Reference.start (set_wnum 3 Reference.established) in
  strict_established (conn m) /\
  2 < wnum (conn m) /\ wnum (conn m) <= INT_MAX /\
  tls13_legacy_write_bytes 6 23 Reference.hello 2 m =
    Ok (-1) (on_conn (SSLerror_at SSL_R_BAD_LENGTH 261) m).
Proof.
  intros m.
  assert (H1 : strict_established (conn m)) by (split; reflexivity).
  assert (H2 : 2 < wnum (conn m)) by (simpl; lia).
  assert (H3 : wnum (conn m) <= INT_MAX) by (unfold INT_MAX; simpl; lia).
  split; [exact H1 |]. split; [exact H2 |]. split; [exact H3 |].
  exact (strict_write_shrunk 6 23 Reference.hello 2 m H1 eq_refl H2 H3).
Defined.

(** On an established connection with an unknown error code and an empty
    error queue: [EOF] gives 0, [WANT_POLLIN] gives -1 and waits to read,
    and [FAILURE] gives -1 with one diagnostic of unknown reason on the
    queue. *)
Lemma return_code_sentinels_witness :
  let m := Reference.start Reference.established in
  io_sentinels_wf /\ BIO_is_NULL (rbio (conn m)) = false /\
  tls13_legacy_return_code TLS13_IO_EOF m =
    Ok 0 (on_conn (set_rwstate SSL_NOTHING) m) /\
  tls13_legacy_return_code TLS13_IO_WANT_POLLIN m =
    Ok (-1) (on_conn (fun s => set_rwstate SSL_READING
                          (flag_retry_read (set_rwstate SSL_NOTHING s))) m) /\
  Reference.observe (tls13_legacy_return_code TLS13_IO_FAILURE m) =
    Some (-1, 0, SSL_NOTHING, [],
          [(Reference.ERR_PACK 20 4095 999, "tls13_lib.c"%string, 100)]).
Proof.
  intros m.
  assert (Hr : BIO_is_NULL (rbio (conn m)) = false) by reflexivity.
  split; [exact reference_io_sentinels_wf |]. split; [exact Hr |].
  destruct (return_code_sentinels m reference_io_sentinels_wf)
    as (_ & _ & Heof & Hmap & Hin & _).
  split; [exact Heof |]. split; [exact (Hin Hr) |].
  destruct (Hmap TLS13_IO_FAILURE (or_introl eq_refl)) as (_ & Hctx).
  destruct (Hctx _ eq_refl eq_refl) as (_ & Hput).
  rewrite Hput by (right; reflexivity). reflexivity.
Defined.

(** C8 as stated fails: with a fatal alert recorded, [FAILURE] and [ALERT]
    are mapped to -1 with no diagnostic at all; the error queue is as empty
    after the call as it was before. *)
Lemma return_code_sentinels_counterexample :
  let m := Reference.start Reference.alerted in
  fatal_alert (conn m) <> 0 /\ err (conn m) = [] /\
  Reference.observe (tls13_legacy_return_code TLS13_IO_FAILURE m) =
    Some (-1, 0, SSL_NOTHING, [], []) /\
  Reference.observe (tls13_legacy_return_code TLS13_IO_ALERT m) =
    Some (-1, 0, SSL_NOTHING, [], []) /\
  ~ (exists m', tls13_legacy_return_code TLS13_IO_FAILURE m = Ok (-1) m' /\
                err (conn m') <> err (conn m)).
Proof.
  intros m. split; [discriminate |]. split; [reflexivity |].
  split; [reflexivity |]. split; [reflexivity |].
  intros (m' & Hrun & Hnew).
  change (tls13_legacy_return_code TLS13_IO_FAILURE m)
    with (Ok (-1) (on_conn (set_rwstate SSL_NOTHING) m)) in Hrun.
  injection Hrun as <-. apply Hnew. reflexivity.
Qed.

Lemma strict_write_empty_witness :
  let m := Reference.start Reference.established in
  io_sentinels_wf /\ strict_established (conn m) /\ wnum (conn m) = 0 /\
  tls13_legacy_write_bytes 1 23 Reference.hello 0 m =
    Ok 0 (on_conn (set_wnum 0) m) /\
  tls13_legacy_return_code TLS13_IO_EOF m =
    Ok 0 (on_conn (set_rwstate SSL_NOTHING) m).
Proof.
  intros m.
  assert (H1 : strict_established (conn m)) by (split; reflexivity).
  split; [exact reference_io_sentinels_wf |].
  split; [exact H1 |]. split; [reflexivity |].
  exact (strict_write_empty 0 23 Reference.hello m m
           reference_io_sentinels_wf H1 eq_refl eq_refl).
Defined.

End ExplicitInputs.

(** * Further properties *)

(** ** The translator and the error mapper on every outcome *)

Section TranslatorRange.
Context {SH : ssl_locl_h} {TH : tls13_internal_h} {LC : libcrypto}
        {CO : collaborators}.
Local Open Scope adapter_scope.

(** X1.  The error surface mapper dereferences the handshake context unless
    a fatal alert was recorded: it stops at the NULL pointer exactly when
    there is neither a context nor a recorded fatal alert. *)
Theorem error_mapper_needs_context (m : machine) :
  tls13_legacy_error m = Stuck NullContext <->
  fatal_alert (conn m) = 0 /\ tls13 (conn m) = None.
Proof.
  destruct (tls13_legacy_error_effect m)
    as [(Hf & Hc & Hrun) | [(Hrun & Hctx) | (c & reason & Hc & Hf & Hrun)]];
    rewrite Hrun; split; try discriminate; auto.
  - intros (Hf & Hc). destruct Hctx; contradiction.
  - intros (_ & Hn). congruence.
Qed.

(** A byte count within range passes through. *)
Lemma return_code_byte_count_eq (ret : Z) (m : machine) :
  0 < ret -> ret <= INT_MAX ->
  tls13_legacy_return_code ret m = Ok ret m.
Proof.
  intros Hpos Hmax. unfold tls13_legacy_return_code.
  settle_tests; try reflexivity.
Qed.

(** In the default branch of the [switch]. *)
Lemma return_code_default (ret : Z) (m : machine) :
  ret <= 0 -> ~ In ret io_sentinels ->
  tls13_legacy_return_code ret m =
    Ok (-1) (on_conn (fun s => SSLerror_at ERR_R_INTERNAL_ERROR 174
                                 (set_rwstate SSL_NOTHING s)) m).
Proof.
  intros Hret Hnot. unfold io_sentinels in Hnot. simpl in Hnot.
  unfold tls13_legacy_return_code.
  destruct (Z.gtb_spec ret INT_MAX); [absurd_arith |].
  destruct (Z.gtb_spec ret 0); [absurd_arith |].
  repeat match goal with
  | |- context [?a =? ?b] =>
      destruct (Z.eqb_spec a b); [exfalso; apply Hnot; auto 10 |]
  end.
  reflexivity.
Qed.

(** X2.  A non-positive outcome that is none of the six outcome codes is an
    internal error: the translator resets the retry intent, files an
    internal-error diagnostic and returns -1. *)
Theorem return_code_unknown_outcome (ret : Z) (m : machine) :
  ret <= 0 -> ~ In ret io_sentinels ->
  tls13_legacy_return_code ret m =
    Ok (-1) (on_conn (fun s => SSLerror_at ERR_R_INTERNAL_ERROR 174
                                 (set_rwstate SSL_NOTHING s)) m).
Proof. exact (return_code_default ret m). Qed.

(** X3.  Whatever outcome it is given, on a connection with a handshake
    context or a recorded fatal alert, and with the read BIO set when the
    outcome is [WANT_POLLIN] and the write BIO set when it is
    [WANT_POLLOUT], the translator returns a value between -1 and
    [INT_MAX]: a positive value only for that same positive outcome, 0 only
    for [EOF].  It calls no collaborator and leaves the context, the write
    mode, the carried sent count and the shutdown state alone. *)
Theorem return_code_range (ret : Z) (m : machine) :
  tls13 (conn m) <> None \/ fatal_alert (conn m) <> 0 ->
  endpoint_for ret (conn m) ->
  exists r m',
    tls13_legacy_return_code ret m = Ok r m' /\
    -1 <= r <= INT_MAX /\
    (0 < r -> r = ret) /\
    (r = 0 -> ret = TLS13_IO_EOF) /\
    calls m' = calls m /\ same_session (conn m) (conn m').
Proof.
  intros Hctx Hep.
  destruct (Z.gtb_spec ret INT_MAX) as [Hbig | Hsmall].
  - exists (-1), (on_conn (SSLerror_at ERR_R_INTERNAL_ERROR 137) m).
    split.
    { unfold tls13_legacy_return_code.
      destruct (Z.gtb_spec ret INT_MAX); [reflexivity | lia]. }
    split; [unfold INT_MAX; lia |]. split; [lia |]. split; [lia |].
    split; [reflexivity |]. unfold same_session; simpl; intuition.
  - destruct (Z.ltb_spec 0 ret) as [Hpos | Hnon].
    + exists ret, m.
      split; [now apply return_code_byte_count_eq |].
      split; [lia |]. split; [auto |]. split; [lia |].
      split; [reflexivity | apply same_session_refl].
    + destruct (return_code_non_positive_any ret m Hnon Hctx Hep)
        as (m' & Hrun & Hc & Hs).
      eexists _, m'. split; [exact Hrun |].
      split; [destruct (ret =? TLS13_IO_EOF); unfold INT_MAX; lia |].
      split; [destruct (ret =? TLS13_IO_EOF); lia |].
      split; [| auto].
      destruct (Z.eqb_spec ret TLS13_IO_EOF); [auto | lia].
Qed.

(** X17.  For [WANT_POLLIN] the translator sets retry flags in the read
    BIO and for [WANT_POLLOUT] in the write BIO, without testing the pointer:
    it stops at a NULL BIO exactly when it is given one of these two
    outcomes and that BIO is the NULL pointer.  No other outcome, positive,
    known or unknown, makes it touch a BIO. *)
Theorem return_code_needs_endpoint (ret : Z) (m : machine) :
  io_sentinels_wf ->
  tls13_legacy_return_code ret m = Stuck NullBIO <->
  (ret = TLS13_IO_WANT_POLLIN /\ BIO_is_NULL (rbio (conn m)) = true) \/
  (ret = TLS13_IO_WANT_POLLOUT /\ BIO_is_NULL (wbio (conn m)) = true).
Proof.
  intros Hwf.
  destruct (return_code_switch m Hwf)
    as (Hbig & Hretry & Heof & Hfail & Halert & _ & _).
  destruct (return_code_retry m Hwf) as (Hin & Hout & Hin0 & Hout0).
  split; [| intros [(-> & H) | (-> & H)]; auto].
  assert (Hmap : (tls13_legacy_error ;; ret_ (-1))
                   (on_conn (set_rwstate SSL_NOTHING) m) <> Stuck NullBIO).
  { unfold bind.
    destruct (tls13_legacy_error_effect (on_conn (set_rwstate SSL_NOTHING) m))
      as [(_ & _ & E) | [(E & _) | (c & reason & _ & _ & E)]];
      rewrite E; discriminate. }
  destruct (Z.gtb_spec ret INT_MAX) as [Hgt | Hle].
  { rewrite (Hbig ret Hgt). discriminate. }
  destruct (Z.ltb_spec 0 ret) as [Hpos | Hnon].
  { rewrite return_code_byte_count_eq by assumption. discriminate. }
  destruct (Z.eq_dec ret TLS13_IO_EOF) as [-> | N1].
  { rewrite Heof. discriminate. }
  destruct (Z.eq_dec ret TLS13_IO_FAILURE) as [-> | N2].
  { rewrite Hfail. intros E. contradiction. }
  destruct (Z.eq_dec ret TLS13_IO_ALERT) as [-> | N3].
  { rewrite Halert. intros E. contradiction. }
  destruct (Z.eq_dec ret TLS13_IO_WANT_POLLIN) as [-> | N4].
  { destruct (BIO_is_NULL (rbio (conn m))) eqn:Hnull; [auto |].
    rewrite (Hin eq_refl). discriminate. }
  destruct (Z.eq_dec ret TLS13_IO_WANT_POLLOUT) as [-> | N5].
  { destruct (BIO_is_NULL (wbio (conn m))) eqn:Hnull; [auto |].
    rewrite (Hout eq_refl). discriminate. }
  destruct (Z.eq_dec ret TLS13_IO_WANT_RETRY) as [-> | N6].
  { rewrite Hretry. discriminate. }
  rewrite return_code_default; [discriminate | exact Hnon |].
  unfold io_sentinels. simpl. intuition.
Qed.

End TranslatorRange.

Section TranslatorIntent.
Context {SH : ssl_locl_h} {TH : tls13_internal_h} {LC : libcrypto}
        {CO : collaborators}.
Local Open Scope adapter_scope.

(** The mapper never changes the retry intent. *)
Lemma tls13_legacy_error_keeps_intent (m m' : machine) :
  tls13_legacy_error m = Ok tt m' ->
  rwstate (conn m') = rwstate (conn m).
Proof.
  intros Hrun.
  destruct (tls13_legacy_error_effect m)
    as [(_ & _ & E) | [(E & _) | (c & reason & _ & _ & E)]];
    rewrite E in Hrun; try discriminate; injection Hrun as <-; reflexivity.
Qed.

(** X4.  After a non-positive outcome, on a connection with a handshake
    context or a recorded fatal alert and with the BIO the outcome asks for
    set, the translator returns, and the retry intent is: reading for
    [WANT_POLLIN], writing for [WANT_POLLOUT], and none for every other
    outcome, the failures and the unknown ones included. *)
Theorem return_code_intent (ret : Z) (m : machine) :
  io_sentinels_wf -> ret <= 0 ->
  tls13 (conn m) <> None \/ fatal_alert (conn m) <> 0 ->
  endpoint_for ret (conn m) ->
  exists r m',
    tls13_legacy_return_code ret m = Ok r m' /\
    rwstate (conn m') = intent_after ret.
Proof.
  intros Hwf Hret Hctx [Hrb Hwb].
  destruct (return_code_switch m Hwf)
    as (_ & Hretry & Heof & Hfail & Halert & _ & _).
  destruct (return_code_retry m Hwf) as (Hin & Hout & _ & _).
  unfold io_sentinels_wf, io_sentinels in Hwf. spell_out Hwf.
  set (m0 := on_conn (set_rwstate SSL_NOTHING) m) in *.
  assert (Hmap : exists m', (tls13_legacy_error ;; ret_ (-1)) m0 = Ok (-1) m' /\
                            rwstate (conn m') = SSL_NOTHING).
  { destruct (tls13_legacy_error_runs m0 Hctx) as (m' & E & _).
    exists m'. unfold bind. rewrite E. split; [reflexivity |].
    now rewrite (tls13_legacy_error_keeps_intent m0 m' E). }
  destruct (Z.eq_dec ret TLS13_IO_EOF) as [-> | N1].
  { eexists _, _. split; [exact Heof |]. unfold intent_after.
    settle_tests; try reflexivity. }
  destruct (Z.eq_dec ret TLS13_IO_FAILURE) as [-> | N2].
  { destruct Hmap as (m' & E & Hrw). exists (-1), m'. rewrite Hfail.
    split; [exact E |]. rewrite Hrw. unfold intent_after.
    settle_tests; try reflexivity. }
  destruct (Z.eq_dec ret TLS13_IO_ALERT) as [-> | N3].
  { destruct Hmap as (m' & E & Hrw). exists (-1), m'. rewrite Halert.
    split; [exact E |]. rewrite Hrw. unfold intent_after.
    settle_tests; try reflexivity. }
  destruct (Z.eq_dec ret TLS13_IO_WANT_POLLIN) as [-> | N4].
  { eexists _, _. split; [exact (Hin (Hrb eq_refl)) |]. unfold intent_after.
    settle_tests; try reflexivity. }
  destruct (Z.eq_dec ret TLS13_IO_WANT_POLLOUT) as [-> | N5].
  { eexists _, _. split; [exact (Hout (Hwb eq_refl)) |]. unfold intent_after.
    settle_tests; try reflexivity. }
  destruct (Z.eq_dec ret TLS13_IO_WANT_RETRY) as [-> | N6].
  { eexists _, _. split; [exact Hretry |]. unfold intent_after.
    settle_tests; try reflexivity. }
  eexists _, _. split.
  - apply return_code_default; [exact Hret |].
    unfold io_sentinels. simpl. intuition.
  - unfold intent_after. settle_tests; try reflexivity.
Qed.

End TranslatorIntent.

(** ** The established read and write paths *)

Section EstablishedPaths.
Context {SH : ssl_locl_h} {TH : tls13_internal_h} {LC : libcrypto}
        {CO : collaborators}.
Local Open Scope adapter_scope.

(** X5.  On an established connection a request for anything but
    application data is refused before the length is looked at, and a
    negative length is refused next, by the read and by the write in either
    write mode: -1 with one diagnostic, no call into a collaborator, the
    retry intent and the carried sent count as they were. *)
Theorem established_request_errors (fuel : nat) (type len peek : Z)
    (buf : list byte) (m : machine) :
  handshaking (conn m) = false ->
  (type <> SSL3_RT_APPLICATION_DATA ->
   tls13_legacy_read_bytes type len peek m =
     Ok (-1) (on_conn (SSLerror_at ERR_R_SHOULD_NOT_HAVE_BEEN_CALLED 207) m) /\
   tls13_legacy_write_bytes fuel type buf len m =
     Ok (-1) (on_conn (SSLerror_at ERR_R_SHOULD_NOT_HAVE_BEEN_CALLED 238) m)) /\
  (type = SSL3_RT_APPLICATION_DATA -> len < 0 ->
   tls13_legacy_read_bytes type len peek m =
     Ok (-1) (on_conn (SSLerror_at SSL_R_BAD_LENGTH 211) m) /\
   tls13_legacy_write_bytes fuel type buf len m =
     Ok (-1) (on_conn (SSLerror_at SSL_R_BAD_LENGTH 242) m)).
Proof.
  intros Hhs. split.
  - intros Htype. split.
    + unfold tls13_legacy_read_bytes. run. rewrite Hhs. simpl.
      destruct (Z.eqb_spec type SSL3_RT_APPLICATION_DATA);
        [contradiction | reflexivity].
    + unfold tls13_legacy_write_bytes. run. rewrite Hhs. simpl.
      destruct (Z.eqb_spec type SSL3_RT_APPLICATION_DATA);
        [contradiction | reflexivity].
  - intros Htype Hlen. split.
    + unfold tls13_legacy_read_bytes. run. rewrite Hhs. simpl.
      rewrite Htype, Z.eqb_refl. simpl.
      destruct (Z.ltb_spec len 0); [reflexivity | lia].
    + unfold tls13_legacy_write_bytes. run. rewrite Hhs. simpl.
      rewrite Htype, Z.eqb_refl. simpl.
      destruct (Z.ltb_spec len 0); [reflexivity | lia].
Qed.

Lemma established_context (s : SSL) :
  handshaking s = false -> tls13 s <> None.
Proof. unfold handshaking. destruct (tls13 s); congruence. Qed.

(** The translator after a call of the record layer that moved at most [len]
    bytes. *)
Lemma return_code_within (ret len : Z) (m : machine) :
  0 <= len <= INT_MAX -> ret <= len -> tls13 (conn m) <> None ->
  endpoints_bound (conn m) ->
  exists r m',
    tls13_legacy_return_code ret m = Ok r m' /\
    calls m' = calls m /\ same_session (conn m) (conn m') /\
    -1 <= r <= len /\ (0 < ret -> r = ret) /\ (ret <= 0 -> r = 0 \/ r = -1) /\
    (r = 0 -> ret = TLS13_IO_EOF).
Proof.
  intros Hlen Hret Hctx Hb.
  destruct (Z.ltb_spec 0 ret) as [Hpos | Hnon].
  - exists ret, m.
    split; [apply return_code_byte_count_eq; lia |].
    split; [reflexivity |]. split; [apply same_session_refl |].
    repeat split; try lia; auto.
  - destruct (return_code_non_positive_value ret m Hnon Hctx Hb)
      as (m' & Hrun & Hc & Hs).
    eexists _, m'. split; [exact Hrun |]. split; [exact Hc |].
    split; [exact Hs |].
    destruct (Z.eqb_spec ret TLS13_IO_EOF); repeat split; try lia; auto.
Qed.

(** X6.  An established read of application data with a length between 0
    and [INT_MAX] makes exactly one call: a peek when [peek] is set, a
    consuming read otherwise, for [len] bytes.  With both BIOs set and a
    record layer that leaves them in place and delivers at most what is
    asked for, the value returned is between -1 and [len]: the count
    delivered when that is positive, 0 only for [EOF], and -1 otherwise. *)
Theorem established_read (type len peek : Z) (m : machine) :
  data_contract -> endpoints_contract ->
  handshaking (conn m) = false -> endpoints_bound (conn m) ->
  type = SSL3_RT_APPLICATION_DATA ->
  0 <= len <= INT_MAX ->
  exists ret r m',
    tls13_legacy_read_bytes type len peek m = Ok r m' /\
    calls m' = calls m ++
               [if peek =? 0 then Call_read_application_data len ret
                else Call_peek_application_data len ret] /\
    ret = fst (if peek =? 0 then tls13_read_application_data (conn m) len
               else tls13_peek_application_data (conn m) len) /\
    -1 <= r <= len /\ (0 < ret -> r = ret) /\ (ret <= 0 -> r = 0 \/ r = -1) /\
    (r = 0 -> ret = TLS13_IO_EOF).
Proof.
  intros Hrl Hep Hhs Hb Htype Hlen.
  pose proof (established_context _ Hhs) as Hctx.
  pose proof Hep as (_ & _ & _ & Hpkeep & Hrkeep & _).
  destruct (Hrl (conn m) [] len ltac:(lia))
    as ((Hp1 & Hp2) & (Hr1 & Hr2) & _).
  unfold tls13_legacy_read_bytes. run. rewrite Hhs. simpl.
  rewrite Htype, Z.eqb_refl. simpl.
  destruct (Z.ltb_spec len 0); [lia |].
  rewrite to_size_t_small by lia.
  destruct (Z.eqb_spec peek 0) as [Hpeek | Hpeek]; simpl;
    rewrite extern_runs.
  - set (ret := fst (tls13_read_application_data (conn m) len)) in *.
    destruct (return_code_within ret len
                {| conn := snd (tls13_read_application_data (conn m) len);
                   calls := calls m ++ [Call_read_application_data len ret] |}
                Hlen Hr1 (Hr2 Hctx) (Hrkeep len (conn m) Hb))
      as (r & m' & Hrun & Hc & _ & Hfacts).
    exists ret, r, m'. split; [exact Hrun |]. split; [exact Hc |].
    split; [reflexivity | exact Hfacts].
  - set (ret := fst (tls13_peek_application_data (conn m) len)) in *.
    destruct (return_code_within ret len
                {| conn := snd (tls13_peek_application_data (conn m) len);
                   calls := calls m ++ [Call_peek_application_data len ret] |}
                Hlen Hp1 (Hp2 Hctx) (Hpkeep len (conn m) Hb))
      as (r & m' & Hrun & Hc & _ & Hfacts).
    exists ret, r, m'. split; [exact Hrun |]. split; [exact Hc |].
    split; [reflexivity | exact Hfacts].
Qed.

(** X7.  With partial writes allowed, an established write of application
    data makes exactly one call, offering the whole buffer and length,
    whatever the fuel and whatever sent count is carried: the carried count
    is neither checked nor written.  With both BIOs set and a record layer
    that leaves them in place and accepts at most what is offered, the value
    returned is between -1 and [len]: the count accepted when that is
    positive. *)
Theorem partial_write (fuel : nat) (type : Z) (buf : list byte) (len : Z)
    (m : machine) :
  data_contract -> endpoints_contract ->
  handshaking (conn m) = false -> endpoints_bound (conn m) ->
  partial_write_mode (conn m) ->
  type = SSL3_RT_APPLICATION_DATA ->
  0 <= len <= INT_MAX ->
  exists ret r m',
    tls13_legacy_write_bytes fuel type buf len m = Ok r m' /\
    calls m' = calls m ++ [Call_write_application_data buf len ret] /\
    ret = fst (tls13_write_application_data (conn m) buf len) /\
    wnum (conn m') =
      wnum (snd (tls13_write_application_data (conn m) buf len)) /\
    -1 <= r <= len /\ (0 < ret -> r = ret) /\ (ret <= 0 -> r = 0 \/ r = -1).
Proof.
  intros Hrl Hep Hhs Hb Hmode Htype Hlen.
  pose proof (established_context _ Hhs) as Hctx.
  pose proof Hep as (_ & _ & _ & _ & _ & Hwkeep & _).
  destruct (Hrl (conn m) buf len ltac:(lia)) as (_ & _ & (Hw1 & Hw2)).
  unfold tls13_legacy_write_bytes. run. rewrite Hhs. simpl.
  rewrite Htype, Z.eqb_refl. simpl.
  destruct (Z.ltb_spec len 0); [lia |].
  unfold partial_write_mode in Hmode.
  destruct (Z.eqb_spec (Z.land (mode (conn m)) SSL_MODE_ENABLE_PARTIAL_WRITE)
                       0); [contradiction |].
  simpl. rewrite to_size_t_small by lia. rewrite extern_runs.
  set (ret := fst (tls13_write_application_data (conn m) buf len)) in *.
  destruct (return_code_within ret len
              {| conn := snd (tls13_write_application_data (conn m) buf len);
                 calls := calls m ++
                          [Call_write_application_data buf len ret] |}
              Hlen Hw1 (Hw2 Hctx) (Hwkeep buf len (conn m) Hb))
    as (r & m' & Hrun & Hc & Hs & Hrange & Hp & Hn & _).
  exists ret, r, m'. split; [exact Hrun |]. split; [exact Hc |].
  split; [reflexivity |]. split; [| auto].
  destruct Hs as (_ & _ & Hw & _). exact Hw.
Qed.

End EstablishedPaths.

(** ** Strict writes deliver the buffer in order *)

Section StrictDelivery.
Context {SH : ssl_locl_h} {TH : tls13_internal_h} {LC : libcrypto}
        {CO : collaborators}.
Local Open Scope adapter_scope.

Lemma firstn_plus {A : Type} (a b : nat) (l : list A) :
  firstn (a + b) l = firstn a l ++ firstn b (skipn a l).
Proof.
  revert l. induction a as [| a IH]; intros l; [reflexivity |].
  destruct l as [| x l]; simpl.
  - now rewrite firstn_nil.
  - now rewrite IH.
Qed.

Lemma delivered_app (l1 l2 : list call) :
  delivered (l1 ++ l2) = delivered l1 ++ delivered l2.
Proof. unfold delivered. apply flat_map_app. Qed.

(** The writes of one strict call take the buffer over where the carried
    count left off. *)
Lemma suffix_writes_delivered (buf : list byte) (len : Z) (l : list call) :
  forall (sent : Z) (stop : option Z),
    0 <= sent ->
    suffix_writes buf len sent l stop ->
    firstn (Z.to_nat sent) buf ++ delivered l =
    firstn (Z.to_nat (sent + accepted l)) buf.
Proof.
  induction l as [| c l IH]; intros sent stop Hsent Hsw.
  - simpl. now rewrite app_nil_r, Z.add_0_r.
  - simpl in Hsw. destruct Hsw as (r & -> & Hlt & Hrest).
    change (delivered (Call_write_application_data
                         (skipn (Z.to_nat sent) buf) (len - sent) r :: l))
      with (firstn (Z.to_nat r) (skipn (Z.to_nat sent) buf) ++ delivered l).
    change (accepted (Call_write_application_data
                        (skipn (Z.to_nat sent) buf) (len - sent) r :: l))
      with (Z.max 0 r + accepted l).
    destruct (Z.leb_spec r 0) as [Hr | Hr].
    + destruct Hrest as (-> & _). simpl.
      replace (Z.to_nat r) with 0%nat by lia. simpl.
      rewrite app_nil_r. f_equal. lia.
    + rewrite app_assoc, <- firstn_plus.
      replace (Z.to_nat sent + Z.to_nat r)%nat with (Z.to_nat (sent + r))
        by lia.
      rewrite (IH (sent + r) stop ltac:(lia) Hrest). f_equal. lia.
Qed.

(** Over the caller's retry loop. *)
Lemma write_retry_delivered (fuel : nat) (type : Z) (buf : list byte)
    (len : Z) :
  write_contract -> endpoints_contract ->
  type = SSL3_RT_APPLICATION_DATA ->
  0 <= len <= INT_MAX ->
  len < Z.of_nat fuel ->
  forall (k : nat) (m : machine),
    strict_established (conn m) -> endpoints_bound (conn m) ->
    0 <= wnum (conn m) <= len ->
    exists obs m' l,
      write_retry k fuel type buf len m = Ok obs m' /\
      new_calls m m' l /\
      firstn (Z.to_nat (wnum (conn m))) buf ++ delivered l =
      firstn (Z.to_nat (wnum (conn m) + accepted l)) buf.
Proof.
  intros Hrl Hep Htype Hlen Hfuel k.
  induction k as [| k IH]; intros m Hst Hb Hw.
  - exists [], m, []. split; [reflexivity |].
    split; [unfold new_calls; now rewrite app_nil_r |].
    simpl. now rewrite app_nil_r, Z.add_0_r.
  - cbn [write_retry]. unfold bind at 1.
    destruct (strict_write_call fuel type buf len m)
      as (r & m1 & l1 & stop & Hrun & Hc1 & Hsw & Hst1 & Hout & Hb1);
      try (assumption || lia).
    pose proof (suffix_writes_delivered buf len l1 _ stop (proj1 Hw) Hsw)
      as Hd1.
    rewrite Hrun. run.
    destruct (Z.eqb_spec r len) as [Hdone | Hmore].
    + exists [(r, wnum (conn m1))], m1, l1. auto.
    + destruct stop as [ret |]; simpl in Hout.
      * destruct Hout as (_ & _ & Hw1 & Hshort & _).
        pose proof (accepted_nonneg l1) as Hnn.
        destruct (IH m1 Hst1 Hb1) as (obs & m' & l2 & Hrest & Hc2 & Hd2);
          [lia |].
        rewrite Hrest.
        exists ((r, wnum (conn m1)) :: obs), m', (l1 ++ l2).
        split; [reflexivity |].
        split; [unfold new_calls in *; rewrite Hc2, Hc1;
                now rewrite app_assoc |].
        rewrite delivered_app, accepted_app, app_assoc, Hd1.
        rewrite Hw1 in Hd2. rewrite Hd2. f_equal. lia.
      * destruct Hout as (Hr & _). contradiction.
Qed.

(** X8.  Over the caller's retry loop of a strict write, with both BIOs set
    and left in place by the record layer, the bytes the record layer has
    taken over so far, put after the bytes already carried at the start, are
    a prefix of the buffer: nothing is lost, repeated or reordered.  When
    the loop ends with the full length returned, they are the first [len]
    bytes of the buffer. *)
Theorem strict_write_delivers_in_order (fuel : nat) (type : Z)
    (buf : list byte) (len : Z) (k : nat) (m : machine) :
  write_contract -> endpoints_contract ->
  strict_established (conn m) -> endpoints_bound (conn m) ->
  type = SSL3_RT_APPLICATION_DATA ->
  0 <= wnum (conn m) <= len -> len <= INT_MAX ->
  len < Z.of_nat fuel ->
  exists obs m' l,
    write_retry (S k) fuel type buf len m = Ok obs m' /\
    new_calls m m' l /\
    firstn (Z.to_nat (wnum (conn m))) buf ++ delivered l =
    firstn (Z.to_nat (wnum (conn m) + accepted l)) buf /\
    (In (len, 0) obs ->
     firstn (Z.to_nat (wnum (conn m))) buf ++ delivered l =
     firstn (Z.to_nat len) buf).
Proof.
  intros Hrl Hep Hst Hb Htype Hw Hlen Hfuel.
  destruct (write_retry_delivered fuel type buf len Hrl Hep Htype ltac:(lia)
              Hfuel (S k) m Hst Hb Hw)
    as (obs & m' & l & Hrun & Hc & Hd).
  destruct (write_retry_spec fuel type buf len Hrl Hep Htype ltac:(lia)
              Hfuel (S k) m Hst Hb Hw)
    as (obs2 & m2 & l2 & Hrun2 & Hc2 & _ & Hcases).
  rewrite Hrun in Hrun2. injection Hrun2 as <- <-.
  assert (l2 = l) as ->.
  { unfold new_calls in *. rewrite Hc in Hc2.
    now apply app_inv_head in Hc2. }
  exists obs, m', l. split; [exact Hrun |]. split; [exact Hc |].
  split; [exact Hd |].
  intros Hin. rewrite Hd. f_equal. f_equal.
  destruct Hcases as [(pre & _ & _ & _ & Hsum & _) | (_ & Hall & _)];
    [exact Hsum |].
  exfalso. rewrite Forall_forall in Hall.
  destruct (Hall _ Hin) as (Hr & Hlt). simpl in *. lia.
Qed.

End StrictDelivery.

(** ** One pass of the shutdown *)

Section ShutdownPass.
Context {SH : ssl_locl_h} {TH : tls13_internal_h} {LC : libcrypto}
        {CO : collaborators}.
Local Open Scope adapter_scope.

Lemma flush_end_shape (r : Z) (m' : machine) (lf : list call) :
  flush_end r m' lf ->
  (r = -1 \/ r = 0 \/ r = 1) /\
  exists lf' lr,
    lf = lf' ++ lr /\
    (exists rf, lf' = [Call_send_pending rf]) /\
    (lr = [] \/
     exists rr, lr = [Call_read_application_data 512 rr] /\
                lf' = [Call_send_pending TLS13_IO_SUCCESS]).
Proof.
  intros [rf Hrf Hr Heof | rr Hne Hr Hpos | lr Hlr Hr Hfl Hnone].
  - split; [destruct Hr; auto |].
    exists [Call_send_pending rf], []. split; [reflexivity |]. eauto.
  - split; [auto |].
    exists [Call_send_pending TLS13_IO_SUCCESS],
           [Call_read_application_data 512 rr].
    split; [reflexivity |]. split; [eauto |]. right. eauto.
  - split.
    { unfold checked_result in Hr.
      destruct (close_notify_recv_flag (conn m') =? 0); auto. }
    exists [Call_send_pending TLS13_IO_SUCCESS], lr.
    split; [reflexivity |]. split; [eauto |].
    destruct Hlr as [-> | ->]; [auto | right; eauto].
Qed.

Lemma shutdown_end_shape (m : machine) (r : Z) (m' : machine)
    (l : list call) :
  shutdown_end m r m' l ->
  (r = -1 \/ r = 0 \/ r = 1) /\ shutdown_calls_shape l.
Proof.
  unfold shutdown_calls_shape.
  intros [ra Hs Hra Hr Heof | ra lf Hs Hra Hf | lf Hs Hf].
  - split; [destruct Hr; auto |].
    exists [Call_send_alert SSL_AD_CLOSE_NOTIFY ra], [], [].
    split; [reflexivity |]. split; [eauto |]. auto.
  - destruct (flush_end_shape r m' lf Hf)
      as (Hr & lf' & lr & -> & Hlf & Hlr).
    split; [exact Hr |].
    exists [Call_send_alert SSL_AD_CLOSE_NOTIFY ra], lf', lr.
    split; [reflexivity |]. split; [eauto |]. split; [auto | exact Hlr].
  - destruct (flush_end_shape r m' lf Hf)
      as (Hr & lf' & lr & -> & Hlf & Hlr).
    split; [exact Hr |].
    exists [], lf', lr.
    split; [reflexivity |]. split; [auto |]. split; [auto | exact Hlr].
Qed.

Lemma shutdown_call_summary (m : machine) :
  io_sentinels_wf -> shutdown_contract -> endpoints_contract ->
  endpoints_bound (conn m) ->
  exists r m' l,
    tls13_legacy_shutdown m = Ok r m' /\ new_calls m m' l /\
    (r = -1 \/ r = 0 \/ r = 1) /\ shutdown_calls_shape l.
Proof.
  intros Hwf Hrl Hep Hb.
  destruct (trivial_shutdown (conn m)) eqn:Htriv.
  - eexists 1, _, [].
    split; [now apply shutdown_trivial_runs |].
    split; [unfold new_calls; simpl; now rewrite app_nil_r |].
    split; [auto |]. exists [], [], []. auto.
  - destruct (shutdown_not_trivial m Htriv) as (Hrun & Hctx).
    destruct (shutdown_send_spec m Hwf Hrl Hep Hctx Hb)
      as (r & m' & l & Hsend & Hc & _ & _ & Hend & _).
    exists r, m', l. rewrite Hrun.
    split; [exact Hsend |]. split; [exact Hc |].
    exact (shutdown_end_shape m r m' l Hend).
Qed.

(** X9.  On a connection with both BIOs set, and with a record layer that
    leaves them in place, keeps the close-notify-sent flag set and whose
    flush reports success or a non-positive outcome, the shutdown operation
    returns, and what it returns is -1, 0 or 1.  Without a handshake
    context or with quiet shutdown configured it returns 1 whatever the
    BIOs are. *)
Theorem shutdown_returns (m : machine) :
  io_sentinels_wf -> shutdown_contract -> endpoints_contract ->
  endpoints_bound (conn m) \/ trivial_shutdown (conn m) = true ->
  exists r m',
    tls13_legacy_shutdown m = Ok r m' /\ (r = -1 \/ r = 0 \/ r = 1) /\
    (trivial_shutdown (conn m) = true -> r = 1).
Proof.
  intros Hwf Hrl Hep [Hb | Htriv].
  - destruct (shutdown_call_summary m Hwf Hrl Hep Hb)
      as (r & m' & l & Hrun & _ & Hr & _).
    exists r, m'. split; [exact Hrun |]. split; [exact Hr |].
    intros Htriv. rewrite shutdown_trivial_runs in Hrun by exact Htriv.
    now injection Hrun as <- _.
  - eexists 1, _. split; [now apply shutdown_trivial_runs |]. auto.
Qed.

(** X10.  One call of the shutdown operation, on a connection with both
    BIOs set and left in place by the record layer, makes one pass: at most
    the close-notify alert, then one flush, then one read of 512 bytes into
    the scratch buffer, the read only after a flush that reported success.
    It never drives the handshake, never writes or peeks application data
    and never reads twice. *)
Theorem shutdown_one_pass (m : machine) :
  io_sentinels_wf -> shutdown_contract -> endpoints_contract ->
  endpoints_bound (conn m) ->
  exists r m' l,
    tls13_legacy_shutdown m = Ok r m' /\ new_calls m m' l /\
    shutdown_calls_shape l /\ (List.length l <= 3)%nat.
Proof.
  intros Hwf Hrl Hep Hb.
  destruct (shutdown_call_summary m Hwf Hrl Hep Hb)
    as (r & m' & l & Hrun & Hc & _ & Hshape).
  exists r, m', l. split; [exact Hrun |]. split; [exact Hc |].
  split; [exact Hshape |].
  destruct Hshape as (la & lf & lr & -> & Hla & Hlf & Hlr).
  rewrite !length_app.
  destruct Hla as [-> | (ra & ->)]; destruct Hlf as [-> | (rf & ->)];
    destruct Hlr as [-> | (rr & -> & _)]; simpl; lia.
Qed.

End ShutdownPass.

(** ** The wire adapter *)

Section WireFacts.
Context {SH : ssl_locl_h} {TH : tls13_internal_h} {LC : libcrypto}
        {CO : collaborators} {TR : transport}.
Local Open Scope adapter_scope.

Lemma wire_read_missing (len : Z) (m : machine) :
  BIO_is_NULL (rbio (conn m)) = true ->
  tls13_legacy_wire_read len m =
    Ok TLS13_IO_FAILURE (on_conn (SSLerror_at SSL_R_BIO_NOT_SET 34) m).
Proof.
  intros Hnull. unfold tls13_legacy_wire_read. run. rewrite Hnull.
  reflexivity.
Qed.

Lemma wire_write_missing (buf : list byte) (len : Z) (m : machine) :
  BIO_is_NULL (wbio (conn m)) = true ->
  tls13_legacy_wire_write buf len m =
    Ok TLS13_IO_FAILURE (on_conn (SSLerror_at SSL_R_BIO_NOT_SET 71) m).
Proof.
  intros Hnull. unfold tls13_legacy_wire_write. run. rewrite Hnull.
  reflexivity.
Qed.

(** The read with an endpoint: the outcome, and the machine it leaves. *)
Lemma wire_read_present (len : Z) (m : machine) :
  BIO_is_NULL (rbio (conn m)) = false ->
  let n := bio_read_count (conn m) len in
  let b' := bio_read_left (conn m) len in
  let q := bio_read_queue (conn m) len in
  tls13_legacy_wire_read len m =
    Ok (if n <=? 0 then
          if negb (BIO_should_read b' =? 0) then TLS13_IO_WANT_POLLIN
          else if negb (BIO_should_write b' =? 0) then TLS13_IO_WANT_POLLOUT
          else if n =? 0 then TLS13_IO_EOF
          else TLS13_IO_FAILURE
        else n)
       (on_conn (fun s => set_rwstate
                            (if full_transfer n len then SSL_NOTHING
                             else SSL_READING)
                            (set_err q (set_rbio b' s))) m).
Proof.
  intros Hnull n b' q. subst n b' q.
  unfold tls13_legacy_wire_read, bio_read_count, bio_read_left,
    bio_read_queue, full_transfer.
  run. rewrite Hnull. simpl. unfold on_rbio. simpl.
  destruct (BIO_read (rbio (conn m)) (to_int len) (err (conn m)))
    as [[n b'] q].
  simpl.
  destruct (Z.leb_spec n 0) as [Hn | Hn]; simpl.
  - destruct (Z.ltb_spec 0 n); [lia |]. simpl.
    destruct (negb (BIO_should_read b' =? 0)); [reflexivity |].
    destruct (negb (BIO_should_write b' =? 0)); [reflexivity |].
    destruct (n =? 0); reflexivity.
  - destruct (Z.ltb_spec 0 n); [| lia]. simpl.
    destruct (to_size_t n =? len); reflexivity.
Qed.

Lemma wire_write_present (buf : list byte) (len : Z) (m : machine) :
  BIO_is_NULL (wbio (conn m)) = false ->
  let n := bio_write_count (conn m) buf len in
  let b' := bio_write_left (conn m) buf len in
  let q := bio_write_queue (conn m) buf len in
  tls13_legacy_wire_write buf len m =
    Ok (if n <=? 0 then
          if negb (BIO_should_read b' =? 0) then TLS13_IO_WANT_POLLIN
          else if negb (BIO_should_write b' =? 0) then TLS13_IO_WANT_POLLOUT
          else TLS13_IO_FAILURE
        else n)
       (on_conn (fun s => set_rwstate
                            (if full_transfer n len then SSL_NOTHING
                             else SSL_WRITING)
                            (set_err q (set_wbio b' s))) m).
Proof.
  intros Hnull n b' q. subst n b' q.
  unfold tls13_legacy_wire_write, bio_write_count, bio_write_left,
    bio_write_queue, full_transfer.
  run. rewrite Hnull. simpl. unfold on_wbio. simpl.
  destruct (BIO_write (wbio (conn m)) buf (to_int len) (err (conn m)))
    as [[n b'] q].
  simpl.
  destruct (Z.leb_spec n 0) as [Hn | Hn]; simpl.
  - destruct (Z.ltb_spec 0 n); [lia |]. simpl.
    destruct (negb (BIO_should_read b' =? 0)); [reflexivity |].
    destruct (negb (BIO_should_write b' =? 0)); reflexivity.
  - destruct (Z.ltb_spec 0 n); [| lia]. simpl.
    destruct (to_size_t n =? len); reflexivity.
Qed.

(** X11.  The wire read always returns, and calls no collaborator.  Its
    outcome is a positive count, exactly when there is a read endpoint and
    [BIO_read] reported that count, or one of [EOF], [FAILURE],
    [WANT_POLLIN], [WANT_POLLOUT].  It is [EOF] exactly when the endpoint
    reported 0 bytes and raised neither retry flag; when the endpoint moved
    nothing and asks to retry reading, it is [WANT_POLLIN] whatever the
    write flag says. *)
Theorem wire_read_outcome (len : Z) (m : machine) :
  io_sentinels_wf ->
  let n := bio_read_count (conn m) len in
  let b' := bio_read_left (conn m) len in
  exists r m',
    tls13_legacy_wire_read len m = Ok r m' /\ calls m' = calls m /\
    (0 < r \/ In r [TLS13_IO_EOF; TLS13_IO_FAILURE; TLS13_IO_WANT_POLLIN;
                    TLS13_IO_WANT_POLLOUT]) /\
    (0 < r <-> BIO_is_NULL (rbio (conn m)) = false /\ 0 < n) /\
    (0 < r -> r = n) /\
    (r = TLS13_IO_EOF <->
     BIO_is_NULL (rbio (conn m)) = false /\ n = 0 /\
     BIO_should_read b' = 0 /\ BIO_should_write b' = 0) /\
    (BIO_is_NULL (rbio (conn m)) = false -> n <= 0 ->
     BIO_should_read b' <> 0 -> r = TLS13_IO_WANT_POLLIN).
Proof.
  intros Hwf n b'. unfold io_sentinels_wf, io_sentinels in Hwf.
  spell_out Hwf.
  destruct (BIO_is_NULL (rbio (conn m))) eqn:Hnull.
  - eexists _, _. split; [now apply wire_read_missing |].
    split; [reflexivity |]. simpl.
    split; [auto |].
    split; [split; [lia | intros (? & _); discriminate] |].
    split; [lia |].
    split; [split; [intros E; by_distinct | intros (? & _); discriminate] |].
    discriminate.
  - eexists _, _. split; [now apply wire_read_present |].
    split; [reflexivity |]. fold n b'. simpl.
    destruct (Z.leb_spec n 0) as [Hn | Hn].
    + destruct (Z.eqb_spec (BIO_should_read b') 0) as [Hr | Hr]; simpl;
        [destruct (Z.eqb_spec (BIO_should_write b') 0) as [Hw | Hw]; simpl;
         [destruct (Z.eqb_spec n 0) as [Hz | Hz] |] |].
      * split; [auto |]. split; [split; [lia | intros (_ & ?); lia] |].
        split; [lia |]. split; [| contradiction]. split; auto.
      * split; [auto |]. split; [split; [lia | intros (_ & ?); lia] |].
        split; [lia |]. split; [| contradiction].
        split; [intros E; by_distinct | intros (_ & ? & _); contradiction].
      * split; [auto 6 |]. split; [split; [lia | intros (_ & ?); lia] |].
        split; [lia |]. split; [| contradiction].
        split; [intros E; by_distinct
               | intros (_ & _ & _ & ?); contradiction].
      * split; [auto 6 |]. split; [split; [lia | intros (_ & ?); lia] |].
        split; [lia |]. split; [| auto].
        split; [intros E; by_distinct
               | intros (_ & _ & ? & _); contradiction].
    + split; [auto |]. split; [split; auto |]. split; [auto |].
      split; [| intros; lia].
      split; [intros E; lia | intros (_ & ? & _); lia].
Qed.

(** X12.  The wire write always returns, and calls no collaborator.  Its
    outcome is a positive count, exactly when there is a write endpoint and
    [BIO_write] reported that count, or one of [FAILURE], [WANT_POLLIN],
    [WANT_POLLOUT]; it is never [EOF]: an endpoint that accepted nothing and
    raised no retry flag is a failure.  When the endpoint asks to retry
    reading, the outcome is [WANT_POLLIN] whatever the write flag says. *)
Theorem wire_write_outcome (buf : list byte) (len : Z) (m : machine) :
  io_sentinels_wf ->
  let n := bio_write_count (conn m) buf len in
  let b' := bio_write_left (conn m) buf len in
  exists r m',
    tls13_legacy_wire_write buf len m = Ok r m' /\ calls m' = calls m /\
    (0 < r \/ In r [TLS13_IO_FAILURE; TLS13_IO_WANT_POLLIN;
                    TLS13_IO_WANT_POLLOUT]) /\
    r <> TLS13_IO_EOF /\
    (0 < r <-> BIO_is_NULL (wbio (conn m)) = false /\ 0 < n) /\
    (0 < r -> r = n) /\
    (BIO_is_NULL (wbio (conn m)) = false -> n <= 0 ->
     BIO_should_read b' = 0 -> BIO_should_write b' = 0 ->
     r = TLS13_IO_FAILURE) /\
    (BIO_is_NULL (wbio (conn m)) = false -> n <= 0 ->
     BIO_should_read b' <> 0 -> r = TLS13_IO_WANT_POLLIN).
Proof.
  intros Hwf n b'. unfold io_sentinels_wf, io_sentinels in Hwf.
  spell_out Hwf.
  destruct (BIO_is_NULL (wbio (conn m))) eqn:Hnull.
  - eexists _, _. split; [now apply wire_write_missing |].
    split; [reflexivity |]. simpl.
    split; [auto |]. split; [intros E; by_distinct |].
    split; [split; [lia | intros (? & _); discriminate] |].
    split; [lia |]. split; discriminate.
  - eexists _, _. split; [now apply wire_write_present |].
    split; [reflexivity |]. fold n b'. simpl.
    destruct (Z.leb_spec n 0) as [Hn | Hn].
    + destruct (Z.eqb_spec (BIO_should_read b') 0) as [Hr | Hr]; simpl;
        [destruct (Z.eqb_spec (BIO_should_write b') 0) as [Hw | Hw]; simpl |].
      * split; [auto |]. split; [intros E; by_distinct |].
        split; [split; [lia | intros (_ & ?); lia] |].
        split; [lia |]. split; [auto | contradiction].
      * split; [auto 6 |]. split; [intros E; by_distinct |].
        split; [split; [lia | intros (_ & ?); lia] |].
        split; [lia |]. split; contradiction.
      * split; [auto 6 |]. split; [intros E; by_distinct |].
        split; [split; [lia | intros (_ & ?); lia] |].
        split; [lia |]. split; [contradiction | auto].
    + split; [auto |]. split; [lia |]. split; [split; auto |].
      split; [auto |]. split; intros; lia.
Qed.

(** X13.  The retry intent after a wire transfer.  Without an endpoint it
    is left as it was.  With one, it is none when the endpoint moved all the
    bytes asked for, and otherwise reading after a wire read and writing
    after a wire write: the direction of the operation, also when the
    endpoint asked to retry in the other direction. *)
Theorem wire_retry_intent (buf : list byte) (len : Z) (m : machine) :
  (exists r m',
     tls13_legacy_wire_read len m = Ok r m' /\
     rwstate (conn m') =
       if BIO_is_NULL (rbio (conn m)) then rwstate (conn m)
       else if full_transfer (bio_read_count (conn m) len) len
            then SSL_NOTHING else SSL_READING) /\
  (exists r m',
     tls13_legacy_wire_write buf len m = Ok r m' /\
     rwstate (conn m') =
       if BIO_is_NULL (wbio (conn m)) then rwstate (conn m)
       else if full_transfer (bio_write_count (conn m) buf len) len
            then SSL_NOTHING else SSL_WRITING).
Proof.
  split.
  - destruct (BIO_is_NULL (rbio (conn m))) eqn:Hnull.
    + eexists _, _. split; [now apply wire_read_missing | reflexivity].
    + eexists _, _. split; [now apply wire_read_present | reflexivity].
  - destruct (BIO_is_NULL (wbio (conn m))) eqn:Hnull.
    + eexists _, _. split; [now apply wire_write_missing | reflexivity].
    + eexists _, _. split; [now apply wire_write_present | reflexivity].
Qed.

End WireFacts.

Section WireDiagnostics.
Context {SH : ssl_locl_h} {TH : tls13_internal_h} {LC : libcrypto}
        {CO : collaborators} {TR : transport}.
Local Open Scope adapter_scope.

(** X14.  The wire adapter files a diagnostic of its own for a missing
    endpoint and for nothing else.  Without the endpoint the outcome is
    [FAILURE] with the BIO-not-set diagnostic, and neither the BIO nor the
    retry intent is touched; with it, whatever the transfer reports, a
    failure included, the error queue after the call is the one the
    transfer left: what libcrypto put there, and nothing added to it. *)
Theorem wire_diagnostics (buf : list byte) (len : Z) (m : machine) :
  (BIO_is_NULL (rbio (conn m)) = true ->
   tls13_legacy_wire_read len m =
     Ok TLS13_IO_FAILURE (on_conn (SSLerror_at SSL_R_BIO_NOT_SET 34) m)) /\
  (BIO_is_NULL (wbio (conn m)) = true ->
   tls13_legacy_wire_write buf len m =
     Ok TLS13_IO_FAILURE (on_conn (SSLerror_at SSL_R_BIO_NOT_SET 71) m)) /\
  (BIO_is_NULL (rbio (conn m)) = false ->
   exists r m', tls13_legacy_wire_read len m = Ok r m' /\
                err (conn m') = bio_read_queue (conn m) len) /\
  (BIO_is_NULL (wbio (conn m)) = false ->
   exists r m', tls13_legacy_wire_write buf len m = Ok r m' /\
                err (conn m') = bio_write_queue (conn m) buf len).
Proof.
  split; [apply wire_read_missing |]. split; [apply wire_write_missing |].
  split; intros Hnull.
  - eexists _, _. split; [now apply wire_read_present | reflexivity].
  - eexists _, _. split; [now apply wire_write_present | reflexivity].
Qed.

End WireDiagnostics.

(** ** The shutdown bits *)

Section ShutdownBits.
Context {SH : ssl_locl_h} {TH : tls13_internal_h} {LC : libcrypto}
        {CO : collaborators}.
Local Open Scope adapter_scope.

Lemma return_code_keeps_bits (ret r : Z) (m m' : machine) :
  tls13_legacy_return_code ret m = Ok r m' ->
  shutdown (conn m') = shutdown (conn m).
Proof.
  intros Hrun.
  destruct (return_code_frame ret r m m' Hrun) as (_ & Hs).
  unfold same_session in Hs. intuition.
Qed.

Lemma shutdown_receive_keeps_bits (r : Z) (m m' : machine) :
  leaves_shutdown_bits read_scratch ->
  shutdown_receive m = Ok r m' ->
  shutdown (conn m') = shutdown (conn m).
Proof.
  intros Hread. unfold shutdown_receive, shutdown_result.
  unfold bind at 1. unfold ctx_field at 1.
  destruct (tls13 (conn m)) as [c |] eqn:Hc; [| discriminate].
  destruct (close_notify_recv c =? 0).
  - unfold bind at 1. rewrite extern_runs.
    fold (read_scratch (conn m)).
    set (m1 := {| conn := snd (read_scratch (conn m)); calls := _ |}).
    assert (H1 : shutdown (conn m1) = shutdown (conn m)) by apply Hread.
    match goal with
    | |- context [negb (?x =? TLS13_IO_EOF)] => destruct (x =? TLS13_IO_EOF)
    end; simpl.
    + unfold bind, ctx_field.
      destruct (tls13 (conn m1)); [| discriminate].
      destruct (negb (close_notify_recv _ =? 0)); unfold ret_;
        intros H; injection H as <- <-; exact H1.
    + intros Hrc. rewrite (return_code_keeps_bits _ _ _ _ Hrc). exact H1.
  - unfold bind, ctx_field. rewrite Hc.
    destruct (negb (close_notify_recv c =? 0)); unfold ret_;
      intros H; injection H as <- <-; reflexivity.
Qed.

Lemma shutdown_flush_keeps_bits (r : Z) (m m' : machine) :
  shutdown_bits_contract ->
  shutdown_flush m = Ok r m' ->
  shutdown (conn m') = shutdown (conn m).
Proof.
  intros (_ & Hflush & Hread). unfold shutdown_flush.
  unfold bind at 1. rewrite extern_runs.
  set (m1 := {| conn := snd (tls13_record_layer_send_pending (conn m));
                calls := _ |}).
  assert (H1 : shutdown (conn m1) = shutdown (conn m)) by apply Hflush.
  destruct (negb (_ =? TLS13_IO_SUCCESS)).
  - intros Hrc. rewrite (return_code_keeps_bits _ _ _ _ Hrc). exact H1.
  - intros Hrc.
    rewrite (shutdown_receive_keeps_bits _ _ _ Hread Hrc). exact H1.
Qed.

(** Whatever the non-trivial shutdown returns, it returns with the shutdown
    bits it found. *)
Lemma shutdown_keeps_bits (r : Z) (m m' : machine) :
  shutdown_bits_contract ->
  trivial_shutdown (conn m) = false ->
  tls13_legacy_shutdown m = Ok r m' ->
  shutdown (conn m') = shutdown (conn m).
Proof.
  intros Hrl Htriv.
  destruct (shutdown_not_trivial m Htriv) as (-> & Hctx).
  pose proof Hrl as (Halert & _).
  unfold shutdown_send. unfold bind at 1.
  rewrite ctx_field_flag by assumption.
  destruct (ctx_flag close_notify_sent (conn m) =? 0).
  - unfold bind at 1. unfold modify at 1. unfold bind at 1.
    rewrite extern_runs.
    set (m0 := on_conn mark_close_notify_sent m).
    fold (send_close_notify (conn m0)).
    set (m1 := {| conn := snd (send_close_notify (conn m0)); calls := _ |}).
    assert (H1 : shutdown (conn m1) = shutdown (conn m))
      by (unfold m1; simpl; rewrite Halert; reflexivity).
    destruct (_ <? 0).
    + intros Hrc. rewrite (return_code_keeps_bits _ _ _ _ Hrc). exact H1.
    + intros Hrc.
      rewrite (shutdown_flush_keeps_bits _ _ _ Hrl Hrc). exact H1.
  - intros Hrc. exact (shutdown_flush_keeps_bits _ _ _ Hrl Hrc).
Qed.

(** X15.  Only the trivial shutdown sets the shutdown bits of the
    connection.  On the other path, with both BIOs set and left in place,
    the operation returns and never writes them: with a record layer that
    leaves them alone they are after the call what they were before it,
    whatever is returned, 1 included. *)
Theorem shutdown_leaves_bits (m : machine) :
  io_sentinels_wf -> shutdown_contract -> shutdown_bits_contract ->
  endpoints_contract -> endpoints_bound (conn m) ->
  trivial_shutdown (conn m) = false ->
  exists r m',
    tls13_legacy_shutdown m = Ok r m' /\
    shutdown (conn m') = shutdown (conn m).
Proof.
  intros Hwf Hrl Hbits Hep Hb Htriv.
  destruct (shutdown_call_summary m Hwf Hrl Hep Hb)
    as (r & m' & l & Hrun & _).
  exists r, m'. split; [exact Hrun |].
  exact (shutdown_keeps_bits r m m' Hbits Htriv Hrun).
Qed.

End ShutdownBits.

(** ** The work of one strict call *)

Section StrictWork.
Context {SH : ssl_locl_h} {TH : tls13_internal_h} {LC : libcrypto}
        {CO : collaborators}.
Local Open Scope adapter_scope.

Lemma suffix_writes_bounded (buf : list byte) (len : Z) (l : list call) :
  forall (sent : Z) (stop : option Z),
    0 <= sent <= len ->
    suffix_writes buf len sent l stop ->
    Z.of_nat (List.length l) <= len - sent /\
    Forall (fun c => exists d n r, c = Call_write_application_data d n r /\
                                   0 < n <= len) l.
Proof.
  induction l as [| c l IH]; intros sent stop Hsent Hsw.
  - simpl. split; [lia | constructor].
  - simpl in Hsw. destruct Hsw as (r & -> & Hlt & Hrest).
    destruct (Z.leb_spec r 0) as [Hr | Hr].
    + destruct Hrest as (-> & _). simpl. split; [lia |].
      constructor; [| constructor]. eexists _, _, _. split; [reflexivity |].
      lia.
    + destruct (IH (sent + r) stop) as (Hlen & Hall); [| exact Hrest |].
      * destruct l as [| c' l']; [simpl in Hrest; lia |].
        simpl in Hrest. destruct Hrest as (? & _ & H & _). lia.
      * split; [simpl List.length; lia |].
        constructor; [| exact Hall].
        eexists _, _, _. split; [reflexivity |]. lia.
Qed.

(** X16.  One strict call of a write of [len] bytes that resumes with [w]
    bytes carried, on a connection with both BIOs set and left in place by
    the record layer, makes at most [len - w] calls, every one of them a
    write offering at least one byte and at most [len]; it never drives the
    handshake and never reads. *)
Theorem strict_write_bounded (fuel : nat) (type : Z) (buf : list byte)
    (len : Z) (m : machine) :
  write_contract -> endpoints_contract ->
  strict_established (conn m) -> endpoints_bound (conn m) ->
  type = SSL3_RT_APPLICATION_DATA ->
  0 <= wnum (conn m) <= len -> len <= INT_MAX ->
  len < Z.of_nat fuel ->
  exists r m' l,
    tls13_legacy_write_bytes fuel type buf len m = Ok r m' /\
    new_calls m m' l /\
    Z.of_nat (List.length l) <= len - wnum (conn m) /\
    Forall (fun c => exists d n r, c = Call_write_application_data d n r /\
                                   0 < n <= len) l.
Proof.
  intros Hrl Hep Hst Hb Htype Hw Hlen Hfuel.
  destruct (strict_write_call fuel type buf len m)
    as (r & m' & l & stop & Hrun & Hc & Hsw & _ & _);
    try (assumption || lia).
  exists r, m', l. split; [exact Hrun |]. split; [exact Hc |].
  exact (suffix_writes_bounded buf len l _ stop Hw Hsw).
Qed.

End StrictWork.

(** ** The further theorems at explicit inputs *)

Section FurtherInputs.
#[local] Existing Instance Reference.ssl_h.
#[local] Existing Instance Reference.tls13_h.
#[local] Existing Instance Reference.crypto.
#[local] Existing Instance Reference.peers.
#[local] Existing Instance ReferenceWire.sockets.
Local Open Scope adapter_scope.

Lemma reference_data_contract : data_contract.
Proof.
  intros s data n Hn. unfold within_request. simpl.
  unfold Reference.on_record_layer.
  destruct (tls13 s) as [c |]; simpl.
  - unfold Reference.deliver, Reference.accept.
    destruct (Reference.inbound (rl c)) as [| x rest];
      destruct (Reference.outbound (rl c)) as [| y rest']; simpl;
      repeat split; try discriminate; try lia;
      destruct (Z.gtb_spec x 0); lia.
  - repeat split; auto; lia.
Qed.

Lemma reference_shutdown_bits_contract : shutdown_bits_contract.
Proof.
  unfold shutdown_bits_contract, leaves_shutdown_bits, send_close_notify,
    read_scratch.
  simpl. unfold Reference.on_record_layer.
  repeat apply conj; intros s; destruct (tls13 s) as [c |]; simpl; auto.
  - destruct (Reference.flush _) as [o r']; reflexivity.
  - destruct (Reference.flush _) as [o r']; reflexivity.
  - destruct (Reference.deliver true 512 c (rl c)) as [[r rl'] recv'];
      reflexivity.
Qed.

(** *** Runs of the wire adapter, of a partial write and of the translator
    without a BIO *)

Example run_wire_read_short :
  let m := Reference.start (ReferenceWire.wired (16 * 3) 0) in
  tls13_legacy_wire_read 5 m =
    Ok 3 (on_conn (fun s => set_rwstate SSL_READING (set_rbio 0 s)) m).
Proof. reflexivity. Qed.

Example run_wire_read_full :
  let m := Reference.start (ReferenceWire.wired (16 * 7) 0) in
  tls13_legacy_wire_read 5 m =
    Ok 5 (on_conn (fun s => set_rwstate SSL_NOTHING (set_rbio 32 s)) m).
Proof. reflexivity. Qed.

Example run_wire_write_refused :
  let m := Reference.start (ReferenceWire.wired 0 0) in
  tls13_legacy_wire_write Reference.hello 5 m =
    Ok TLS13_IO_FAILURE (on_conn (set_rwstate SSL_WRITING) m).
Proof. reflexivity. Qed.

Example run_wire_read_broken :
  Reference.observe
    (tls13_legacy_wire_read 5 (Reference.start (ReferenceWire.wired 4 0))) =
  Some (TLS13_IO_FAILURE, 0, SSL_READING, [],
        [(Reference.ERR_PACK 32 0 2, "bss_sock.c"%string, 120)]).
Proof. reflexivity. Qed.

Example run_partial_write :
  Reference.observe
    (tls13_legacy_write_bytes 0 23 Reference.hello 5
       (Reference.start ReferenceWire.partial)) =
  Some (3, 0, 1, [Call_write_application_data Reference.hello 5 3], []).
Proof. reflexivity. Qed.

Example run_return_code_without_bio :
  tls13_legacy_return_code TLS13_IO_WANT_POLLIN
    (Reference.start Reference.deaf) = Stuck NullBIO /\
  tls13_legacy_return_code TLS13_IO_WANT_POLLOUT
    (Reference.start Reference.mute) = Stuck NullBIO /\
  Reference.observe
    (tls13_legacy_return_code TLS13_IO_WANT_POLLOUT
       (Reference.start Reference.deaf)) =
    Some (-1, 0, SSL_WRITING, [], []).
Proof. repeat split; reflexivity. Qed.

(** *** Applications *)

Lemma return_code_unknown_outcome_witness :
  let m := Reference.start Reference.established in
  -9 <= 0 /\ ~ In (-9) io_sentinels /\
  tls13_legacy_return_code (-9) m =
    Ok (-1) (on_conn (fun s => SSLerror_at ERR_R_INTERNAL_ERROR 174
                                 (set_rwstate SSL_NOTHING s)) m).
Proof.
  intros m.
  assert (H1 : -9 <= 0) by lia.
  assert (H2 : ~ In (-9) io_sentinels)
    by (unfold io_sentinels; simpl; intuition discriminate).
  split; [exact H1 |]. split; [exact H2 |].
  exact (return_code_unknown_outcome (-9) m H1 H2).
Defined.

(** The outcome [WANT_POLLOUT] on a connection without a read BIO: the
    write BIO is the one that is needed. *)
Lemma return_code_range_witness :
  let m := Reference.start Reference.deaf in
  (tls13 (conn m) <> None \/ fatal_alert (conn m) <> 0) /\
  endpoint_for TLS13_IO_WANT_POLLOUT (conn m) /\
  exists r m',
    tls13_legacy_return_code TLS13_IO_WANT_POLLOUT m = Ok r m' /\
    -1 <= r <= INT_MAX.
Proof.
  intros m.
  assert (H : tls13 (conn m) <> None \/ fatal_alert (conn m) <> 0)
    by (left; discriminate).
  assert (Hep : endpoint_for TLS13_IO_WANT_POLLOUT (conn m))
    by (split; [discriminate | reflexivity]).
  split; [exact H |]. split; [exact Hep |].
  destruct (return_code_range TLS13_IO_WANT_POLLOUT m H Hep)
    as (r & m' & Hrun & Hr & _).
  exists r, m'. auto.
Defined.

Lemma return_code_needs_endpoint_witness :
  let m := Reference.start Reference.deaf in
  io_sentinels_wf /\
  tls13_legacy_return_code TLS13_IO_WANT_POLLIN m = Stuck NullBIO /\
  tls13_legacy_return_code TLS13_IO_WANT_POLLOUT m <> Stuck NullBIO /\
  tls13_legacy_return_code TLS13_IO_FAILURE m <> Stuck NullBIO.
Proof.
  intros m. split; [exact reference_io_sentinels_wf |].
  split; [| split].
  - apply (return_code_needs_endpoint TLS13_IO_WANT_POLLIN m
             reference_io_sentinels_wf).
    left. split; reflexivity.
  - intros E.
    apply (return_code_needs_endpoint TLS13_IO_WANT_POLLOUT m
             reference_io_sentinels_wf) in E.
    destruct E as [(E & _) | (_ & E)]; discriminate E.
  - intros E.
    apply (return_code_needs_endpoint TLS13_IO_FAILURE m
             reference_io_sentinels_wf) in E.
    destruct E as [(E & _) | (E & _)]; discriminate E.
Defined.

Lemma return_code_intent_witness :
  let m := Reference.start Reference.established in
  io_sentinels_wf /\ TLS13_IO_WANT_POLLOUT <= 0 /\
  (tls13 (conn m) <> None \/ fatal_alert (conn m) <> 0) /\
  endpoint_for TLS13_IO_WANT_POLLOUT (conn m) /\
  exists r m',
    tls13_legacy_return_code TLS13_IO_WANT_POLLOUT m = Ok r m' /\
    rwstate (conn m') = SSL_WRITING.
Proof.
  intros m.
  assert (H0 : TLS13_IO_WANT_POLLOUT <= 0) by (simpl; lia).
  assert (H : tls13 (conn m) <> None \/ fatal_alert (conn m) <> 0)
    by (left; discriminate).
  assert (Hep : endpoint_for TLS13_IO_WANT_POLLOUT (conn m))
    by (split; reflexivity).
  split; [exact reference_io_sentinels_wf |]. split; [exact H0 |].
  split; [exact H |]. split; [exact Hep |].
  exact (return_code_intent TLS13_IO_WANT_POLLOUT m
           reference_io_sentinels_wf H0 H Hep).
Defined.

Lemma established_request_errors_witness :
  let m := Reference.start Reference.established in
  handshaking (conn m) = false /\
  tls13_legacy_read_bytes 22 (-7) 0 m =
    Ok (-1) (on_conn (SSLerror_at ERR_R_SHOULD_NOT_HAVE_BEEN_CALLED 207) m) /\
  tls13_legacy_write_bytes 6 23 Reference.hello (-7) m =
    Ok (-1) (on_conn (SSLerror_at SSL_R_BAD_LENGTH 242) m).
Proof.
  intros m.
  assert (Hh : handshaking (conn m) = false) by reflexivity.
  split; [exact Hh |].
  destruct (established_request_errors 6 22 (-7) 0 Reference.hello m Hh)
    as (Htype & _).
  destruct (established_request_errors 6 23 (-7) 0 Reference.hello m Hh)
    as (_ & Hlen).
  split.
  - apply Htype. discriminate.
  - apply Hlen; [reflexivity | lia].
Defined.

Lemma established_read_witness :
  let m := Reference.start Reference.established in
  data_contract /\ endpoints_contract /\
  handshaking (conn m) = false /\ endpoints_bound (conn m) /\
  0 <= 4 <= INT_MAX /\
  exists ret r m',
    tls13_legacy_read_bytes 23 4 1 m = Ok r m' /\
    calls m' = calls m ++ [Call_peek_application_data 4 ret] /\
    -1 <= r <= 4.
Proof.
  intros m.
  assert (H : 0 <= 4 <= INT_MAX) by (unfold INT_MAX; lia).
  assert (Hh : handshaking (conn m) = false) by reflexivity.
  assert (Hb : endpoints_bound (conn m)) by (split; reflexivity).
  assert (Ht : 23 = SSL3_RT_APPLICATION_DATA) by reflexivity.
  split; [exact reference_data_contract |].
  split; [exact reference_endpoints_contract |].
  split; [exact Hh |]. split; [exact Hb |]. split; [exact H |].
  destruct (established_read 23 4 1 m reference_data_contract
              reference_endpoints_contract Hh Hb Ht H)
    as (ret & r & m' & Hrun & Hc & _ & Hr & _).
  exists ret, r, m'. auto.
Defined.

Lemma partial_write_witness :
  let m := Reference.start (set_wnum 9 ReferenceWire.partial) in
  data_contract /\ endpoints_contract /\
  handshaking (conn m) = false /\ endpoints_bound (conn m) /\
  partial_write_mode (conn m) /\ 0 <= 5 <= INT_MAX /\
  exists ret r m',
    tls13_legacy_write_bytes 0 23 Reference.hello 5 m = Ok r m' /\
    calls m' = calls m ++ [Call_write_application_data Reference.hello 5 ret] /\
    -1 <= r <= 5.
Proof.
  intros m.
  assert (H1 : partial_write_mode (conn m))
    by (unfold partial_write_mode; simpl; discriminate).
  assert (H2 : 0 <= 5 <= INT_MAX) by (unfold INT_MAX; lia).
  assert (Hh : handshaking (conn m) = false) by reflexivity.
  assert (Hb : endpoints_bound (conn m)) by (split; reflexivity).
  assert (Ht : 23 = SSL3_RT_APPLICATION_DATA) by reflexivity.
  split; [exact reference_data_contract |].
  split; [exact reference_endpoints_contract |].
  split; [exact Hh |]. split; [exact Hb |].
  split; [exact H1 |]. split; [exact H2 |].
  destruct (partial_write 0 23 Reference.hello 5 m reference_data_contract
              reference_endpoints_contract Hh Hb H1 Ht H2)
    as (ret & r & m' & Hrun & Hc & _ & _ & Hr & _).
  exists ret, r, m'. auto.
Defined.

Lemma strict_write_delivers_in_order_witness :
  let m := Reference.start Reference.established in
  write_contract /\ endpoints_contract /\
  strict_established (conn m) /\ endpoints_bound (conn m) /\
  0 <= wnum (conn m) <= 5 /\ 5 <= INT_MAX /\ 5 < Z.of_nat 6 /\
  exists obs m' l,
    write_retry 3 6 23 Reference.hello 5 m = Ok obs m' /\
    new_calls m m' l /\
    (In (5, 0) obs -> delivered l = firstn 5 Reference.hello).
Proof.
  intros m.
  assert (H1 : strict_established (conn m)) by (split; reflexivity).
  assert (Hb : endpoints_bound (conn m)) by (split; reflexivity).
  assert (H2 : 0 <= wnum (conn m) <= 5) by (simpl; lia).
  assert (H3 : 5 <= INT_MAX) by (unfold INT_MAX; lia).
  assert (H4 : 5 < Z.of_nat 6) by (simpl; lia).
  assert (Ht : 23 = SSL3_RT_APPLICATION_DATA) by reflexivity.
  split; [exact reference_write_contract |].
  split; [exact reference_endpoints_contract |].
  split; [exact H1 |]. split; [exact Hb |].
  split; [exact H2 |]. split; [exact H3 |]. split; [exact H4 |].
  destruct (strict_write_delivers_in_order 6 23 Reference.hello 5 2 m
              reference_write_contract reference_endpoints_contract
              H1 Hb Ht H2 H3 H4)
    as (obs & m' & l & Hrun & Hc & _ & Hdone).
  exists obs, m', l. split; [exact Hrun |]. split; [exact Hc |].
  exact Hdone.
Defined.

Lemma strict_write_bounded_witness :
  let m := Reference.start Reference.established in
  write_contract /\ endpoints_contract /\
  strict_established (conn m) /\ endpoints_bound (conn m) /\
  0 <= wnum (conn m) <= 5 /\ 5 <= INT_MAX /\ 5 < Z.of_nat 6 /\
  exists r m' l,
    tls13_legacy_write_bytes 6 23 Reference.hello 5 m = Ok r m' /\
    new_calls m m' l /\ Z.of_nat (List.length l) <= 5.
Proof.
  intros m.
  assert (H1 : strict_established (conn m)) by (split; reflexivity).
  assert (Hb : endpoints_bound (conn m)) by (split; reflexivity).
  assert (H2 : 0 <= wnum (conn m) <= 5) by (simpl; lia).
  assert (H3 : 5 <= INT_MAX) by (unfold INT_MAX; lia).
  assert (H4 : 5 < Z.of_nat 6) by (simpl; lia).
  assert (Ht : 23 = SSL3_RT_APPLICATION_DATA) by reflexivity.
  split; [exact reference_write_contract |].
  split; [exact reference_endpoints_contract |].
  split; [exact H1 |]. split; [exact Hb |].
  split; [exact H2 |]. split; [exact H3 |]. split; [exact H4 |].
  destruct (strict_write_bounded 6 23 Reference.hello 5 m
              reference_write_contract reference_endpoints_contract
              H1 Hb Ht H2 H3 H4)
    as (r & m' & l & Hrun & Hc & Hlen & _).
  exists r, m', l. split; [exact Hrun |]. split; [exact Hc |].
  simpl in Hlen. lia.
Defined.

Lemma shutdown_returns_witness :
  let m := Reference.start Reference.established in
  io_sentinels_wf /\ shutdown_contract /\ endpoints_contract /\
  endpoints_bound (conn m) /\
  exists r m',
    tls13_legacy_shutdown m = Ok r m' /\ (r = -1 \/ r = 0 \/ r = 1).
Proof.
  intros m.
  assert (Hb : endpoints_bound (conn m)) by (split; reflexivity).
  split; [exact reference_io_sentinels_wf |].
  split; [exact reference_shutdown_contract |].
  split; [exact reference_endpoints_contract |]. split; [exact Hb |].
  destruct (shutdown_returns m reference_io_sentinels_wf
              reference_shutdown_contract reference_endpoints_contract
              (or_introl Hb))
    as (r & m' & Hrun & Hr & _).
  exists r, m'. auto.
Defined.

Lemma shutdown_one_pass_witness :
  let m := Reference.start Reference.established in
  io_sentinels_wf /\ shutdown_contract /\ endpoints_contract /\
  endpoints_bound (conn m) /\
  exists r m' l,
    tls13_legacy_shutdown m = Ok r m' /\ new_calls m m' l /\
    shutdown_calls_shape l /\ (List.length l <= 3)%nat.
Proof.
  intros m.
  assert (Hb : endpoints_bound (conn m)) by (split; reflexivity).
  split; [exact reference_io_sentinels_wf |].
  split; [exact reference_shutdown_contract |].
  split; [exact reference_endpoints_contract |]. split; [exact Hb |].
  exact (shutdown_one_pass m reference_io_sentinels_wf
           reference_shutdown_contract reference_endpoints_contract Hb).
Defined.

Lemma shutdown_leaves_bits_witness :
  let m := Reference.start Reference.established in
  io_sentinels_wf /\ shutdown_contract /\ shutdown_bits_contract /\
  endpoints_contract /\ endpoints_bound (conn m) /\
  trivial_shutdown (conn m) = false /\
  exists r m',
    tls13_legacy_shutdown m = Ok r m' /\
    shutdown (conn m') = shutdown (conn m).
Proof.
  intros m.
  assert (Hb : endpoints_bound (conn m)) by (split; reflexivity).
  assert (Ht : trivial_shutdown (conn m) = false) by reflexivity.
  split; [exact reference_io_sentinels_wf |].
  split; [exact reference_shutdown_contract |].
  split; [exact reference_shutdown_bits_contract |].
  split; [exact reference_endpoints_contract |]. split; [exact Hb |].
  split; [exact Ht |].
  exact (shutdown_leaves_bits m reference_io_sentinels_wf
           reference_shutdown_contract reference_shutdown_bits_contract
           reference_endpoints_contract Hb Ht).
Defined.

Lemma wire_read_outcome_witness :
  let m := Reference.start (ReferenceWire.wired 11 0) in
  io_sentinels_wf /\
  exists r m',
    tls13_legacy_wire_read 5 m = Ok r m' /\ r = TLS13_IO_WANT_POLLIN.
Proof.
  intros m. split; [exact reference_io_sentinels_wf |].
  destruct (wire_read_outcome 5 m reference_io_sentinels_wf)
    as (r & m' & Hrun & _ & _ & _ & _ & _ & Hin).
  exists r, m'. split; [exact Hrun |].
  apply Hin; [reflexivity | |]; vm_compute; intros Hc; discriminate Hc.
Defined.

Lemma wire_write_outcome_witness :
  let m := Reference.start (ReferenceWire.wired 0 0) in
  io_sentinels_wf /\
  exists r m',
    tls13_legacy_wire_write Reference.hello 5 m = Ok r m' /\
    r <> TLS13_IO_EOF /\ r = TLS13_IO_FAILURE.
Proof.
  intros m. split; [exact reference_io_sentinels_wf |].
  destruct (wire_write_outcome Reference.hello 5 m reference_io_sentinels_wf)
    as (r & m' & Hrun & _ & _ & Hne & _ & _ & Hfail & _).
  exists r, m'. split; [exact Hrun |]. split; [exact Hne |].
  apply Hfail; [reflexivity | | reflexivity | reflexivity].
  vm_compute; intros Hc; discriminate Hc.
Defined.

(** Without a read BIO the adapter files its own diagnostic; with a broken
    write BIO the queue holds the diagnostic of the BIO library and nothing
    else. *)
Lemma wire_diagnostics_witness :
  let m := Reference.start (ReferenceWire.wired (-1) 4) in
  BIO_is_NULL (rbio (conn m)) = true /\
  BIO_is_NULL (wbio (conn m)) = false /\
  tls13_legacy_wire_read 5 m =
    Ok TLS13_IO_FAILURE (on_conn (SSLerror_at SSL_R_BIO_NOT_SET 34) m) /\
  exists r m', tls13_legacy_wire_write Reference.hello 5 m = Ok r m' /\
               err (conn m') =
                 [(Reference.ERR_PACK 32 0 2, "bss_sock.c"%string, 120)].
Proof.
  intros m.
  assert (Hr : BIO_is_NULL (rbio (conn m)) = true) by reflexivity.
  assert (Hw : BIO_is_NULL (wbio (conn m)) = false) by reflexivity.
  destruct (wire_diagnostics Reference.hello 5 m) as (Hread & _ & _ & Hwrite).
  split; [exact Hr |]. split; [exact Hw |].
  split; [exact (Hread Hr) | exact (Hwrite Hw)].
Defined.

End FurtherInputs.
